(** * thoth.common.openshift: parameter upsert, status normalisation and
      the namespace guards of the OpenShift facade

    A shallow embedding of [src/thoth/common/openshift.py].  Python
    dictionaries are insertion-ordered association lists, documents that
    come from the cluster are untyped JSON-like values, exceptions are an
    error monad, and every call that leaves the process (the dynamic
    client, [requests], the token file, the random generator) is a node of
    a small interaction tree. *)

From Stdlib Require Import ZArith String Ascii List Bool Lia.
From stdpp Require Import base tactics option list strings pretty.

Local Open Scope string_scope.
Local Open Scope list_scope.
Local Open Scope Z_scope.

(** ** Python values *)

Module Py.

(** Scalars: [None], booleans, integers and strings. *)
Inductive atom :=
| ANone
| ABool (b : bool)
| AInt (z : Z)
| AStr (s : string).

(** Documents: scalars, lists and dictionaries.  A dictionary keeps its
    insertion order, which is the order in which [items()] yields it. *)
#[warnings="-register-all"]
Inductive value :=
| VAtom (a : atom)
| VList (l : list value)
| VDict (d : list (string * value)).

Abbreviation odict := (list (string * value)).

Definition VNone : value := VAtom ANone.
Definition VStr (s : string) : value := VAtom (AStr s).
Definition VInt (z : Z) : value := VAtom (AInt z).

Inductive exn :=
| KeyError (key : string)
| IndexError
| TypeError
| AttributeError
| RuntimeError
| HTTPError (status_code : Z)
| NotFoundError
| ConfigurationError (msg : string)
| NotFoundException.

Inductive result (A : Type) :=
| Ok (a : A)
| Err (e : exn).
Arguments Ok {A} a.
Arguments Err {A} e.

#[global] Instance result_ret : MRet result := λ A, Ok.
#[global] Instance result_bind : MBind result := λ A B f m,
  match m with Ok a => f a | Err e => Err e end.
#[global] Instance result_fmap : FMap result := λ A B f m,
  match m with Ok a => Ok (f a) | Err e => Err e end.

#[global] Instance result_join : MJoin result := λ A m,
  match m with Ok a => a | Err e => Err e end.

(** The two library printers whose output is only passed along: [repr] of
    a list or a dictionary, and [json.dumps]. *)
Class Printers := {
  repr : value → string;
  json_dumps : value → string
}.

(** [str(x)]. *)
Definition str `{Printers} (x : value) : string :=
  match x with
  | VAtom ANone => "None"
  | VAtom (ABool true) => "True"
  | VAtom (ABool false) => "False"
  | VAtom (AInt z) => pretty z
  | VAtom (AStr s) => s
  | _ => repr x
  end.

(** Truthiness of an optional string attribute: [None] and [""] are falsy. *)
Definition truthy (o : option string) : bool :=
  match o with
  | None => false
  | Some s => negb (bool_decide (s = ""))
  end.

(** [d.get(k)]: the value bound to [k], if any. *)
Fixpoint dict_get (k : string) (d : odict) : option value :=
  match d with
  | [] => None
  | (k', v) :: d' => if decide (k' = k) then Some v else dict_get k d'
  end.

(** [k in d]. *)
Definition dict_has (k : string) (d : odict) : bool :=
  match dict_get k d with Some _ => true | None => false end.

(** [d.pop(k, None)], keeping what is left of [d]. *)
Fixpoint dict_del (k : string) (d : odict) : odict :=
  match d with
  | [] => []
  | (k', v) :: d' => if decide (k' = k) then d' else (k', v) :: dict_del k d'
  end.

(** [d[k] = v]: overwrite in place, or insert at the end. *)
Fixpoint dict_set (k : string) (v : value) (d : odict) : odict :=
  match d with
  | [] => [(k, v)]
  | (k', v') :: d' =>
      if decide (k' = k) then (k, v) :: d' else (k', v') :: dict_set k v d'
  end.

Definition keys (d : odict) : list string := d.*1.

(** [x[k]] with a string subscript. *)
Definition getitem (x : value) (k : string) : result value :=
  match x with
  | VDict d =>
      match dict_get k d with
      | Some v => Ok v
      | None => Err (KeyError k)
      end
  | _ => Err TypeError
  end.

(** [x[k] = v] with a string subscript. *)
Definition setitem (x : value) (k : string) (v : value) : result value :=
  match x with
  | VDict d => Ok (VDict (dict_set k v d))
  | _ => Err TypeError
  end.

(** [x[0]]. *)
Definition first_item (x : value) : result value :=
  match x with
  | VList (v :: _) => Ok v
  | VList [] => Err IndexError
  | VAtom (AStr (String c _)) => Ok (VStr (String c ""))
  | VAtom (AStr "") => Err IndexError
  | VDict _ => Err (KeyError "0")
  | VAtom _ => Err TypeError
  end.

(** [x[0] = v]. *)
Definition set_first_item (x : value) (v : value) : result value :=
  match x with
  | VList (_ :: l) => Ok (VList (v :: l))
  | VList [] => Err IndexError
  | VDict d => Ok (VDict (dict_set "0" v d))
  | VAtom _ => Err TypeError
  end.

Fixpoint chars (s : string) : list value :=
  match s with
  | "" => []
  | String c s' => VStr (String c "") :: chars s'
  end.

(** The sequence a [for] loop runs over. *)
Definition iterate (x : value) : result (list value) :=
  match x with
  | VList l => Ok l
  | VDict d => Ok (VStr <$> keys d)
  | VAtom (AStr s) => Ok (chars s)
  | VAtom _ => Err TypeError
  end.

(** [x.items()]. *)
Definition items (x : value) : result odict :=
  match x with
  | VDict d => Ok d
  | _ => Err AttributeError
  end.

(** [x.get(k, default)]. *)
Definition get (x : value) (k : string) (default : value) : result value :=
  match x with
  | VDict d => Ok (match dict_get k d with Some v => v | None => default end)
  | _ => Err AttributeError
  end.

(** [k in x]: a key of a dictionary, an element of a list, a substring of
    a string. *)
Definition contains (x : value) (k : string) : result bool :=
  match x with
  | VDict d => Ok (dict_has k d)
  | VList l => Ok (existsb (λ v, match v with
                                 | VAtom (AStr s) => bool_decide (s = k)
                                 | _ => false
                                 end) l)
  | VAtom (AStr s) =>
      Ok (match String.index 0 k s with Some _ => true | None => false end)
  | VAtom _ => Err TypeError
  end.

(** [x.append(v)]. *)
Definition append (x : value) (v : value) : result value :=
  match x with
  | VList l => Ok (VList (l ++ [v]))
  | _ => Err AttributeError
  end.

(** [x == z] for an integer [z]; [True] and [False] count as 1 and 0. *)
Definition eq_int (x : value) (z : Z) : bool :=
  match x with
  | VAtom (AInt z') => bool_decide (z' = z)
  | VAtom (ABool b) => bool_decide ((if b then 1 else 0) = z)
  | _ => false
  end.

(** [s[n:]]. *)
Fixpoint drop_chars (n : nat) (s : string) : string :=
  match n, s with
  | O, _ => s
  | S n', String _ s' => drop_chars n' s'
  | S _, "" => ""
  end.

(** [x == s] for a string [s]. *)
Definition eq_str (x : value) (s : string) : bool :=
  match x with
  | VAtom (AStr s') => bool_decide (s' = s)
  | _ => false
  end.

(** A [for] loop that threads the mutated object through its body. *)
Fixpoint for_each {A B : Type} (body : A → B → result A) (xs : list B) (a : A)
  : result A :=
  match xs with
  | [] => Ok a
  | x :: xs' => a' ← body a x; for_each body xs' a'
  end.

End Py.
Import Py.

(** ** Parameter upsert *)

(** The inner [for entry in entries: if entry["name"] == name: ...; break]
    loop.  [Some entries'] when an entry matched and had its value
    overwritten, [None] when the loop ran to its end, which is when the
    [else] branch of the loop runs. *)
Fixpoint overwrite_first (name : string) (new_value : value)
    (entries : list value) : result (option (list value)) :=
  match entries with
  | [] => Ok None
  | entry :: rest =>
      n ← getitem entry "name";
      if eq_str n name then
        entry' ← setitem entry "value" new_value;
        Ok (Some (entry' :: rest))
      else
        found ← overwrite_first name new_value rest;
        Ok (option_map (cons entry) found)
  end.

Definition new_entry (name : string) (v : value) : value :=
  VDict [("name", VStr name); ("value", v)].

(** [template["spec"]["containers"][0]["env"]]. *)
Definition get_env (template : value) : result value :=
  spec ← getitem template "spec";
  containers ← getitem spec "containers";
  container ← first_item containers;
  getitem container "env".

(** The same path after the list object at its end was mutated. *)
Definition put_env (template : value) (env : value) : result value :=
  spec ← getitem template "spec";
  containers ← getitem spec "containers";
  container ← first_item containers;
  container' ← setitem container "env" env;
  containers' ← set_first_item containers container';
  spec' ← setitem spec "containers" containers';
  setitem template "spec" spec'.

(** One round of the outer loop of [_set_env_var]. *)
Definition set_env_var_step `{Printers} (template : value)
    (item : string * value) : result value :=
  let '(env_var_name, env_var_value) := item in
  env ← get_env template;
  entries ← iterate env;
  found ← overwrite_first env_var_name env_var_value entries;
  match found with
  | Some entries' => put_env template (VList entries')
  | None =>
      env' ← append env (new_entry env_var_name (VStr (str env_var_value)));
      put_env template env'
  end.

Definition _set_env_var `{Printers} (template : value)
    (env_var : list (string * value)) : result value :=
  for_each set_env_var_step env_var template.

(** [str(parameter_value) if parameter_value is not None else ""]. *)
Definition str_or_empty `{Printers} (parameter_value : value) : string :=
  match parameter_value with
  | VAtom ANone => ""
  | _ => str parameter_value
  end.

(** One round of the outer loop of [set_template_parameters]. *)
Definition set_parameter_step `{Printers} (template : value)
    (item : string * value) : result value :=
  let '(parameter_name, parameter_value) := item in
  parameters ← getitem template "parameters";
  entries ← iterate parameters;
  found ← overwrite_first parameter_name
             (VStr (str_or_empty parameter_value)) entries;
  match found with
  | Some entries' => setitem template "parameters" (VList entries')
  | None =>
      parameters' ← append parameters
        (new_entry parameter_name (VStr (str_or_empty parameter_value)));
      setitem template "parameters" parameters'
  end.

Definition set_template_parameters `{Printers} (template : value)
    (parameters : list (string * value)) : result value :=
  metadata ← getitem template "metadata";
  _ ← getitem metadata "name";
  template ← contains template "parameters" ≫= (λ present : bool,
                if present then Ok template
                else setitem template "parameters" (VList []));
  for_each set_parameter_step parameters template.


(** ** Status normalisation *)

(** [if state.get("terminated", {}).get("exitCode") == 137 and
       state["terminated"]["reason"] == "Error": ...] in [get_pod_status]:
    a kill by the liveness probe is renamed. *)
Definition rename_timeout_kill (state : value) : result value :=
  terminated ← get state "terminated" (VDict []);
  exit_code ← get terminated "exitCode" VNone;
  if eq_int exit_code 137 then
    terminated ← getitem state "terminated";
    reason ← getitem terminated "reason";
    if eq_str reason "Error" then
      terminated' ← setitem terminated "reason" (VStr "TimeoutKilled");
      setitem state "terminated" terminated'
    else Ok state
  else Ok state.

(** The tail of [get_pod_status], from the pod document on. *)
Definition pod_state (response : value) : result value :=
  status ← getitem response "status";
  contains status "containerStatuses" ≫= (λ present : bool,
    if negb present then Ok (VDict [])
    else
      statuses ← getitem status "containerStatuses";
      container_status ← first_item statuses;
      state ← getitem container_status "state";
      rename_timeout_kill state).

Definition _TRANSLATION_TABLE : list (string * string) :=
  [("exitCode", "exit_code");
   ("finishedAt", "finished_at");
   ("reason", "reason");
   ("startedAt", "started_at");
   ("containerID", "container");
   ("message", "reason")].

Fixpoint table_get (k : string) (t : list (string * string)) : option string :=
  match t with
  | [] => None
  | (k', v) :: t' => if decide (k' = k) then Some v else table_get k t'
  end.

(** [dict.fromkeys(ks)]. *)
Definition dict_fromkeys (ks : list string) : odict :=
  foldl (λ d k, dict_set k VNone d) [] ks.

(** [value[len("docker://"):] if value.startswith("docker://") else value]. *)
Definition strip_docker (x : value) : result value :=
  match x with
  | VAtom (AStr s) =>
      Ok (VStr (if String.prefix "docker://" s
                then drop_chars (String.length "docker://") s
                else s))
  | _ => Err AttributeError
  end.

(** The body of the loop over the fields of the state. *)
Definition report_field (reported_status : odict) (item : string * value)
  : result odict :=
  let '(key, x) := item in
  if decide (key = "containerID") then
    x' ← strip_docker x;
    Ok (dict_set "container" x' reported_status)
  else
    match table_get key _TRANSLATION_TABLE with
    | Some key' => Ok (dict_set key' x reported_status)
    | None => Err (KeyError key)
    end.

Definition _status_report (status : value) : result value :=
  ks ← keys <$> items status;
  if bool_decide (length ks ≠ 1%nat) then
    Ok (VDict (dict_set "state" (VStr "scheduling")
                 (dict_fromkeys (_TRANSLATION_TABLE.*2))))
  else
    match ks with
    | [] => Err IndexError
    | state :: _ =>
        let reported_status :=
          dict_set "state" (VStr state)
            (dict_fromkeys (_TRANSLATION_TABLE.*2)) in
        fields ← getitem status state ≫= items;
        VDict <$> for_each report_field fields reported_status
    end.

(** ** Calls that leave the process *)

Record http_response := {
  status_code : Z;
  text : string;
  json : result value
}.

(** What the facade asks of its surroundings, indexed by what comes back.
    A lookup through the dynamic client, [resources.get(...).get(...)] or
    [resources.get(...).create(...)], is one call. *)
Inductive call : Type → Type :=
| ResourceGet (api_version kind : string)
    (namespace name label_selector : option string) : call (result value)
| ResourceCreate (api_version kind : value) (body : value)
    (namespace : option string) : call (result value)
| RequestsGet (endpoint bearer : string) (verify : bool)
    : call (result http_response)
| RequestsPost (endpoint : string) (body : value) (bearer : string)
    (verify : bool) : call (result http_response)
| ServiceAccountToken : call (result string)
| ConfiguredBearerToken : call (result string)
| GetRandBits (k : nat) : call Z.

(** The calls that go over the network. *)
Definition is_network {X : Type} (c : call X) : bool :=
  match c with
  | ResourceGet _ _ _ _ _ | ResourceCreate _ _ _ _
  | RequestsGet _ _ _ | RequestsPost _ _ _ _ => true
  | ServiceAccountToken | ConfiguredBearerToken | GetRandBits _ => false
  end.

Inductive prog (A : Type) : Type :=
| Ret (a : A)
| Raise (e : exn)
| Vis {X : Type} (c : call X) (k : X → prog A).
Arguments Ret {A} a.
Arguments Raise {A} e.
Arguments Vis {A X} c k.

Fixpoint prog_bind {A B : Type} (f : A → prog B) (m : prog A) : prog B :=
  match m with
  | Ret a => f a
  | Raise e => Raise e
  | Vis c k => Vis c (λ x, prog_bind f (k x))
  end.

#[global] Instance prog_ret : MRet prog := λ A, Ret.
#[global] Instance prog_mbind : MBind prog := λ A B, prog_bind.

Definition lift {A : Type} (r : result A) : prog A :=
  match r with Ok a => Ret a | Err e => Raise e end.

Definition perform {X : Type} (c : call (result X)) : prog X := Vis c lift.

Definition ask {X : Type} (c : call X) : prog X := Vis c Ret.

(** Loops whose body performs calls. *)
Fixpoint for_each_prog {A B : Type} (body : A → B → prog A) (xs : list B)
    (a : A) : prog A :=
  match xs with
  | [] => Ret a
  | x :: xs' => a' ← body a x; for_each_prog body xs' a'
  end.

(** Execution against surroundings that answer each call knowing the
    calls made so far; the calls are recorded in order. *)
Definition trace := list { X : Type & call X }.
Definition world := trace → ∀ X : Type, call X → X.

Fixpoint run {A : Type} (w : world) (tr : trace) (p : prog A)
  : trace * result A :=
  match p with
  | Ret a => (tr, Ok a)
  | Raise e => (tr, Err e)
  | Vis c k => run w (tr ++ [existT _ c]) (k (w tr _ c))
  end.

Definition network_calls (tr : trace) : trace :=
  filter (λ e, is_network (projT2 e) = true) tr.

(** ** The client *)

Record OpenShift := {
  amun_inspection_namespace : option string;
  frontend_namespace : option string;
  middletier_namespace : option string;
  backend_namespace : option string;
  infra_namespace : option string;
  kubernetes_api_url : string;
  openshift_api_url : string;
  kubernetes_verify_tls : bool;
  in_cluster : bool;
  _token : option string
}.

(** How [str.format] and f-strings print an optional string. *)
Definition fmt (o : option string) : string := default "None" o.

(** The [token] property.  It also stores the token it fetched; no
    operation below reads it twice, so the store is left out. *)
Definition token (self : OpenShift) : prog string :=
  match _token self with
  | Some t => Ret t
  | None =>
      if in_cluster self then perform ServiceAccountToken
      else perform ConfiguredBearerToken
  end.

(** [response.raise_for_status()] of the [requests] library: an error for
    the status codes 400 to 599, nothing otherwise. *)
Definition raise_for_status (response : http_response) : prog unit :=
  if bool_decide (400 ≤ status_code response < 600)
  then Raise (HTTPError (status_code response))
  else Ret tt.

Definition get_pod_log (self : OpenShift) (pod_id : string)
    (namespace : option string) : prog (option string) :=
  namespace ← (if negb (truthy namespace) then
                 if negb (truthy (middletier_namespace self)) then
                   Raise (ConfigurationError
                     "Middletier namespace is required to check log of pods run in this namespace")
                 else Ret (middletier_namespace self)
               else Ret namespace);
  let endpoint := kubernetes_api_url self +:+ "/api/v1/namespaces/" +:+
                  fmt namespace +:+ "/pods/" +:+ pod_id +:+ "/log" in
  bearer ← token self;
  response ← perform
    (RequestsGet endpoint bearer (kubernetes_verify_tls self));
  if bool_decide (status_code response = 404) then Raise NotFoundException
  else if bool_decide (status_code response = 400) then Ret None
  else
    _ ← raise_for_status response;
    Ret (Some (text response)).

Definition get_pod_status (self : OpenShift) (pod_id : string)
    (namespace : option string) : prog value :=
  Vis (ResourceGet "v1" "Pod" namespace (Some pod_id) None)
    (λ r, match r with
          | Err NotFoundError => Raise NotFoundException
          | Err e => Raise e
          | Ok response => lift (pod_state response)
          end).

Definition get_pod_status_report (self : OpenShift) (pod_id : string)
    (namespace : option string) : prog value :=
  state ← get_pod_status self pod_id namespace;
  lift (_status_report state).

Definition _raise_on_invalid_response_size (response : value) : result unit :=
  l ← getitem response "items" ≫= iterate;
  if bool_decide (length l ≠ 1%nat) then Err RuntimeError else Ok tt.

Definition oc_process (self : OpenShift) (namespace : option string)
    (template : value) : prog value :=
  let endpoint := openshift_api_url self +:+
                  "/apis/template.openshift.io/v1/namespaces/" +:+
                  fmt namespace +:+ "/processedtemplates" in
  bearer ← token self;
  response ← perform
    (RequestsPost endpoint template bearer (kubernetes_verify_tls self));
  _ ← raise_for_status response;
  lift (json response).

(** [response.metadata.name] of the object the cluster sent back. *)
Definition metadata_name (response : value) : result value :=
  getitem response "metadata" ≫= λ m, getitem m "name".

(** [x[k1][k2]...]. *)
Definition path (x : value) (ks : list string) : result value :=
  for_each getitem ks x.

(** [x.pop(k, None)]: what is left of [x]. *)
Definition pop_default (x : value) (k : string) : result value :=
  match x with
  | VDict d => Ok (VDict (dict_del k d))
  | VList _ => Err TypeError
  | VAtom _ => Err AttributeError
  end.

(** [x.pop(k)]: the value taken out and what is left of [x]. *)
Definition pop (x : value) (k : string) : result (value * value) :=
  match x with
  | VDict d =>
      match dict_get k d with
      | Some v => Ok (v, VDict (dict_del k d))
      | None => Err (KeyError k)
      end
  | VList _ => Err TypeError
  | VAtom _ => Err AttributeError
  end.

Definition newline : ascii := ascii_of_nat 10.

Fixpoint escape_newlines (s : string) : string :=
  match s with
  | "" => ""
  | String c s' =>
      if decide (c = newline) then String "\" (String "n" (escape_newlines s'))
      else String c (escape_newlines s')
  end.

(** [x.replace("\n", "\\n")]. *)
Definition replace_newlines (x : value) : result string :=
  match x with
  | VAtom (AStr s) => Ok (escape_newlines s)
  | _ => Err AttributeError
  end.

(** Truthiness of a value. *)
Definition value_truthy (x : value) : bool :=
  match x with
  | VAtom ANone => false
  | VAtom (ABool b) => b
  | VAtom (AInt z) => negb (bool_decide (z = 0))
  | VAtom (AStr s) => negb (bool_decide (s = ""))
  | VList l => negb (bool_decide (l = []))
  | VDict d => negb (bool_decide (d = []))
  end.

Definition VBool (b : bool) : value := VAtom (ABool b).
Definition of_str (o : option string) : value := from_option VStr VNone o.
Definition of_int (o : option Z) : value := from_option VInt VNone o.
Definition log_level (debug : bool) : value :=
  VStr (if debug then "DEBUG" else "INFO").

(** [o or s]. *)
Definition or_else (o : option string) (s : string) : string :=
  if truthy o then fmt o else s.

Definition hex_digit (n : Z) : ascii :=
  nth (Z.to_nat n)
    (list_ascii_of_string "0123456789abcdef") "0"%char.

(** ["%016x" % n] for the 64 bits that [getrandbits(64)] yields. *)
Fixpoint hex_pad (width : nat) (n : Z) (acc : string) : string :=
  match width with
  | O => acc
  | S width' => hex_pad width' (n / 16) (String (hex_digit (n mod 16)) acc)
  end.

Definition _generate_id (prefix : string) : prog string :=
  bits ← ask (GetRandBits 64);
  Ret (prefix +:+ "-" +:+ hex_pad 16 bits "").

Definition create_config_map (self : OpenShift) (configmap_name : string)
    (namespace : option string) (labels data : value) : prog string :=
  _ ← perform (ResourceCreate (VStr "v1") (VStr "ConfigMap")
        (VDict [("apiVersion", VStr "v1");
                ("kind", VStr "ConfigMap");
                ("data", data);
                ("metadata", VDict [("labels", labels);
                                    ("name", VStr configmap_name);
                                    ("namespace", of_str namespace)])])
        None);
  Ret configmap_name.

Definition _schedule_job `{Printers} (self : OpenShift) (method_name : string)
    (parameters : value) (job_id : string) (namespace : option string)
  : prog string :=
  _ ← create_config_map self job_id namespace
        (VDict [("app", VStr "thoth"); ("operator", VStr "workload")])
        (VDict [("method", VStr method_name);
                ("parameters", VStr (json_dumps parameters))]);
  Ret job_id.

(** The template a label selects in the infra namespace. *)
Definition get_templates (self : OpenShift) (label_selector : string)
  : prog value :=
  perform (ResourceGet "v1" "Template" (infra_namespace self) None
             (Some label_selector)).

(** [response.to_dict()["items"][0]]. *)
Definition first_template (response : value) : result value :=
  getitem response "items" ≫= first_item.

(** [template["objects"][0]]. *)
Definition first_object (template : value) : result value :=
  getitem template "objects" ≫= first_item.

(** [resources.get(api_version=x["apiVersion"], kind=x["kind"])
      .create(body=x, namespace=namespace)]. *)
Definition create_object (x : value) (namespace : option string)
  : prog value :=
  api_version ← lift (getitem x "apiVersion");
  kind ← lift (getitem x "kind");
  perform (ResourceCreate api_version kind x namespace).

Definition run_sync `{Printers} (self : OpenShift) (force_sync : bool)
  : prog value :=
  if negb (truthy (frontend_namespace self)) then
    Raise (ConfigurationError
             "Graph sync requires frontend namespace configuration")
  else
    template ← perform (ResourceGet "v2alpha1" "CronJob"
                          (frontend_namespace self) (Some "graph-sync") None);
    labels ← lift (path template ["metadata"; "labels"]);
    labels ← lift (pop_default labels "template");
    job_template ← lift (path template
                           ["spec"; "jobTemplate"; "spec"; "template"]);
    job_template ← lift (_set_env_var job_template
                           [("THOTH_FORCE_SYNC",
                             VInt (if force_sync then 1 else 0))]);
    spec ← lift (getitem job_template "spec");
    response ← perform (ResourceCreate (VStr "v1") (VStr "Pod")
        (VDict [("apiVersion", VStr "v1");
                ("kind", VStr "Pod");
                ("metadata", VDict [("generateName", VStr "graph-sync-");
                                    ("labels", labels)]);
                ("spec", spec)])
        (frontend_namespace self));
    lift (metadata_name response).

Definition create_inspection_imagestream `{Printers} (self : OpenShift)
    (inspection_id : string) : prog value :=
  if negb (truthy (infra_namespace self)) then
    Raise (ConfigurationError
             "Infra namespace is required in order to create inspect imagestreams")
  else if negb (truthy (amun_inspection_namespace self)) then
    Raise (ConfigurationError
             "Unable to create inspection image stream without Amun inspection namespace being set")
  else
    response ← get_templates self "template=amun-inspect-imagestream";
    _ ← lift (_raise_on_invalid_response_size response);
    template ← lift (first_template response);
    template ← lift (set_template_parameters template
                       [("AMUN_INSPECTION_ID", VStr inspection_id)]);
    template ← oc_process self (infra_namespace self) template;
    imagestream ← lift (first_object template);
    response ← create_object imagestream (amun_inspection_namespace self);
    lift (metadata_name response).

Definition create_inspection_buildconfig `{Printers} (self : OpenShift)
    (parameters : odict) (use_hw_template : bool) : prog unit :=
  if negb (truthy (infra_namespace self)) then
    Raise (ConfigurationError
             "Infra namespace is required in order to create inspect imagestreams")
  else if negb (truthy (amun_inspection_namespace self)) then
    Raise (ConfigurationError
             "Unable to create inspection buildconfig without Amun inspection namespace being set")
  else
    let label_selector :=
      if use_hw_template then "template=amun-inspect-buildconfig-with-cpu"
      else "template=amun-inspect-buildconfig" in
    response ← get_templates self label_selector;
    _ ← lift (_raise_on_invalid_response_size response);
    template ← lift (first_template response);
    template ← lift (set_template_parameters template parameters);
    template ← oc_process self (amun_inspection_namespace self) template;
    buildconfig ← lift (first_object template);
    _ ← create_object buildconfig (amun_inspection_namespace self);
    Ret tt.

Definition schedule_inspection_job `{Printers} (self : OpenShift)
    (inspection_id : string) (parameters : odict) (use_hw_template : bool)
  : prog string :=
  if negb (truthy (amun_inspection_namespace self)) then
    Raise (ConfigurationError
             "Unable to schedule inspection job without Amun inspection namespace being set")
  else
    _schedule_job self "run_inspection_job"
      (VDict [("parameters", VDict parameters);
              ("use_hw_template", VBool use_hw_template)])
      inspection_id (amun_inspection_namespace self).

Definition run_inspection_job `{Printers} (self : OpenShift)
    (parameters : odict) (use_hw_template : bool) : prog unit :=
  if negb (truthy (infra_namespace self)) then
    Raise (ConfigurationError
             "Infra namespace is required in order to create inspect imagestreams")
  else if negb (truthy (amun_inspection_namespace self)) then
    Raise (ConfigurationError
             "Unable to create inspection job without Amun inspection namespace being set")
  else
    let label_selector :=
      if use_hw_template then "template=amun-inspect-job-with-cpu"
      else "template=amun-inspect-job" in
    response ← get_templates self label_selector;
    _ ← lift (_raise_on_invalid_response_size response);
    template ← lift (first_template response);
    template ← lift (set_template_parameters template parameters);
    template ← oc_process self (amun_inspection_namespace self) template;
    job ← lift (first_object template);
    _ ← create_object job (amun_inspection_namespace self);
    Ret tt.

(** The body of the loop of [run_solver] over the objects of the processed
    template; label values are strings. *)
Definition start_solver (self : OpenShift) (solver : option string)
    (solvers : odict) (obj : value) : prog odict :=
  solver_name ← lift (path obj ["metadata"; "labels"; "component"]);
  match solver_name with
  | VAtom (AStr name) =>
      if truthy solver && negb (bool_decide (solver = Some name)) then
        Ret solvers
      else
        response ← create_object obj (middletier_namespace self);
        pod ← lift (metadata_name response);
        Ret (dict_set name pod solvers)
  | _ => Raise TypeError
  end.

Definition run_solver `{Printers} (self : OpenShift) (packages output : string)
    (indexes : option (list string)) (debug : bool)
    (subgraph_check_api : option string) (transitive : bool)
    (solver : option string) : prog odict :=
  (* [if not self.middletier_namespace: ConfigurationError(...)] builds the
     exception and drops it: there is no [raise]. *)
  let _ := if negb (truthy (middletier_namespace self)) then
             Some (ConfigurationError
                     "Solver requires middletier namespace to be specified")
           else None in
  if negb (truthy (infra_namespace self)) then
    Raise (ConfigurationError
             "Infra namespace is required to gather solver template when running solver")
  else
    response ← get_templates self "template=solver";
    _ ← lift (_raise_on_invalid_response_size response);
    template ← lift (first_template response);
    template ← lift (set_template_parameters template
      [("THOTH_SOLVER_NO_TRANSITIVE", VInt (if transitive then 0 else 1));
       ("THOTH_SOLVER_PACKAGES", VStr (escape_newlines packages));
       ("THOTH_SOLVER_INDEXES",
        VStr (match indexes with
              | Some (i :: l) => String.concat "," (i :: l)
              | _ => ""
              end));
       ("THOTH_LOG_SOLVER", log_level debug);
       ("THOTH_SOLVER_OUTPUT", VStr output);
       ("THOTH_SOLVER_SUBGRAPH_CHECK_API", of_str subgraph_check_api)]);
    template ← oc_process self (middletier_namespace self) template;
    objects ← lift (getitem template "objects" ≫= iterate);
    for_each_prog (start_solver self solver) objects [].

Definition run_package_extract `{Printers} (self : OpenShift)
    (image output : string) (registry_user registry_password : option string)
    (verify_tls debug : bool) : prog value :=
  if negb (truthy (middletier_namespace self)) then
    Raise (ConfigurationError
             "Running package-extract requires middletier namespace to be specified")
  else if negb (truthy (infra_namespace self)) then
    Raise (ConfigurationError
             "Infra namespace is required to gather package-extract template when running it")
  else
    response ← get_templates self "template=package-extract";
    _ ← lift (_raise_on_invalid_response_size response);
    template ← lift (first_template response);
    template ← lift (set_template_parameters template
      [("THOTH_LOG_PACKAGE_EXTRACT", log_level debug);
       ("THOTH_ANALYZED_IMAGE", VStr image);
       ("THOTH_ANALYZER_NO_TLS_VERIFY", VInt (if verify_tls then 0 else 1));
       ("THOTH_ANALYZER_OUTPUT", VStr output)]);
    template ← lift
      (if truthy registry_user && truthy registry_password then
         set_template_parameters template
           [("THOTH_REGISTRY_CREDENTIALS",
             VStr (fmt registry_user +:+ ":" +:+ fmt registry_password))]
       else Ok template);
    template ← oc_process self (middletier_namespace self) template;
    analyzer ← lift (first_object template);
    response ← create_object analyzer (middletier_namespace self);
    lift (metadata_name response).

(** [job_id or self._generate_id(prefix)]. *)
Definition job_id_or (job_id : option string) (prefix : string) : prog string :=
  if truthy job_id then Ret (fmt job_id) else _generate_id prefix.

Definition schedule_dependency_monkey `{Printers} (self : OpenShift)
    (requirements context : value) (stack_output report_output : option string)
    (seed : option Z) (dry_run : bool) (decision : option string)
    (count : option Z) (debug : bool) (job_id : option string) : prog string :=
  if negb (truthy (middletier_namespace self)) then
    Raise (ConfigurationError
             "Unable to schedule dependency monkey without middletier namespace being set")
  else
    job_id ← job_id_or job_id "dependency-monkey";
    _schedule_job self "run_dependency_monkey"
      (VDict [("requirements", requirements);
              ("context", context);
              ("stack_output", of_str stack_output);
              ("report_output", of_str report_output);
              ("seed", of_int seed);
              ("dry_run", VBool dry_run);
              ("decision", of_str decision);
              ("count", of_int count);
              ("debug", VBool debug);
              ("job_id", VStr job_id)])
      job_id (middletier_namespace self).

Definition run_dependency_monkey `{Printers} (self : OpenShift)
    (requirements context : value) (stack_output report_output : option string)
    (seed : option Z) (dry_run : bool) (decision : option string)
    (count : option Z) (debug : bool) (job_id : option string) : prog value :=
  if negb (truthy (middletier_namespace self)) then
    Raise (ConfigurationError
             "Running Dependency Monkey requires middletier namespace configuration")
  else if negb (truthy (infra_namespace self)) then
    Raise (ConfigurationError
             "Infra namespace is required to gather Dependency Monkey template when running it")
  else
    response ← get_templates self "template=dependency-monkey";
    _ ← lift (_raise_on_invalid_response_size response);
    let requirements :=
      match requirements with
      | VDict _ => VStr (json_dumps requirements)
      | _ => requirements
      end in
    template ← lift (first_template response);
    requirements ← lift (replace_newlines requirements);
    job_id ← job_id_or job_id "dependency-monkey";
    let parameters :=
      [("THOTH_ADVISER_REQUIREMENTS", VStr requirements);
       ("THOTH_AMUN_CONTEXT", VStr (escape_newlines (json_dumps context)));
       ("THOTH_DEPENDENCY_MONKEY_STACK_OUTPUT", VStr (or_else stack_output "-"));
       ("THOTH_DEPENDENCY_MONKEY_REPORT_OUTPUT",
        VStr (or_else report_output "-"));
       ("THOTH_DEPENDENCY_MONKEY_DRY_RUN", VInt (if dry_run then 1 else 0));
       ("THOTH_LOG_ADVISER", log_level debug);
       ("THOTH_DEPENDENCY_MONKEY_JOB_ID", VStr job_id)] in
    let parameters :=
      match decision with
      | Some d => dict_set "THOTH_DEPENDENCY_MONKEY_DECISION" (VStr d) parameters
      | None => parameters
      end in
    let parameters :=
      match seed with
      | Some s => dict_set "THOTH_DEPENCENCY_MONKEY_SEED" (VInt s) parameters
      | None => parameters
      end in
    let parameters :=
      match count with
      | Some c => dict_set "THOTH_DEPENDENCY_MONKEY_COUNT" (VInt c) parameters
      | None => parameters
      end in
    template ← lift (set_template_parameters template parameters);
    template ← oc_process self (middletier_namespace self) template;
    dependency_monkey ← lift (first_object template);
    response ← create_object dependency_monkey (middletier_namespace self);
    lift (metadata_name response).

Definition schedule_adviser `{Printers} (self : OpenShift)
    (application_stack : value) (output recommendation_type : string)
    (count limit : option Z) (runtime_environment : value) (debug : bool)
    (job_id : option string) : prog string :=
  if negb (truthy (backend_namespace self)) then
    Raise (ConfigurationError
             "Unable to schedule adviser without backend namespace being set")
  else
    job_id ← job_id_or job_id "adviser";
    _schedule_job self "run_adviser"
      (VDict [("application_stack", application_stack);
              ("output", VStr output);
              ("recommendation_type", VStr recommendation_type);
              ("count", of_int count);
              ("limit", of_int limit);
              ("runtime_environment", runtime_environment);
              ("debug", VBool debug);
              ("job_id", VStr job_id)])
      job_id (backend_namespace self).

Definition run_adviser `{Printers} (self : OpenShift)
    (application_stack : value) (output recommendation_type : string)
    (count limit : option Z) (runtime_environment : value) (debug : bool)
    (job_id : option string) : prog value :=
  if negb (truthy (backend_namespace self)) then
    Raise (ConfigurationError
             "Running adviser requires backend namespace configuration")
  else if negb (truthy (infra_namespace self)) then
    Raise (ConfigurationError
             "Infra namespace is required to gather adviser template when running it")
  else
    response ← get_templates self "template=adviser";
    _ ← lift (_raise_on_invalid_response_size response);
    let runtime_environment :=
      if value_truthy runtime_environment
      then VStr (json_dumps runtime_environment)
      else runtime_environment in
    '(requirements, application_stack) ← lift (pop application_stack "requirements");
    requirements ← lift (replace_newlines requirements);
    locked ← lift (get application_stack "requirements_lock" (VStr "")
                   ≫= replace_newlines);
    format ← lift (get application_stack "requirements_formant"
                     (VStr "pipenv"));
    job_id ← job_id_or job_id "adviser";
    let parameters :=
      [("THOTH_ADVISER_REQUIREMENTS", VStr requirements);
       ("THOTH_ADVISER_REQUIREMENTS_LOCKED", VStr locked);
       ("THOTH_ADVISER_REQUIREMENTS_FORMAT", format);
       ("THOTH_ADVISER_RECOMMENDATION_TYPE", VStr recommendation_type);
       ("THOTH_ADVISER_RUNTIME_ENVIRONMENT", runtime_environment);
       ("THOTH_ADVISER_OUTPUT", VStr output);
       ("THOTH_LOG_ADVISER", log_level debug);
       ("THOTH_ADVISER_JOB_ID", VStr job_id)] in
    let parameters :=
      if value_truthy (of_int count)
      then dict_set "THOTH_ADVISER_COUNT" (of_int count) parameters
      else parameters in
    let parameters :=
      if value_truthy (of_int limit)
      then dict_set "THOTH_ADVISER_LIMIT" (of_int limit) parameters
      else parameters in
    template ← lift (first_template response);
    template ← lift (set_template_parameters template parameters);
    template ← oc_process self (backend_namespace self) template;
    adviser ← lift (first_object template);
    response ← create_object adviser (backend_namespace self);
    lift (metadata_name response).

Definition schedule_provenance_checker `{Printers} (self : OpenShift)
    (application_stack : value) (output : string)
    (whitelisted_sources : option (list string)) (debug : bool)
    (job_id : option string) : prog string :=
  if negb (truthy (backend_namespace self)) then
    Raise (ConfigurationError
             "Unable to schedule provenance checker without backend namespace being set")
  else
    job_id ← job_id_or job_id "provenance-checker";
    _schedule_job self "run_provenance_checker"
      (VDict [("application_stack", application_stack);
              ("output", VStr output);
              ("whitelisted_sources",
               from_option (λ l, VList (VStr <$> l)) VNone whitelisted_sources);
              ("debug", VBool debug);
              ("job_id", VStr job_id)])
      job_id (backend_namespace self).

Definition run_provenance_checker `{Printers} (self : OpenShift)
    (application_stack : value) (output : string)
    (whitelisted_sources : option (list string)) (debug : bool)
    (job_id : option string) : prog value :=
  if negb (truthy (backend_namespace self)) then
    Raise (ConfigurationError
             "Running provenance checks requires backend namespace configuration")
  else if negb (truthy (infra_namespace self)) then
    Raise (ConfigurationError
             "Infra namespace is required to gather provenance template when running it")
  else
    response ← get_templates self "template=provenance-checker";
    _ ← lift (_raise_on_invalid_response_size response);
    '(requirements, application_stack) ← lift (pop application_stack "requirements");
    requirements ← lift (replace_newlines requirements);
    '(locked, application_stack) ← lift (pop application_stack "requirements_lock");
    requirements_locked ← lift (replace_newlines locked);
    let whitelisted_sources :=
      String.concat "," (default [] whitelisted_sources) in
    template ← lift (first_template response);
    job_id ← job_id_or job_id "provenance-checker";
    template ← lift (set_template_parameters template
      [("THOTH_ADVISER_REQUIREMENTS", VStr requirements);
       ("THOTH_ADVISER_REQUIREMENTS_LOCKED", VStr requirements_locked);
       ("THOTH_ADVISER_OUTPUT", VStr output);
       ("THOTH_WHITELISTED_SOURCES", VStr whitelisted_sources);
       ("THOTH_LOG_ADVISER", log_level debug);
       ("THOTH_PROVENANCE_CHECKER_JOB_ID", VStr job_id)]);
    template ← oc_process self (backend_namespace self) template;
    provenance_checker ← lift (first_object template);
    response ← create_object provenance_checker (backend_namespace self);
    lift (metadata_name response).

(** ** Vocabulary of the statements *)

(** The pure tail of [get_pod_status_report]: what is made of the pod
    document the cluster sent. *)
Definition normalize (response : value) : result value :=
  pod_state response ≫= _status_report.

(** [response["status"]["containerStatuses"][0]["state"]]. *)
Definition container_state (response : value) : result value :=
  status ← getitem response "status";
  statuses ← getitem status "containerStatuses";
  container_status ← first_item statuses;
  getitem container_status "state".

(** Surroundings in which every lookup through the dynamic client finds
    the given document, and nothing else is available. *)
Definition answering (response : value) : world :=
  λ _ X c,
    match c in call X return X with
    | ResourceGet _ _ _ _ _ => Ok response
    | ResourceCreate _ _ _ _ => Err NotFoundError
    | RequestsGet _ _ _ => Err NotFoundError
    | RequestsPost _ _ _ _ => Err NotFoundError
    | ServiceAccountToken => Err NotFoundError
    | ConfiguredBearerToken => Err NotFoundError
    | GetRandBits _ => 0
    end.

(** Surroundings whose HTTP server answers every GET with the given
    response. *)
Definition serving (response : http_response) : world :=
  λ _ X c,
    match c in call X return X with
    | ResourceGet _ _ _ _ _ => Err NotFoundError
    | ResourceCreate _ _ _ _ => Err NotFoundError
    | RequestsGet _ _ _ => Ok response
    | RequestsPost _ _ _ _ => Err NotFoundError
    | ServiceAccountToken => Ok "secret"
    | ConfiguredBearerToken => Ok "secret"
    | GetRandBits _ => 0
    end.

(** A cluster that has one solver template, expands every template to one
    pod and creates what it is asked to create. *)
Definition cluster : world :=
  λ _ X c,
    match c in call X return X with
    | ResourceGet _ _ _ _ _ =>
        Ok (VDict [("items",
                    VList [VDict [("metadata",
                                   VDict [("name", VStr "solver")])]])])
    | ResourceCreate _ _ _ _ =>
        Ok (VDict [("metadata", VDict [("name", VStr "solver-f27-1")])])
    | RequestsGet _ _ _ => Err NotFoundError
    | RequestsPost _ _ _ _ =>
        Ok {| status_code := 201; text := "";
              json := Ok (VDict [("objects",
                  VList [VDict [("apiVersion", VStr "v1");
                                ("kind", VStr "Pod");
                                ("metadata",
                                 VDict [("labels",
                                         VDict [("component",
                                                 VStr "solver-f27")])])]])])
           |}
    | ServiceAccountToken => Ok "secret"
    | ConfiguredBearerToken => Ok "secret"
    | GetRandBits _ => 0
    end.

(** A client of a deployment with every namespace configured. *)
Definition deployed : OpenShift :=
  {| amun_inspection_namespace := Some "thoth-amun";
     frontend_namespace := Some "thoth-frontend";
     middletier_namespace := Some "thoth-middletier";
     backend_namespace := Some "thoth-backend";
     infra_namespace := Some "thoth-infra";
     kubernetes_api_url := "https://kubernetes.default.svc.cluster.local";
     openshift_api_url := "https://openshift.default.svc.cluster.local";
     kubernetes_verify_tls := true;
     in_cluster := true;
     _token := Some "secret" |}.

(** The same deployment without a middletier namespace. *)
Definition no_middletier : OpenShift :=
  {| amun_inspection_namespace := Some "thoth-amun";
     frontend_namespace := Some "thoth-frontend";
     middletier_namespace := None;
     backend_namespace := Some "thoth-backend";
     infra_namespace := Some "thoth-infra";
     kubernetes_api_url := "https://kubernetes.default.svc.cluster.local";
     openshift_api_url := "https://openshift.default.svc.cluster.local";
     kubernetes_verify_tls := true;
     in_cluster := true;
     _token := Some "secret" |}.

(** A pod document whose first container is in the given state. *)
Definition pod_in_state (state : value) : value :=
  VDict [("status",
          VDict [("containerStatuses", VList [VDict [("state", state)]])])].

(** A field name the translation table knows. *)
Definition known (key : string) : Prop :=
  is_Some (table_get key _TRANSLATION_TABLE).

(** A container identifier is a string. *)
Definition typed (item : string * value) : Prop :=
  item.1 = "containerID" → ∃ s, item.2 = VStr s.

(** The keys of every report, in the order [dict.fromkeys] and the
    assignment of the state create them. *)
Definition report_keys : list string :=
  ["exit_code"; "finished_at"; "reason"; "started_at"; "container"; "state"].

(** The report of a pod that has no container status yet. *)
Definition scheduling_report : value :=
  VDict [("exit_code", VNone); ("finished_at", VNone); ("reason", VNone);
         ("started_at", VNone); ("container", VNone);
         ("state", VStr "scheduling")].

(** What the loop of the normaliser stores for a field. *)
Definition written (key : string) (x : value) : value :=
  if decide (key = "containerID") then
    match strip_docker x with Ok x' => x' | Err _ => x end
  else x.

(** The report before the fields of the state are copied into it. *)
Definition blank_report (state : string) : odict :=
  [("exit_code", VNone); ("finished_at", VNone); ("reason", VNone);
   ("started_at", VNone); ("container", VNone); ("state", VStr state)].

(** A report that has an entry for every target of the table. *)
Definition complete (r : odict) : Prop :=
  ∀ k K, table_get k _TRANSLATION_TABLE = Some K → is_Some (dict_get K r).

(** The name of an entry, when it has one and it is a string. *)
Definition entry_name (entry : value) : option string :=
  match getitem entry "name" with
  | Ok (VAtom (AStr n)) => Some n
  | _ => None
  end.

Definition names (entries : list value) : list string :=
  omap entry_name entries.

(** An entry is a dictionary with a name. *)
Definition named (entry : value) : Prop :=
  ∃ n, getitem entry "name" = Ok n.

(** [entry'] is [entry], named [name], after [entry["value"] = x]. *)
Definition touched (name : string) (x : value) (entry entry' : value) : Prop :=
  entry_name entry = Some name ∧ setitem entry "value" x = Ok entry'.

(** [entry'] is [entry] as an upsert of [mapping] may leave it: untouched,
    or with the value the mapping gives for its name, coerced by [coerce]. *)
Definition overwritten (coerce : value → value)
    (mapping : list (string * value)) (entry entry' : value) : Prop :=
  entry' = entry
  ∨ ∃ name x, (name, x) ∈ mapping ∧ touched name (coerce x) entry entry'.

(** The entries an upsert of [mapping] appends to [entries]: one for each
    name of the mapping that no entry has, in the order of the mapping. *)
Definition appended (coerce : value → value) (entries : list value)
    (mapping : list (string * value)) : list value :=
  (λ item, new_entry item.1 (coerce item.2))
    <$> filter (λ item, item.1 ∉ names entries) mapping.

(** The inner loop finds [name] in [entries] and has nothing to change. *)
Definition settled (name : string) (x : value) (entries : list value) : Prop :=
  overwrite_first name x entries = Ok (Some entries).

(** Printers for the examples; the examples do not depend on what they
    print. *)
Definition terse : Printers :=
  {| repr := λ _, "..."; json_dumps := λ _, "..." |}.

(** The pod template of the graph-sync job with the given environment. *)
Definition graph_sync (env : list value) : value :=
  VDict [("metadata", VDict [("name", VStr "graph-sync")]);
         ("spec", VDict [("containers",
                          VList [VDict [("name", VStr "graph-sync");
                                        ("image", VStr "graph-sync-job");
                                        ("env", VList env)]])])].

(** A template with the given parameters. *)
Definition solver_template (parameters : list value) : value :=
  VDict [("metadata", VDict [("name", VStr "solver")]);
         ("parameters", VList parameters)].

(** ** Further operations of the client *)

(** [len(x)]. *)
Definition len (x : value) : result nat := length <$> iterate x.

(** [a or b] on optional strings. *)
Definition or_opt (a b : option string) : option string :=
  if truthy a then a else b.

(** The name of an object of the cluster; names are strings. *)
Definition as_name (x : value) : result string :=
  match x with
  | VAtom (AStr s) => Ok s
  | _ => Err TypeError
  end.

Definition get_build (self : OpenShift) (build_id namespace : string)
  : prog value :=
  let endpoint := openshift_api_url self +:+
                  "/apis/build.openshift.io/v1/namespaces/" +:+ namespace +:+
                  "/builds/" +:+ build_id in
  bearer ← token self;
  response ← perform
    (RequestsGet endpoint bearer (kubernetes_verify_tls self));
  if bool_decide (status_code response = 404) then Raise NotFoundException
  else
    _ ← raise_for_status response;
    lift (json response).

Definition get_buildconfig (self : OpenShift)
    (buildconfig_id namespace : string) : prog value :=
  let endpoint := openshift_api_url self +:+
                  "/apis/build.openshift.io/v1/namespaces/" +:+ namespace +:+
                  "/buildconfigs/" +:+ buildconfig_id in
  bearer ← token self;
  response ← perform
    (RequestsGet endpoint bearer (kubernetes_verify_tls self));
  if bool_decide (status_code response = 404) then Raise NotFoundException
  else
    _ ← raise_for_status response;
    lift (json response).

Definition get_build_log (self : OpenShift) (build_id namespace : string)
  : prog string :=
  let endpoint := openshift_api_url self +:+
                  "/apis/build.openshift.io/v1/namespaces/" +:+ namespace +:+
                  "/builds/" +:+ build_id +:+ "/log" in
  bearer ← token self;
  response ← perform
    (RequestsGet endpoint bearer (kubernetes_verify_tls self));
  if bool_decide (status_code response = 404) then Raise NotFoundException
  else
    _ ← raise_for_status response;
    Ret (text response).

Definition _get_pod_id_from_job (self : OpenShift) (job_id : string)
    (namespace : option string) : prog string :=
  response ← perform
    (ResourceGet "v1" "Pod" (or_opt namespace (infra_namespace self)) None
       (Some ("job-name=" +:+ job_id)));
  n ← lift (getitem response "items" ≫= len);
  if bool_decide (n ≠ 1%nat) then Raise NotFoundException
  else
    lift (items ← getitem response "items";
          pod ← first_item items;
          name ← metadata_name pod;
          as_name name).

Definition get_job_status_report (self : OpenShift) (job_id : string)
    (namespace : option string) : prog value :=
  pod_id ← _get_pod_id_from_job self job_id namespace;
  get_pod_status_report self pod_id namespace.

Definition get_job_log (self : OpenShift) (job_id : string)
    (namespace : option string) : prog (option string) :=
  pod_id ← _get_pod_id_from_job self job_id namespace;
  get_pod_log self pod_id namespace.

Definition get_jobs (self : OpenShift) (label_selector : string)
    (namespace : option string) : prog value :=
  Vis (ResourceGet "batch/v1" "JobList" namespace None (Some label_selector))
    (λ r, match r with
          | Err NotFoundError => Raise NotFoundException
          | Err e => Raise e
          | Ok response => Ret response
          end).

(** A list comprehension whose element expression can raise. *)
Fixpoint map_result {A B : Type} (f : A → result B) (xs : list A)
  : result (list B) :=
  match xs with
  | [] => Ok []
  | x :: xs' => y ← f x; ys ← map_result f xs'; Ok (y :: ys)
  end.

Definition get_solver_names (self : OpenShift) : prog (list value) :=
  if negb (truthy (infra_namespace self)) then
    Raise (ConfigurationError
             "Infra namespace is required in order to list solvers")
  else
    response ← get_templates self "template=solver";
    _ ← lift (_raise_on_invalid_response_size response);
    lift (template ← first_template response;
          objects ← getitem template "objects" ≫= iterate;
          map_result (λ obj, path obj ["metadata"; "labels"; "component"])
            objects).

(** What the constructor reads from its surroundings: the environment
    variables, [int] on the text of one of them, and the outcome of the two
    ways of loading a cluster configuration, each the host of the
    configuration or the exception it ended with. *)
Record platform := {
  getenv : string → option string;
  int_of_text : string → result Z;
  in_cluster_config : result string;
  local_config : result string
}.

(** The constructor, after its imports. *)
Definition __init__ (os : platform)
    (frontend_namespace_arg middletier_namespace_arg backend_namespace_arg
     infra_namespace_arg kubernetes_api_url_arg : option string)
    (kubernetes_verify_tls_arg : bool)
    (openshift_api_url_arg token_arg : option string) : result OpenShift :=
  verify ← match getenv os "KUBERNETES_VERIFY_TLS" with
           | Some s => int_of_text os s
           | None => Ok 1
           end;
  '(in_cluster_now, host) ←
    match in_cluster_config os with
    | Ok host => Ok (true, host)
    | Err _ => host ← local_config os; Ok (false, host)
    end;
  Ok {| amun_inspection_namespace :=
          or_opt frontend_namespace_arg
            (getenv os "THOTH_AMUN_INSPECTION_NAMESAPCE");
        frontend_namespace :=
          or_opt frontend_namespace_arg (getenv os "THOTH_FRONTEND_NAMESPACE");
        middletier_namespace :=
          or_opt middletier_namespace_arg
            (getenv os "THOTH_MIDDLETIER_NAMESPACE");
        backend_namespace :=
          or_opt backend_namespace_arg (getenv os "THOTH_BACKEND_NAMESPACE");
        infra_namespace :=
          or_opt infra_namespace_arg (getenv os "THOTH_INFRA_NAMESPACE");
        kubernetes_api_url :=
          if truthy kubernetes_api_url_arg then fmt kubernetes_api_url_arg
          else default "https://kubernetes.default.svc.cluster.local"
                 (getenv os "KUBERNETES_API_URL");
        openshift_api_url :=
          if truthy openshift_api_url_arg then fmt openshift_api_url_arg
          else default host (getenv os "OPENSHIFT_API_URL");
        kubernetes_verify_tls :=
          negb (bool_decide (verify = 0)) && kubernetes_verify_tls_arg;
        in_cluster := in_cluster_now;
        _token := token_arg |}.

(** A cluster for the examples about jobs: a lookup by label finds the
    given pods, a lookup by name finds the given pod document, and the
    HTTP server answers every GET with the given response. *)
Definition job_cluster (pods : list value) (pod : value)
    (log : http_response) : world :=
  λ _ X c,
    match c in call X return X with
    | ResourceGet _ _ _ name _ =>
        Ok (match name with
            | None => VDict [("items", VList pods)]
            | Some _ => pod
            end)
    | ResourceCreate _ _ _ _ => Err NotFoundError
    | RequestsGet _ _ _ => Ok log
    | RequestsPost _ _ _ _ => Ok log
    | ServiceAccountToken => Ok "secret"
    | ConfiguredBearerToken => Ok "secret"
    | GetRandBits _ => 0
    end.

(** A pod object with the given name. *)
Definition pod_named (name : string) : value :=
  VDict [("metadata", VDict [("name", VStr name)])].

(** [body] is a ConfigMap that asks the workload operator to run [method]
    as job [job_id] in [namespace]. *)
Definition schedules (body : value) (job_id : string)
    (namespace : option string) (method : string) : Prop :=
  path body ["metadata"; "name"] = Ok (VStr job_id)
  ∧ path body ["metadata"; "namespace"] = Ok (of_str namespace)
  ∧ path body ["metadata"; "labels"; "app"] = Ok (VStr "thoth")
  ∧ path body ["metadata"; "labels"; "operator"] = Ok (VStr "workload")
  ∧ path body ["data"; "method"] = Ok (VStr method).

(** An object of a processed template with the given component label. *)
Definition solver_object (component : string) : value :=
  VDict [("apiVersion", VStr "v1"); ("kind", VStr "Pod");
         ("metadata", VDict [("labels", VDict [("component", VStr component)])])].

(** ** What an operation can do, whatever the answers *)

(** Every call [p] can make satisfies [Q] and every value it can return
    satisfies [P], however the surroundings answer. *)
Fixpoint always {A : Type} (Q : ∀ X : Type, call X → Prop) (P : A → Prop)
    (p : prog A) : Prop :=
  match p with
  | Ret a => P a
  | Raise _ => True
  | Vis c k => Q _ c ∧ ∀ x, always Q P (k x)
  end.



(** The calls of a trace all satisfy [Q]. *)
Definition all_calls (Q : ∀ X : Type, call X → Prop) (tr : trace) : Prop :=
  Forall (λ e, Q (projT1 e) (projT2 e)) tr.

(** Calls that look objects up in one namespace only and create objects in
    one namespace only. *)
Definition in_namespaces (lookup create : option string) (X : Type)
    (c : call X) : Prop :=
  match c with
  | ResourceGet _ _ namespace _ _ => namespace = lookup
  | ResourceCreate _ _ _ namespace => namespace = create
  | _ => True
  end.

(** Requests that check the certificate of the server, or do not, as [v]
    says. *)
Definition verifies_as (v : bool) (X : Type) (c : call X) : Prop :=
  match c with
  | RequestsGet _ _ verify | RequestsPost _ _ _ verify => verify = v
  | _ => True
  end.

(** A workstation outside the cluster: no in-cluster configuration, a local
    one, and certificate checks switched off in the environment. *)
Definition workstation : platform :=
  {| getenv := λ k, if decide (k = "KUBERNETES_VERIFY_TLS") then Some "0"
                    else None;
     int_of_text := λ s, if decide (s = "0") then Ok 0 else Err TypeError;
     in_cluster_config := Err RuntimeError;
     local_config := Ok "https://localhost:8443" |}.

(** The client a workstation gets when only the namespaces, certificate
    checks and a token are passed to the constructor. *)
Definition workstation_client : OpenShift :=
  {| amun_inspection_namespace := Some "thoth-test";
     frontend_namespace := Some "thoth-test";
     middletier_namespace := None;
     backend_namespace := None;
     infra_namespace := Some "thoth-infra";
     kubernetes_api_url := "https://kubernetes.default.svc.cluster.local";
     openshift_api_url := "https://localhost:8443";
     kubernetes_verify_tls := false;
     in_cluster := false;
     _token := None |}.

(** A client for which no namespace was configured. *)
Definition unconfigured : OpenShift :=
  {| amun_inspection_namespace := None;
     frontend_namespace := None;
     middletier_namespace := None;
     backend_namespace := None;
     infra_namespace := None;
     kubernetes_api_url := "https://kubernetes.default.svc.cluster.local";
     openshift_api_url := "https://openshift.default.svc.cluster.local";
     kubernetes_verify_tls := true;
     in_cluster := true;
     _token := Some "secret" |}.

(** * Properties *)

(** ** Dictionaries *)

Section dict.
Implicit Types (d : odict) (k : string) (v : value).

Lemma dict_get_set_eq k v d : dict_get k (dict_set k v d) = Some v.
Proof.
  induction d as [|[k' v'] d IH]; simpl.
  - by rewrite decide_True.
  - destruct (decide (k' = k)) as [->|Hne]; simpl.
    + by rewrite decide_True.
    + by rewrite decide_False.
Qed.

Lemma dict_get_set_ne k k' v d :
  k ≠ k' → dict_get k' (dict_set k v d) = dict_get k' d.
Proof.
  intros Hne. induction d as [|[k0 v0] d IH]; simpl.
  - by rewrite decide_False.
  - destruct (decide (k0 = k)) as [->|Hne0]; simpl.
    + by rewrite !decide_False.
    + by rewrite IH.
Qed.

Lemma dict_get_set k k' v d :
  dict_get k' (dict_set k v d)
  = if decide (k = k') then Some v else dict_get k' d.
Proof.
  destruct (decide (k = k')) as [->|?];
    auto using dict_get_set_eq, dict_get_set_ne.
Qed.

Lemma keys_dict_set k v d :
  is_Some (dict_get k d) → keys (dict_set k v d) = keys d.
Proof.
  unfold keys. induction d as [|[k0 v0] d IH]; simpl.
  - by intros [? ?].
  - destruct (decide (k0 = k)) as [->|Hne]; simpl; [done|].
    intros H. f_equal. by apply IH.
Qed.

Lemma dict_set_set k v w d : dict_set k v (dict_set k w d) = dict_set k v d.
Proof.
  induction d as [|[k0 v0] d IH]; simpl.
  - by rewrite decide_True.
  - destruct (decide (k0 = k)) as [->|Hne]; simpl.
    + by rewrite decide_True.
    + by rewrite decide_False, IH.
Qed.

Lemma dict_get_Some_elem k v d : dict_get k d = Some v → (k, v) ∈ d.
Proof.
  induction d as [|[k0 v0] d IH]; simpl; [done|].
  destruct (decide (k0 = k)) as [->|Hne].
  - intros [= ->]. left.
  - intros H. right. auto.
Qed.

Lemma dict_get_None k d : dict_get k d = None ↔ k ∉ keys d.
Proof.
  unfold keys. induction d as [|[k0 v0] d IH]; simpl.
  - split; [intros _; apply not_elem_of_nil|done].
  - rewrite not_elem_of_cons. destruct (decide (k0 = k)) as [->|Hne].
    + split; [done|]. by intros [? _].
    + rewrite IH. split; [intros; split; [congruence|done]|by intros [_ ?]].
Qed.

Lemma dict_get_app_notin k d d' :
  k ∉ keys d → dict_get k (d ++ d') = dict_get k d'.
Proof.
  unfold keys. induction d as [|[k0 v0] d IH]; simpl; [done|].
  rewrite not_elem_of_cons. intros [Hne Hd].
  rewrite decide_False by done. auto.
Qed.
End dict.

Lemma keys_cons (k : string) (v : value) (d : odict) :
  keys ((k, v) :: d) = k :: keys d.
Proof. reflexivity. Qed.

Lemma keys_app (d d' : odict) : keys (d ++ d') = keys d ++ keys d'.
Proof. apply fmap_app. Qed.

Lemma for_each_app {A B : Type} (f : A → B → result A) (xs ys : list B) a :
  for_each f (xs ++ ys) a = for_each f xs a ≫= for_each f ys.
Proof.
  revert a. induction xs as [|x xs IH]; intros a; simpl; [done|].
  destruct (f a x) as [a'|e]; simpl; [apply IH|done].
Qed.

(** ** The status normaliser *)

#[local] Arguments report_field : simpl never.
#[local] Arguments table_get : simpl never.

Lemma status_report_single (state : string) (nested : value) :
  _status_report (VDict [(state, nested)])
  = fields ← items nested;
    VDict <$> for_each report_field fields (blank_report state).
Proof.
  unfold _status_report. simpl. rewrite decide_True by done. reflexivity.
Qed.

Lemma report_field_ok (r : odict) (k K : string) (v : value) :
  table_get k _TRANSLATION_TABLE = Some K → typed (k, v) →
  report_field r (k, v) = Ok (dict_set K (written k v) r).
Proof.
  intros Hk Ht. unfold report_field, written.
  destruct (decide (k = "containerID")) as [->|Hne].
  - destruct (Ht eq_refl) as [s Hs]. simpl in Hs. subst v.
    vm_compute in Hk. injection Hk as <-. reflexivity.
  - by rewrite Hk.
Qed.

Lemma report_field_target (r r' : odict) (k : string) (v : value) :
  report_field r (k, v) = Ok r' →
  ∃ K x, table_get k _TRANSLATION_TABLE = Some K ∧ r' = dict_set K x r.
Proof.
  unfold report_field.
  destruct (decide (k = "containerID")) as [->|Hne].
  - destruct (strip_docker v) as [x|e]; simpl; [|done].
    intros [= <-]. by exists "container", x.
  - destruct (table_get k _TRANSLATION_TABLE) as [K|]; [|done].
    intros [= <-]. by exists K, v.
Qed.

(** Fields that do not translate to [K] leave the entry [K] alone. *)
Lemma for_each_report_preserves (K : string) (fields r out : odict) :
  for_each report_field fields r = Ok out →
  (∀ k, k ∈ keys fields → table_get k _TRANSLATION_TABLE ≠ Some K) →
  dict_get K out = dict_get K r.
Proof.
  revert r. induction fields as [|[k v] fields IH]; intros r; simpl.
  - by intros [= ->].
  - destruct (report_field r (k, v)) as [r'|e] eqn:Hstep; simpl; [|done].
    intros Hrun Hnot.
    destruct (report_field_target _ _ _ _ Hstep) as (K' & x & HK' & ->).
    rewrite (IH _ Hrun).
    + apply dict_get_set_ne. intros ->. apply (Hnot k); [left|done].
    + intros k' Hk'. apply Hnot. by right.
Qed.

Lemma complete_blank (state : string) : complete (blank_report state).
Proof.
  intros k K. unfold table_get, _TRANSLATION_TABLE.
  repeat (case_decide; [intros [= <-]; simpl; eauto|]). done.
Qed.

Lemma complete_set (r : odict) (K : string) (x : value) :
  complete r → complete (dict_set K x r).
Proof.
  intros Hr k K' Hk. rewrite dict_get_set.
  case_decide; [eauto|]. by eapply Hr.
Qed.

(** Known, well-typed fields are all copied, and no key is added. *)
Lemma for_each_report_total (fields r : odict) :
  Forall (λ item, known item.1) fields → Forall typed fields → complete r →
  ∃ out, for_each report_field fields r = Ok out ∧ keys out = keys r.
Proof.
  revert r. induction fields as [|[k v] fields IH]; intros r Hk Ht Hr; simpl.
  - by exists r.
  - apply Forall_cons in Hk as [[K HK] Hk]. apply Forall_cons in Ht as [Hv Ht].
    simpl in HK. rewrite (report_field_ok _ _ _ _ HK Hv). simpl.
    destruct (IH (dict_set K (written k v) r) Hk Ht) as (out & Hout & Hkeys).
    + by apply complete_set.
    + exists out. split; [done|]. rewrite Hkeys.
      apply keys_dict_set. by eapply Hr.
Qed.

(** The first unknown field name stops the loop with a [KeyError]. *)
Lemma for_each_report_unknown (fields r : odict) :
  Forall typed fields → ¬ Forall (λ item, known item.1) fields →
  ∃ k, for_each report_field fields r = Err (KeyError k)
       ∧ k ∈ keys fields ∧ ¬ known k.
Proof.
  revert r. induction fields as [|[k v] fields IH]; intros r Ht Hk; simpl.
  - destruct Hk. constructor.
  - apply Forall_cons in Ht as [Hv Ht].
    destruct (table_get k _TRANSLATION_TABLE) as [K|] eqn:HK.
    + rewrite (report_field_ok _ _ _ _ HK Hv). simpl.
      destruct (IH (dict_set K (written k v) r) Ht) as (k' & Hrun & Hin & Hun).
      * intros Hall. apply Hk. constructor; [|done]. by exists K.
      * exists k'. split; [done|]. split; [by right|done].
    + exists k. split; [|split].
      * unfold report_field. rewrite HK.
        rewrite decide_False; [done|]. by intros ->.
      * left.
      * unfold known. rewrite HK. by intros [? ?].
Qed.

Lemma known_names (k : string) :
  known k ↔
  k ∈ ["exitCode"; "finishedAt"; "reason"; "startedAt"; "containerID";
       "message"].
Proof.
  unfold known, table_get, _TRANSLATION_TABLE. split.
  - repeat (case_decide; [subst; intros _; repeat constructor|]). by intros [? ?].
  - rewrite !elem_of_cons, elem_of_nil.
    intros [->|[->|[->|[->|[->|[->|[]]]]]]]; vm_compute; eauto.
Qed.

Lemma container_source (k : string) :
  table_get k _TRANSLATION_TABLE = Some "container" → k = "containerID".
Proof.
  unfold table_get, _TRANSLATION_TABLE.
  repeat (case_decide; [subst; intros Heq; first [discriminate Heq|done]|]). done.
Qed.

Lemma reason_source (k : string) :
  table_get k _TRANSLATION_TABLE = Some "reason" →
  k = "reason" ∨ k = "message".
Proof.
  unfold table_get, _TRANSLATION_TABLE.
  repeat (case_decide; [subst; intros Heq; first [discriminate Heq|auto]|]). done.
Qed.

Lemma prefix_append (p rest : string) : String.prefix p (p +:+ rest) = true.
Proof.
  induction p as [|c p IH]; simpl; [by destruct rest|].
  destruct (ascii_dec c c); [apply IH|done].
Qed.

Lemma drop_chars_append (p rest : string) :
  drop_chars (String.length p) (p +:+ rest) = rest.
Proof. induction p as [|c p IH]; simpl; [by destruct rest|apply IH]. Qed.

Lemma prefix_split (p s : string) :
  String.prefix p s = true → s = p +:+ drop_chars (String.length p) s.
Proof.
  revert s. induction p as [|c p IH]; intros s; simpl.
  - by destruct s.
  - destruct s as [|c' s]; simpl; [done|].
    destruct (ascii_dec c c') as [->|]; [|done].
    intros H.
    change (String c' s = String c' (p +:+ drop_chars (String.length p) s)).
    f_equal. by apply IH.
Qed.

(** In a dictionary a key is bound once. *)
Lemma dict_get_unique (d : odict) (k : string) (v : value) :
  NoDup (keys d) → (k, v) ∈ d → dict_get k d = Some v.
Proof.
  induction d as [|[k0 v0] d IH].
  - intros _ H. by apply elem_of_nil in H.
  - rewrite keys_cons, NoDup_cons, elem_of_cons. simpl.
    intros [Hk0 Hd] [[= -> ->]|Hin].
    + by rewrite decide_True.
    + rewrite decide_False; [auto|].
      intros ->. apply Hk0. unfold keys.
      apply list_elem_of_fmap. by exists (k, v).
Qed.

(** What the loop leaves under [K] when [(k, v)] is the last field that
    translates to [K]. *)
Lemma for_each_report_last (K k : string) (v : value) (pre post r : odict) :
  Forall (λ item, known item.1) (pre ++ (k, v) :: post) →
  Forall typed (pre ++ (k, v) :: post) → complete r →
  table_get k _TRANSLATION_TABLE = Some K →
  (∀ k', k' ∈ keys post → table_get k' _TRANSLATION_TABLE ≠ Some K) →
  ∃ out, for_each report_field (pre ++ (k, v) :: post) r = Ok out
         ∧ keys out = keys r
         ∧ dict_get K out = Some (written k v).
Proof.
  intros Hk Ht Hr HK Hpost.
  destruct (for_each_report_total _ r Hk Ht Hr) as (out & Hout & Hkeys).
  exists out. split; [done|]. split; [done|].
  apply Forall_app in Ht as [_ Ht]. apply Forall_cons in Ht as [Hv _].
  rewrite for_each_app in Hout.
  destruct (for_each report_field pre r) as [r1|e]; [|done].
  simpl in Hout. rewrite (report_field_ok _ _ _ _ HK Hv) in Hout.
  simpl in Hout.
  rewrite (for_each_report_preserves K _ _ _ Hout Hpost).
  apply dict_get_set_eq.
Qed.

(** C6: a status dictionary that is empty or has more than one top-level
    key is reported as a pod still being scheduled: the state is
    ["scheduling"] and exit_code, finished_at, reason, started_at and
    container are all [None]. *)
Theorem status_report_scheduling (status : odict) :
  length status ≠ 1%nat → _status_report (VDict status) = Ok scheduling_report.
Proof.
  intros Hlen. unfold _status_report. simpl.
  unfold keys. rewrite length_fmap. by rewrite bool_decide_true.
Qed.

Lemma status_report_scheduling_witness :
  _status_report (VDict []) = Ok scheduling_report
  ∧ _status_report (VDict [("running", VDict []); ("terminated", VDict [])])
    = Ok scheduling_report.
Proof.
  split.
  - apply (status_report_scheduling []). simpl. lia.
  - apply (status_report_scheduling
             [("running", VDict []); ("terminated", VDict [])]).
    simpl. lia.
Defined.

(** C10, amended: for a single-key status whose container identifier, if
    it has one, is a string: when the field names all come from the
    translation table, the report has exactly the keys exit_code,
    finished_at, reason, started_at, container and state; when a field
    name is outside the table, the normaliser raises [KeyError] for such a
    name and returns nothing. *)
Theorem status_report_keys (state : string) (fields : odict) :
  Forall typed fields →
  (Forall (λ item, known item.1) fields →
   ∃ out, _status_report (VDict [(state, VDict fields)]) = Ok (VDict out)
          ∧ keys out = report_keys)
  ∧ (¬ Forall (λ item, known item.1) fields →
     ∃ k, _status_report (VDict [(state, VDict fields)]) = Err (KeyError k)
          ∧ k ∈ keys fields ∧ ¬ known k).
Proof.
  intros Ht. rewrite status_report_single. simpl. split.
  - intros Hk.
    destruct (for_each_report_total fields (blank_report state) Hk Ht)
      as (out & -> & Hkeys); [apply complete_blank|].
    by exists out.
  - intros Hk.
    destruct (for_each_report_unknown fields (blank_report state) Ht Hk)
      as (k & -> & Hin & Hun).
    by exists k.
Qed.

Lemma status_report_keys_witness :
  (∃ out, _status_report
            (VDict [("waiting", VDict [("reason", VStr "ContainerCreating")])])
          = Ok (VDict out) ∧ keys out = report_keys)
  ∧ (∃ k, _status_report (VDict [("terminated", VDict [("signal", VInt 9)])])
          = Err (KeyError k)
          ∧ k ∈ keys [("signal", VInt 9)] ∧ ¬ known k).
Proof.
  split.
  - apply (status_report_keys "waiting" [("reason", VStr "ContainerCreating")]).
    + constructor; [intros [=]|constructor].
    + constructor; [by exists "reason"|constructor].
  - apply (status_report_keys "terminated" [("signal", VInt 9)]).
    + constructor; [intros [=]|constructor].
    + intros H. inversion H as [|? ? [K HK] ?]. discriminate HK.
Defined.

(** C10, the claim as stated fails: the field names of this state are all
    in the translation table, and the normaliser neither returns a report
    nor raises [KeyError]; [startswith] is asked of a container identifier
    that is not a string. *)
Lemma status_report_container_not_string :
  Forall (λ item, known item.1) [("containerID", VNone)]
  ∧ _status_report (VDict [("running", VDict [("containerID", VNone)])])
    = Err AttributeError.
Proof. split; [|reflexivity]. repeat constructor. by exists "container". Qed.

Lemma written_container (s : string) :
  written "containerID" (VStr s)
  = VStr (if String.prefix "docker://" s
          then drop_chars (String.length "docker://") s else s).
Proof. reflexivity. Qed.

Lemma typed_of_container (fields : odict) (s : string) :
  NoDup (keys fields) → dict_get "containerID" fields = Some (VStr s) →
  Forall typed fields.
Proof.
  intros Hnd Hget. apply Forall_forall. intros [k v] Hin Hk.
  simpl in Hk. subst k. exists s. simpl.
  apply (dict_get_unique _ _ _ Hnd) in Hin. congruence.
Qed.

Lemma NoDup_keys_split (pre post : odict) (k : string) (v : value) :
  NoDup (keys (pre ++ (k, v) :: post)) → (k ∉ keys pre) ∧ (k ∉ keys post).
Proof.
  rewrite keys_app, keys_cons, NoDup_app, NoDup_cons.
  intros (_ & Hpre & Hk & _). split; [|done].
  intros Hin. apply (Hpre _ Hin). left.
Qed.

(** C7: when the sole state carries a container identifier, the report's
    container field is the identifier without a leading ["docker://"], and
    the identifier itself when it does not start with that prefix. *)
Theorem status_report_container (state : string) (fields : odict) (s : string) :
  NoDup (keys fields) →
  Forall (λ item, known item.1) fields →
  dict_get "containerID" fields = Some (VStr s) →
  ∃ out, _status_report (VDict [(state, VDict fields)]) = Ok (VDict out)
    ∧ (∀ rest, s = "docker://" +:+ rest →
         dict_get "container" out = Some (VStr rest))
    ∧ ((∀ rest, s ≠ "docker://" +:+ rest) →
         dict_get "container" out = Some (VStr s)).
Proof.
  intros Hnd Hk Hget.
  pose proof (typed_of_container _ _ Hnd Hget) as Ht.
  apply dict_get_Some_elem, list_elem_of_split in Hget as (pre & post & ->).
  apply NoDup_keys_split in Hnd as [_ Hpost].
  destruct (for_each_report_last "container" "containerID" (VStr s) pre post
              (blank_report state) Hk Ht (complete_blank state) eq_refl)
    as (out & Hout & _ & Hget).
  { intros k' Hin Hk'. apply container_source in Hk'. by subst k'. }
  exists out. rewrite status_report_single. simpl. rewrite Hout.
  split; [done|]. rewrite Hget, written_container. split.
  - intros rest ->.
    by rewrite prefix_append, (drop_chars_append "docker://").
  - intros Hno. destruct (String.prefix "docker://" s) eqn:Hp; [|done].
    destruct (Hno _ (prefix_split _ _ Hp)).
Qed.

Lemma status_report_container_witness :
  (∃ out, _status_report
            (VDict [("running", VDict [("containerID", VStr "docker://abc123");
                                       ("startedAt", VStr "2018-11-02")])])
          = Ok (VDict out)
     ∧ (∀ rest, "docker://abc123" = "docker://" +:+ rest →
          dict_get "container" out = Some (VStr rest))
     ∧ ((∀ rest, "docker://abc123" ≠ "docker://" +:+ rest) →
          dict_get "container" out = Some (VStr "docker://abc123")))
  ∧ (∃ out, _status_report
              (VDict [("running", VDict [("containerID", VStr "cri-o://abc123")])])
            = Ok (VDict out)
       ∧ (∀ rest, "cri-o://abc123" = "docker://" +:+ rest →
            dict_get "container" out = Some (VStr rest))
       ∧ ((∀ rest, "cri-o://abc123" ≠ "docker://" +:+ rest) →
            dict_get "container" out = Some (VStr "cri-o://abc123"))).
Proof.
  split.
  - apply (status_report_container "running"
             [("containerID", VStr "docker://abc123");
              ("startedAt", VStr "2018-11-02")] "docker://abc123").
    + apply (bool_decide_unpack _). vm_compute. exact I.
    + repeat constructor; eexists; reflexivity.
    + reflexivity.
  - apply (status_report_container "running"
             [("containerID", VStr "cri-o://abc123")] "cri-o://abc123").
    + apply (bool_decide_unpack _). vm_compute. exact I.
    + repeat constructor; eexists; reflexivity.
    + reflexivity.
Defined.

(** C5, the claim as stated fails: a message that follows the reason
    replaces it in the report. *)
Lemma status_report_message_replaces_reason :
  _status_report
    (VDict [("waiting", VDict [("reason", VStr "ImagePullBackOff");
                               ("message", VStr "Back-off pulling image")])])
  = Ok (VDict [("exit_code", VNone); ("finished_at", VNone);
               ("reason", VStr "Back-off pulling image");
               ("started_at", VNone); ("container", VNone);
               ("state", VStr "waiting")])
  ∧ VStr "Back-off pulling image" ≠ VStr "ImagePullBackOff".
Proof. split; [reflexivity|discriminate]. Qed.

(** C5, amended: [reason] and [message] are both copied to the report's
    reason field, each overwriting what is there; when the state carries
    both, the report's reason is the value of the one that comes later in
    the state. *)
Theorem status_report_reason (state : string) (pre post : odict)
    (k : string) (v : value) :
  k = "reason" ∨ k = "message" →
  "reason" ∉ keys post → "message" ∉ keys post →
  Forall (λ item, known item.1) (pre ++ (k, v) :: post) →
  Forall typed (pre ++ (k, v) :: post) →
  ∃ out, _status_report (VDict [(state, VDict (pre ++ (k, v) :: post))])
         = Ok (VDict out)
         ∧ dict_get "reason" out = Some v.
Proof.
  intros Hk Hr Hm Hknown Ht.
  destruct (for_each_report_last "reason" k v pre post
              (blank_report state) Hknown Ht (complete_blank state))
    as (out & Hout & _ & Hget).
  { by destruct Hk as [->| ->]. }
  { intros k' Hin Hk'. by apply reason_source in Hk' as [->| ->]. }
  exists out. rewrite status_report_single. simpl. rewrite Hout.
  split; [done|]. rewrite Hget. unfold written.
  rewrite decide_False; [done|]. by destruct Hk as [->| ->].
Qed.

Lemma status_report_reason_witness :
  ∃ out, _status_report
           (VDict [("waiting", VDict ([("message", VStr "Back-off")] ++
                      ("reason", VStr "ImagePullBackOff") :: []))])
         = Ok (VDict out)
         ∧ dict_get "reason" out = Some (VStr "ImagePullBackOff").
Proof.
  apply (status_report_reason "waiting" [("message", VStr "Back-off")] []
           "reason" (VStr "ImagePullBackOff")).
  - by left.
  - apply not_elem_of_nil.
  - apply not_elem_of_nil.
  - repeat constructor; eexists; reflexivity.
  - repeat constructor; intros [=].
Defined.

(** ** The kill of a liveness probe *)

Lemma dict_set_app_notin (k : string) (v v' : value) (pre post : odict) :
  k ∉ keys pre →
  dict_set k v' (pre ++ (k, v) :: post) = pre ++ (k, v') :: post.
Proof.
  induction pre as [|[k0 v0] pre IH]; simpl.
  - intros _. by rewrite decide_True.
  - rewrite not_elem_of_cons. intros [Hne Hpre].
    rewrite decide_False by done. by rewrite IH.
Qed.

Lemma pod_state_container (response state : value) :
  container_state response = Ok state →
  pod_state response = rename_timeout_kill state.
Proof.
  unfold container_state, pod_state.
  destruct (getitem response "status") as [status|e]; simpl; [|done].
  destruct status as [a|l|d]; simpl; try done.
  unfold dict_has. destruct (dict_get "containerStatuses" d); simpl; [|done].
  destruct (first_item v) as [c|e]; simpl; [|done].
  destruct (getitem c "state") as [st|e]; simpl; [|done].
  by intros [= ->].
Qed.

(** What the renaming does to a terminated state that exited with 137. *)
Lemma rename_timeout_kill_137 (pre post : odict) (r : value) :
  NoDup (keys (pre ++ ("reason", r) :: post)) →
  dict_get "exitCode" (pre ++ ("reason", r) :: post) = Some (VInt 137) →
  rename_timeout_kill (VDict [("terminated", VDict (pre ++ ("reason", r) :: post))])
  = Ok (VDict [("terminated",
                VDict (pre ++ ("reason",
                               if eq_str r "Error" then VStr "TimeoutKilled"
                               else r) :: post))]).
Proof.
  intros Hnd Hexit. apply NoDup_keys_split in Hnd as [Hpre _].
  assert (dict_get "reason" (pre ++ ("reason", r) :: post) = Some r) as Hr.
  { rewrite (dict_get_app_notin _ _ _ Hpre). cbn [dict_get].
    by rewrite decide_True. }
  unfold rename_timeout_kill, get, getitem, setitem.
  cbn [dict_get]. rewrite decide_True by done.
  cbn [mbind result_bind]. rewrite Hexit.
  change (eq_int (VInt 137) 137) with true. cbv iota. rewrite Hr.
  cbn [mbind result_bind]. destruct (eq_str r "Error"); [|done].
  rewrite (dict_set_app_notin _ _ _ _ _ Hpre).
  cbn [dict_set]. by rewrite decide_True.
Qed.

(** The report of a pod is made of the document the cluster answers the
    lookup of the pod with. *)
Lemma run_get_pod_status_report (w : world) (self : OpenShift)
    (pod_id : string) (namespace : option string) (response : value) :
  w [] _ (ResourceGet "v1" "Pod" namespace (Some pod_id) None) = Ok response →
  (run w [] (get_pod_status_report self pod_id namespace)).2
  = normalize response.
Proof.
  intros Hw. unfold get_pod_status_report, get_pod_status, normalize.
  cbn [mbind prog_mbind prog_bind run]. rewrite Hw.
  destruct (pod_state response) as [st|e]; cbn; [|done].
  by destruct (_status_report st).
Qed.

(** C2, the claim as stated fails: exit code 137 with reason ["Error"] is
    reported with the state's message as its reason when the state carries
    a message after the reason. *)
Lemma timeout_kill_replaced_by_message :
  (run (answering (pod_in_state
          (VDict [("terminated", VDict [("exitCode", VInt 137);
                                        ("reason", VStr "Error");
                                        ("message", VStr "probe failed")])])))
       [] (get_pod_status_report deployed "solver-1" (Some "thoth-middletier"))).2
  = Ok (VDict [("exit_code", VInt 137); ("finished_at", VNone);
               ("reason", VStr "probe failed");
               ("started_at", VNone); ("container", VNone);
               ("state", VStr "terminated")])
  ∧ VStr "probe failed" ≠ VStr "TimeoutKilled".
Proof. split; [reflexivity|discriminate]. Qed.

(** C2, amended: for a pod whose first container terminated with exit code
    137 and whose state carries no message after its reason, the report's
    reason is ["TimeoutKilled"] when the raw reason is ["Error"], and the
    raw reason itself for any other value, ["OOMKilled"] included. *)
Theorem timeout_kill_reason (w : world) (self : OpenShift) (pod_id : string)
    (namespace : option string) (response : value) (pre post : odict)
    (r : value) :
  w [] _ (ResourceGet "v1" "Pod" namespace (Some pod_id) None) = Ok response →
  container_state response
  = Ok (VDict [("terminated", VDict (pre ++ ("reason", r) :: post))]) →
  NoDup (keys (pre ++ ("reason", r) :: post)) →
  Forall (λ item, known item.1) (pre ++ ("reason", r) :: post) →
  Forall typed (pre ++ ("reason", r) :: post) →
  dict_get "exitCode" (pre ++ ("reason", r) :: post) = Some (VInt 137) →
  "message" ∉ keys post →
  ∃ out,
    (run w [] (get_pod_status_report self pod_id namespace)).2 = Ok (VDict out)
    ∧ dict_get "reason" out
      = Some (if eq_str r "Error" then VStr "TimeoutKilled" else r).
Proof.
  intros Hw Hstate Hnd Hknown Ht Hexit Hmsg.
  rewrite (run_get_pod_status_report _ _ _ _ _ Hw). unfold normalize.
  rewrite (pod_state_container _ _ Hstate).
  rewrite (rename_timeout_kill_137 _ _ _ Hnd Hexit).
  apply NoDup_keys_split in Hnd as [_ Hpost].
  set (r' := if eq_str r "Error" then VStr "TimeoutKilled" else r).
  destruct (for_each_report_last "reason" "reason" r' pre post
              (blank_report "terminated")) as (out & Hout & _ & Hget).
  - apply Forall_app in Hknown as [Hk1 Hk2]. apply Forall_app. split; [done|].
    apply Forall_cons in Hk2 as [? ?]. by constructor.
  - apply Forall_app in Ht as [Ht1 Ht2]. apply Forall_app. split; [done|].
    apply Forall_cons in Ht2 as [? ?]. constructor; [intros [=]|done].
  - apply complete_blank.
  - reflexivity.
  - intros k' Hin Hk'. by apply reason_source in Hk' as [->| ->].
  - exists out. cbn [mbind result_bind].
    rewrite status_report_single. simpl. rewrite Hout.
    split; [done|]. rewrite Hget. reflexivity.
Qed.

Lemma timeout_kill_reason_witness :
  ∃ out,
    (run (answering (pod_in_state
            (VDict [("terminated",
                     VDict ([("exitCode", VInt 137)] ++
                            ("reason", VStr "Error")
                            :: [("finishedAt", VStr "2018-11-02")]))])))
       [] (get_pod_status_report deployed "solver-1" (Some "thoth-middletier"))).2
    = Ok (VDict out)
    ∧ dict_get "reason" out
      = Some (if eq_str (VStr "Error") "Error" then VStr "TimeoutKilled"
              else VStr "Error").
Proof.
  apply (timeout_kill_reason _ deployed "solver-1" (Some "thoth-middletier")
           (pod_in_state
              (VDict [("terminated",
                       VDict ([("exitCode", VInt 137)] ++
                              ("reason", VStr "Error")
                              :: [("finishedAt", VStr "2018-11-02")]))]))
           [("exitCode", VInt 137)] [("finishedAt", VStr "2018-11-02")]
           (VStr "Error")).
  - reflexivity.
  - reflexivity.
  - apply (bool_decide_unpack _). vm_compute. exact I.
  - repeat constructor; eexists; reflexivity.
  - repeat constructor; intros [=].
  - reflexivity.
  - apply (bool_decide_unpack _). vm_compute. exact I.
Defined.

(** ** Parameter upsert *)

Section entries.
Context `{Printers}.
Implicit Types (entries : list value) (entry : value) (name : string).

Lemma eq_str_true (x : value) (s : string) : eq_str x s = true ↔ x = VStr s.
Proof.
  destruct x as [[| | |s']| |]; simpl; try (split; [done|by intros [=]]).
  rewrite bool_decide_eq_true. split; [by intros ->|by intros [= ->]].
Qed.

Lemma entry_name_Some entry name :
  entry_name entry = Some name ↔ getitem entry "name" = Ok (VStr name).
Proof.
  unfold entry_name.
  destruct (getitem entry "name") as [[[| | |s]| |]|]; split; try done.
  - by intros [= ->].
  - by intros [= ->].
Qed.

Lemma names_cons entry entries :
  names (entry :: entries)
  = match entry_name entry with
    | Some n => n :: names entries
    | None => names entries
    end.
Proof. reflexivity. Qed.

Lemma touched_name name x entry entry' :
  touched name x entry entry' → getitem entry' "name" = getitem entry "name".
Proof.
  intros [_ Hset]. destruct entry as [a|l|d]; simpl in Hset; try done.
  injection Hset as <-. simpl. by rewrite dict_get_set_ne.
Qed.

Lemma touched_entry_name name x entry entry' :
  touched name x entry entry' → entry_name entry' = entry_name entry.
Proof. intros Ht. unfold entry_name. by rewrite (touched_name _ _ _ _ Ht). Qed.

(** The inner loop on entries that all have a name: it overwrites the
    first entry of that name, or finds none. *)
Lemma overwrite_first_cases name x entries :
  Forall named entries →
  (name ∈ names entries
   ∧ ∃ entries', overwrite_first name x entries = Ok (Some entries')
       ∧ Forall2 (λ e e', e' = e ∨ touched name x e e') entries entries')
  ∨ ((name ∉ names entries) ∧ overwrite_first name x entries = Ok None).
Proof.
  induction 1 as [|entry entries [n Hn] Hall IH].
  - right. split; [apply not_elem_of_nil|done].
  - rewrite names_cons. cbn [overwrite_first]. rewrite Hn. cbn [mbind result_bind].
    destruct (eq_str n name) eqn:Heq.
    + apply eq_str_true in Heq. subst n. left.
      apply entry_name_Some in Hn as Hname. rewrite Hname. split; [left|].
      destruct entry as [a|l|d]; try done. cbn.
      eexists. split; [done|]. constructor.
      * right. by split.
      * apply Forall2_same_length_lookup_2; [done|]. intros i e e' ? ?. left.
        congruence.
    + assert (entry_name entry ≠ Some name) as Hne.
      { intros Hname. apply entry_name_Some in Hname. rewrite Hname in Hn.
        injection Hn as <-. simpl in Heq. by rewrite bool_decide_true in Heq. }
      destruct IH as [[Hin (entries' & -> & Hrel)]|[Hnin ->]].
      * left. split.
        { destruct (entry_name entry); [by right|done]. }
        eexists. split; [done|]. constructor; [by left|done].
      * right. split; [|done].
        destruct (entry_name entry) as [n'|] eqn:Hn'; [|done].
        apply not_elem_of_cons. split; [congruence|done].
Qed.
End entries.

(** ** The outer loop of an upsert *)

Lemma filter_ext_elem {A : Type} (P1 P2 : A → Prop)
    `{!∀ x, Decision (P1 x), !∀ x, Decision (P2 x)} (l : list A) :
  (∀ x, x ∈ l → P1 x ↔ P2 x) → filter P1 l = filter P2 l.
Proof.
  induction l as [|a l IH]; intros Hext; [done|].
  rewrite !filter_cons.
  rewrite IH by (intros x Hx; apply Hext; by right).
  destruct (decide (P1 a)) as [H1|H1], (decide (P2 a)) as [H2|H2]; try done.
  - destruct H2. apply Hext; [left|done].
  - destruct H1. apply Hext; [left|done].
Qed.

Section loop.
Variables (step : value → string * value → result value)
          (view : value → result value)
          (ow ap : value → value).

(** A round of the outer loop runs the inner loop on the entries it views
    in the template, and leaves its result, or one more entry, there. *)
Hypothesis step_view : ∀ t entries name x,
  view t = Ok (VList entries) →
  match overwrite_first name (ow x) entries with
  | Ok (Some entries') =>
      ∃ t', step t (name, x) = Ok t' ∧ view t' = Ok (VList entries')
  | Ok None =>
      ∃ t', step t (name, x) = Ok t'
            ∧ view t' = Ok (VList (entries ++ [new_entry name (ap x)]))
  | Err e => step t (name, x) = Err e
  end.

Lemma overwritten_step (mapping : list (string * value)) (name : string)
    (x : value) (e e1 e2 : value) :
  name ∉ mapping.*1 →
  e1 = e ∨ touched name (ow x) e e1 →
  overwritten ow mapping e1 e2 →
  overwritten ow ((name, x) :: mapping) e e2.
Proof.
  intros Hfresh [->|Ht] [->|(n' & x' & Hin & Ht')].
  - by left.
  - right. exists n', x'. split; [by right|done].
  - right. exists name, x. split; [left|done].
  - destruct Hfresh. destruct Ht' as [Hn' _].
    rewrite (touched_entry_name _ _ _ _ Ht) in Hn'. destruct Ht as [Hn _].
    assert (n' = name) as -> by congruence.
    apply list_elem_of_fmap. by exists (name, x').
Qed.

Lemma Forall2_names (R : value → value → Prop) (l l' : list value) :
  (∀ e e', R e e' → getitem e' "name" = getitem e "name") →
  Forall2 R l l' → names l' = names l ∧ (Forall named l → Forall named l').
Proof.
  intros HR. induction 1 as [|e e' l l' He Hl [IHn IHf]]; [done|].
  rewrite !names_cons. unfold entry_name, named in *. rewrite (HR _ _ He), IHn.
  split; [done|]. intros [Hn Hall]%Forall_cons. constructor; [|auto].
  by rewrite (HR _ _ He).
Qed.

Lemma appended_names (l l' : list value) (mapping : list (string * value)) :
  names l' = names l → appended ap l' mapping = appended ap l mapping.
Proof. unfold appended. by intros ->. Qed.

(** The shape of the entries after the outer loop: the entries that were
    there, in their places and at most overwritten, then the entries of
    the names that were missing. *)
Lemma loop_shape (mapping : list (string * value)) :
  ∀ t entries,
    view t = Ok (VList entries) → Forall named entries → NoDup mapping.*1 →
    ∃ t' kept,
      for_each step mapping t = Ok t'
      ∧ view t' = Ok (VList (kept ++ appended ap entries mapping))
      ∧ Forall2 (overwritten ow mapping) entries kept.
Proof.
  induction mapping as [|[name x] mapping IH]; intros t entries Hview Hnamed Hnd.
  - exists t, entries. unfold appended. simpl. rewrite app_nil_r.
    split; [done|]. split; [done|].
    apply Forall2_same_length_lookup_2; [done|]. intros i e e' ? ?. left.
    congruence.
  - rewrite fmap_cons in Hnd. apply NoDup_cons in Hnd as [Hfresh Hnd].
    pose proof (step_view t entries name x Hview) as Hstep.
    cbn [for_each].
    destruct (overwrite_first_cases name (ow x) entries Hnamed)
      as [[Hin (entries' & Hrun & Hrel)]|[Hnin Hrun]];
      rewrite Hrun in Hstep; destruct Hstep as (t1 & -> & Hview1);
      cbn [mbind result_bind].
    + destruct (Forall2_names _ _ _
                  (λ e e' He, match He with
                              | or_introl Heq => f_equal (λ e, getitem e "name") Heq
                              | or_intror Ht => touched_name _ _ _ _ Ht
                              end) Hrel) as [Hnames Hnamed'].
      destruct (IH t1 entries' Hview1 (Hnamed' Hnamed) Hnd)
        as (t' & kept & Hfor & Hview' & Hkept).
      exists t', kept. split; [done|]. split.
      * rewrite Hview'. rewrite (appended_names _ _ _ Hnames).
        unfold appended. rewrite filter_cons_False; [done|]. simpl. tauto.
      * apply Forall2_same_length_lookup_2.
        { by rewrite (Forall2_length _ _ _ Hrel), (Forall2_length _ _ _ Hkept). }
        intros i e e2 He He2.
        destruct (Forall2_lookup_l _ _ _ _ _ Hrel He) as (e1 & He1 & Hee1).
        destruct (Forall2_lookup_l _ _ _ _ _ Hkept He1) as (e2' & He2' & He12).
        assert (e2' = e2) as -> by congruence.
        by eapply overwritten_step.
    + assert (Forall named (entries ++ [new_entry name (ap x)])) as Hnamed'.
      { apply Forall_app. split; [done|]. constructor; [|constructor].
        by exists (VStr name). }
      destruct (IH t1 _ Hview1 Hnamed' Hnd)
        as (t' & kept' & Hfor & Hview' & Hkept).
      apply Forall2_app_inv_l in Hkept
        as (kept & last & Hkept & Hlast & ->).
      apply Forall2_cons_inv_l in Hlast as (new & nil & Hnew & Hnil & ->).
      apply Forall2_nil_inv_l in Hnil as ->.
      assert (new = new_entry name (ap x)) as ->.
      { destruct Hnew as [->|(n' & x' & Hin' & [Hn' _])]; [done|].
        destruct Hfresh. injection Hn' as <-.
        apply list_elem_of_fmap. by exists (name, x'). }
      exists t', kept. split; [done|]. split.
      * rewrite Hview'. f_equal. f_equal. rewrite <- app_assoc. f_equal.
        unfold appended. rewrite filter_cons_True by done.
        rewrite fmap_cons. simpl. f_equal.
        f_equal. apply filter_ext_elem. intros [n' x'] Hin'. simpl.
        unfold names. rewrite omap_app. simpl. rewrite elem_of_app.
        rewrite list_elem_of_singleton. split; [tauto|].
        intros Hn' [?| ->]; [done|].
        destruct Hfresh. apply list_elem_of_fmap. by exists (name, x').
      * eapply Forall2_impl; [done|].
        intros e e' [->|(n' & x' & Hin' & Ht)]; [by left|].
        right. exists n', x'. split; [by right|done].
Qed.
End loop.

(** ** A second application *)

Lemma overwrite_first_inv (name : string) (x : value) (e : value)
    (l : list value) (r : option (list value)) :
  overwrite_first name x (e :: l) = Ok r →
  ∃ n, getitem e "name" = Ok n
    ∧ ((eq_str n name = true
        ∧ ∃ e', setitem e "value" x = Ok e' ∧ r = Some (e' :: l))
       ∨ (eq_str n name = false
          ∧ ∃ r', overwrite_first name x l = Ok r'
                  ∧ r = option_map (cons e) r')).
Proof.
  cbn [overwrite_first].
  destruct (getitem e "name") as [n|err]; [|done]. cbn [mbind result_bind].
  intros Hrun. exists n. split; [done|].
  destruct (eq_str n name).
  - left. split; [done|].
    destruct (setitem e "value" x) as [e'|err]; [|done].
    injection Hrun as <-. by exists e'.
  - right. split; [done|].
    destruct (overwrite_first name x l) as [r'|err]; [|done].
    injection Hrun as <-. by exists r'.
Qed.

Lemma overwrite_first_match (name : string) (x n e e' : value)
    (l : list value) :
  getitem e "name" = Ok n → eq_str n name = true →
  setitem e "value" x = Ok e' →
  overwrite_first name x (e :: l) = Ok (Some (e' :: l)).
Proof. intros Hn Heq He. cbn [overwrite_first]. by rewrite Hn; cbn; rewrite Heq, He. Qed.

Lemma overwrite_first_skip (name : string) (x n e : value) (l : list value) :
  getitem e "name" = Ok n → eq_str n name = false →
  overwrite_first name x (e :: l)
  = option_map (cons e) <$> overwrite_first name x l.
Proof.
  intros Hn Heq. cbn [overwrite_first]. rewrite Hn; cbn; rewrite Heq.
  by destruct (overwrite_first name x l).
Qed.

Lemma setitem_name (e e' x : value) :
  setitem e "value" x = Ok e' → getitem e' "name" = getitem e "name".
Proof.
  destruct e as [a|l|d]; [done|done|]. intros [= <-].
  cbn. by rewrite dict_get_set_ne.
Qed.

Lemma setitem_again (e e' x : value) :
  setitem e "value" x = Ok e' → setitem e' "value" x = Ok e'.
Proof.
  destruct e as [a|l|d]; [done|done|]. intros [= <-].
  cbn. by rewrite dict_set_set.
Qed.

(** What the inner loop overwrote, it finds overwritten. *)
Lemma settled_overwritten (name : string) (x : value) (l l1 : list value) :
  overwrite_first name x l = Ok (Some l1) → settled name x l1.
Proof.
  unfold settled. revert l1. induction l as [|e l IH]; intros l1; [done|].
  intros (n & Hn & [[Heq (e' & He' & [= ->])]|[Heq (r' & Hr' & Hr)]])
    %overwrite_first_inv.
  - apply (overwrite_first_match _ _ n); [|done|by eapply setitem_again].
    by rewrite (setitem_name _ _ _ He').
  - destruct r' as [l1'|]; [|done]. injection Hr as ->.
    rewrite (overwrite_first_skip _ _ n) by done.
    by rewrite (IH _ Hr').
Qed.

(** What the outer loop appended with the value it overwrites with, the
    inner loop finds as it is. *)
Lemma settled_appended (name : string) (x : value) (l : list value) :
  overwrite_first name x l = Ok None → settled name x (l ++ [new_entry name x]).
Proof.
  unfold settled. induction l as [|e l IH].
  - intros _. apply (overwrite_first_match _ _ (VStr name)); [done| |done].
    by apply eq_str_true.
  - intros (n & Hn & [[Heq (e' & He' & [=])]|[Heq (r' & Hr' & Hr)]])
      %overwrite_first_inv.
    destruct r' as [|]; [done|]. cbn [app].
    rewrite (overwrite_first_skip _ _ n) by done.
    by rewrite (IH Hr').
Qed.

(** A round for another name leaves a settled name settled. *)
Lemma settled_other_overwritten (name name' : string) (x x' : value)
    (l l2 : list value) :
  name' ≠ name → settled name x l →
  overwrite_first name' x' l = Ok (Some l2) → settled name x l2.
Proof.
  unfold settled. intros Hne. revert l2. induction l as [|e l IH]; intros l2; [done|].
  intros (n & Hn & [[Heq (e1 & He1 & [= He1l])]|[Heq (r & Hr & Hrl)]])
    %overwrite_first_inv
    (n' & Hn' & [[Heq' (e2 & He2 & [= ->])]|[Heq' (r' & Hr' & Hr'l)]])
    %overwrite_first_inv;
    assert (n' = n) as -> by congruence.
  - apply eq_str_true in Heq as ->. apply eq_str_true in Heq' as [= ->]. done.
  - destruct r' as [l2'|]; [|done]. injection Hr'l as ->. subst e1.
    by apply (overwrite_first_match _ _ n).
  - destruct r as [l'|]; [|done]. injection Hrl as ->.
    rewrite (overwrite_first_skip _ _ n);
      [by rewrite Hr|by rewrite (setitem_name _ _ _ He2)|done].
  - destruct r as [l'|]; [|done]. injection Hrl as ->.
    destruct r' as [l2'|]; [|done]. injection Hr'l as ->.
    rewrite (overwrite_first_skip _ _ n) by done.
    by rewrite (IH _ Hr Hr').
Qed.

Lemma settled_other_appended (name : string) (x e : value) (l : list value) :
  settled name x l → settled name x (l ++ [e]).
Proof.
  unfold settled. induction l as [|e0 l IH]; [done|].
  intros (n & Hn & [[Heq (e1 & He1 & [= He1l])]|[Heq (r & Hr & Hrl)]])
    %overwrite_first_inv; cbn [app].
  - subst e1. by apply (overwrite_first_match _ _ n).
  - destruct r as [l'|]; [|done]. injection Hrl as ->.
    rewrite (overwrite_first_skip _ _ n) by done.
    by rewrite (IH Hr).
Qed.

Section second.
Variables (step : value → string * value → result value)
          (view : value → result value)
          (coerce : value → value).

Hypothesis step_view : ∀ t entries name x,
  view t = Ok (VList entries) →
  match overwrite_first name (coerce x) entries with
  | Ok (Some entries') =>
      ∃ t', step t (name, x) = Ok t' ∧ view t' = Ok (VList entries')
  | Ok None =>
      ∃ t', step t (name, x) = Ok t'
            ∧ view t' = Ok (VList (entries ++ [new_entry name (coerce x)]))
  | Err e => step t (name, x) = Err e
  end.

(** A round that changes no entry changes nothing. *)
Hypothesis step_settled : ∀ t entries name x,
  view t = Ok (VList entries) → settled name (coerce x) entries →
  step t (name, x) = Ok t.

Lemma step_result (t t1 : value) (entries : list value) (name : string)
    (x : value) :
  view t = Ok (VList entries) → step t (name, x) = Ok t1 →
  ∃ entries1, view t1 = Ok (VList entries1)
    ∧ settled name (coerce x) entries1
    ∧ ∀ name' x', name' ≠ name →
        settled name' x' entries → settled name' x' entries1.
Proof.
  intros Hview Hstep. pose proof (step_view t entries name x Hview) as Hsv.
  destruct (overwrite_first name (coerce x) entries) as [[entries1|]|e] eqn:Hrun.
  - destruct Hsv as (t' & Ht' & Hview'). assert (t' = t1) as -> by congruence.
    exists entries1. split; [done|]. split; [by eapply settled_overwritten|].
    intros name' x' Hne Hs. by eapply (settled_other_overwritten name' name).
  - destruct Hsv as (t' & Ht' & Hview'). assert (t' = t1) as -> by congruence.
    eexists. split; [done|]. split; [by apply settled_appended|].
    intros name' x' Hne Hs. by apply settled_other_appended.
  - congruence.
Qed.

Lemma loop_keeps_settled (mapping : list (string * value)) (name : string)
    (x : value) :
  name ∉ mapping.*1 →
  ∀ t t' entries,
    view t = Ok (VList entries) → settled name x entries →
    for_each step mapping t = Ok t' →
    ∃ entries', view t' = Ok (VList entries') ∧ settled name x entries'.
Proof.
  induction mapping as [|[n y] mapping IH]; intros Hfresh t t' entries Hview Hs.
  - intros [= <-]. by exists entries.
  - rewrite fmap_cons, not_elem_of_cons in Hfresh. destruct Hfresh as [Hne Hfresh].
    cbn [for_each]. destruct (step t (n, y)) as [t1|e] eqn:Hstep; [|done].
    cbn [mbind result_bind]. intros Hloop.
    destruct (step_result _ _ _ _ _ Hview Hstep) as (entries1 & Hview1 & _ & Hkeep).
    eapply (IH Hfresh t1); [done| |done]. by apply Hkeep.
Qed.

Lemma loop_settles (mapping : list (string * value)) :
  NoDup mapping.*1 →
  ∀ t t' entries,
    view t = Ok (VList entries) → for_each step mapping t = Ok t' →
    ∃ entries', view t' = Ok (VList entries')
      ∧ ∀ name x, (name, x) ∈ mapping → settled name (coerce x) entries'.
Proof.
  induction mapping as [|[n y] mapping IH]; intros Hnd t t' entries Hview.
  - intros [= <-]. exists entries. split; [done|].
    intros ? ? Hin. by apply elem_of_nil in Hin.
  - rewrite fmap_cons in Hnd. apply NoDup_cons in Hnd as [Hfresh Hnd].
    cbn [for_each]. destruct (step t (n, y)) as [t1|e] eqn:Hstep; [|done].
    cbn [mbind result_bind]. intros Hloop.
    destruct (step_result _ _ _ _ _ Hview Hstep) as (entries1 & Hview1 & Hs & _).
    destruct (IH Hnd _ _ _ Hview1 Hloop) as (entries' & Hview' & Hall).
    exists entries'. split; [done|].
    intros name x [[= -> ->]|Hin]%elem_of_cons; [|by apply Hall].
    destruct (loop_keeps_settled _ _ _ Hfresh _ _ _ Hview1 Hs Hloop)
      as (entries'' & Hview'' & Hs'').
    simpl in Hs''. rewrite Hview' in Hview''. by injection Hview'' as ->.
Qed.

Lemma loop_settled (mapping : list (string * value)) (t : value)
    (entries : list value) :
  view t = Ok (VList entries) →
  (∀ name x, (name, x) ∈ mapping → settled name (coerce x) entries) →
  for_each step mapping t = Ok t.
Proof.
  intros Hview. induction mapping as [|[n y] mapping IH]; intros Hall; [done|].
  cbn [for_each]. rewrite (step_settled _ _ _ _ Hview) by (apply Hall; left).
  cbn [mbind result_bind]. apply IH. intros name x Hin. apply Hall. by right.
Qed.

(** The outer loop, run again on its own result, changes nothing. *)
Lemma loop_idempotent (mapping : list (string * value)) (t t' : value)
    (entries : list value) :
  NoDup mapping.*1 → view t = Ok (VList entries) →
  for_each step mapping t = Ok t' → for_each step mapping t' = Ok t'.
Proof.
  intros Hnd Hview Hloop.
  destruct (loop_settles _ Hnd _ _ _ Hview Hloop) as (entries' & Hview' & Hall).
  by eapply loop_settled.
Qed.
End second.

(** ** The two upserts *)

Section upserts.
Context `{Printers}.

Lemma set_parameter_step_view (t : value) (entries : list value)
    (name : string) (x : value) :
  getitem t "parameters" = Ok (VList entries) →
  match overwrite_first name (VStr (str_or_empty x)) entries with
  | Ok (Some entries') =>
      ∃ t', set_parameter_step t (name, x) = Ok t'
            ∧ getitem t' "parameters" = Ok (VList entries')
  | Ok None =>
      ∃ t', set_parameter_step t (name, x) = Ok t'
            ∧ getitem t' "parameters"
              = Ok (VList (entries ++
                             [new_entry name (VStr (str_or_empty x))]))
  | Err e => set_parameter_step t (name, x) = Err e
  end.
Proof.
  intros Hview. unfold set_parameter_step. rewrite Hview.
  cbn [mbind result_bind iterate].
  destruct t as [a|l|d]; [done|done|].
  destruct (overwrite_first name (VStr (str_or_empty x)) entries)
    as [[entries'|]|e]; cbn; [| |done];
    (eexists; split; [done|]); unfold getitem; by rewrite dict_get_set_eq.
Qed.

(** Writing the environment back leaves it where it is read from. *)
Lemma get_put_env (t env env' : value) :
  get_env t = Ok env → ∃ t', put_env t env' = Ok t' ∧ get_env t' = Ok env'.
Proof.
  unfold get_env, put_env.
  destruct (getitem t "spec") as [spec|e] eqn:Hspec; [|done].
  cbn [mbind result_bind].
  destruct (getitem spec "containers") as [cs|e] eqn:Hcs; [|done].
  cbn [mbind result_bind].
  destruct (first_item cs) as [c|e] eqn:Hc; [|done].
  cbn [mbind result_bind].
  destruct c as [a|l|cd]; [done|done|]. intros _.
  destruct cs as [[| | |[|ch s]]|[|c0 l]|cd']; try done.
  injection Hc as ->.
  destruct spec as [a|l'|sd]; [done|done|].
  destruct t as [a|l'|d]; [done|done|].
  cbn. eexists. split; [done|].
  repeat (cbn [getitem first_item mbind result_bind];
          rewrite ?dict_get_set_eq).
  done.
Qed.

Lemma set_env_var_step_view (t : value) (entries : list value)
    (name : string) (x : value) :
  get_env t = Ok (VList entries) →
  match overwrite_first name x entries with
  | Ok (Some entries') =>
      ∃ t', set_env_var_step t (name, x) = Ok t'
            ∧ get_env t' = Ok (VList entries')
  | Ok None =>
      ∃ t', set_env_var_step t (name, x) = Ok t'
            ∧ get_env t'
              = Ok (VList (entries ++ [new_entry name (VStr (str x))]))
  | Err e => set_env_var_step t (name, x) = Err e
  end.
Proof.
  intros Hview. unfold set_env_var_step. rewrite Hview.
  cbn [mbind result_bind iterate].
  destruct (overwrite_first name x entries) as [[entries'|]|e];
    cbn [mbind result_bind append]; [| |done];
    by eapply get_put_env.
Qed.

(** C8: an upsert keeps every entry that was there, in its place and at
    most with its value overwritten, and puts one new entry for each name
    of the mapping that no entry had after them, in the order of the
    mapping.  This holds for [set_template_parameters] on the parameters
    of a template and for [_set_env_var] on the environment of the first
    container. *)
Theorem upsert_order (template : value) (entries : list value)
    (mapping : list (string * value)) :
  Forall named entries → NoDup mapping.*1 →
  ((∃ n, path template ["metadata"; "name"] = Ok n) →
   getitem template "parameters" = Ok (VList entries)
   ∨ (contains template "parameters" = Ok false ∧ entries = []) →
   ∃ template' kept,
     set_template_parameters template mapping = Ok template'
     ∧ getitem template' "parameters"
       = Ok (VList (kept ++ appended (λ x, VStr (str_or_empty x))
                                     entries mapping))
     ∧ Forall2 (overwritten (λ x, VStr (str_or_empty x)) mapping) entries kept)
  ∧ (get_env template = Ok (VList entries) →
     ∃ template' kept,
       _set_env_var template mapping = Ok template'
       ∧ get_env template'
         = Ok (VList (kept ++ appended (λ x, VStr (str x)) entries mapping))
       ∧ Forall2 (overwritten (λ x, x) mapping) entries kept).
Proof.
  intros Hnamed Hnd. split.
  - intros [n Hn] Hparams. unfold set_template_parameters.
    unfold path in Hn. cbn [for_each] in Hn.
    destruct template as [a|l|d]; [done|done|].
    destruct (getitem (VDict d) "metadata") as [metadata|e]; [|done].
    cbn [mbind result_bind] in *.
    destruct (getitem metadata "name") as [n'|e]; [|done].
    cbn [mbind result_bind contains] in *.
    destruct Hparams as [Hparams|[Hno ->]].
    + assert (dict_has "parameters" d = true) as ->.
      { unfold dict_has. simpl in Hparams.
        by destruct (dict_get "parameters" d). }
      cbn [mbind result_bind].
      apply (loop_shape _ _ _ _ set_parameter_step_view); done.
    + injection Hno as ->. cbn [mbind result_bind setitem].
      apply (loop_shape _ _ _ _ set_parameter_step_view); [|done..].
      cbn. by rewrite dict_get_set_eq.
  - intros Henv. by apply (loop_shape _ _ _ _ set_env_var_step_view).
Qed.
End upserts.

Lemma upsert_order_witness :
  (∃ template' kept,
     @set_template_parameters terse
       (solver_template [new_entry "THOTH_LOG_SOLVER" (VStr "INFO");
                         new_entry "THOTH_SOLVER_OUTPUT" (VStr "")])
       [("THOTH_SOLVER_OUTPUT", VStr "http://result-api"); ("THOTH_SOLVER_PACKAGES", VStr "tensorflow")]
     = Ok template'
     ∧ getitem template' "parameters"
       = Ok (VList (kept ++ [new_entry "THOTH_SOLVER_PACKAGES" (VStr "tensorflow")]))
     ∧ Forall2 (overwritten (λ x, VStr (@str_or_empty terse x))
                  [("THOTH_SOLVER_OUTPUT", VStr "http://result-api");
                   ("THOTH_SOLVER_PACKAGES", VStr "tensorflow")])
         [new_entry "THOTH_LOG_SOLVER" (VStr "INFO");
          new_entry "THOTH_SOLVER_OUTPUT" (VStr "")] kept)
  ∧ (∃ template' kept,
       @_set_env_var terse
         (graph_sync [new_entry "THOTH_DEPLOYMENT_NAME" (VStr "test")])
         [("THOTH_FORCE_SYNC", VInt 1)]
       = Ok template'
       ∧ get_env template'
         = Ok (VList (kept ++ [new_entry "THOTH_FORCE_SYNC" (VStr "1")]))
       ∧ Forall2 (overwritten (λ x, x) [("THOTH_FORCE_SYNC", VInt 1)])
           [new_entry "THOTH_DEPLOYMENT_NAME" (VStr "test")] kept).
Proof.
  split.
  - apply (@upsert_order terse
             (solver_template [new_entry "THOTH_LOG_SOLVER" (VStr "INFO");
                               new_entry "THOTH_SOLVER_OUTPUT" (VStr "")])
             [new_entry "THOTH_LOG_SOLVER" (VStr "INFO");
              new_entry "THOTH_SOLVER_OUTPUT" (VStr "")]
             [("THOTH_SOLVER_OUTPUT", VStr "http://result-api");
              ("THOTH_SOLVER_PACKAGES", VStr "tensorflow")]).
    + repeat constructor; eexists; reflexivity.
    + apply (bool_decide_unpack _). vm_compute. exact I.
    + eexists. reflexivity.
    + left. reflexivity.
  - apply (@upsert_order terse
             (graph_sync [new_entry "THOTH_DEPLOYMENT_NAME" (VStr "test")])
             [new_entry "THOTH_DEPLOYMENT_NAME" (VStr "test")]
             [("THOTH_FORCE_SYNC", VInt 1)]).
    + repeat constructor; eexists; reflexivity.
    + apply (bool_decide_unpack _). vm_compute. exact I.
    + reflexivity.
Defined.

(** ** [set_template_parameters] applied twice *)

Lemma dict_set_same (k : string) (v : value) (d : odict) :
  dict_get k d = Some v → dict_set k v d = d.
Proof.
  induction d as [|[k0 v0] d IH]; simpl; [done|].
  destruct (decide (k0 = k)) as [->|Hne].
  - by intros [= ->].
  - intros Hget. by rewrite IH.
Qed.

Section twice.
Context `{Printers}.

Lemma set_parameter_step_settled (t : value) (entries : list value)
    (name : string) (x : value) :
  getitem t "parameters" = Ok (VList entries) →
  settled name (VStr (str_or_empty x)) entries →
  set_parameter_step t (name, x) = Ok t.
Proof.
  intros Hview Hs. unfold set_parameter_step. rewrite Hview.
  cbn [mbind result_bind iterate]. rewrite Hs. cbn [mbind result_bind].
  destruct t as [a|l|d]; [done|done|]. cbn in *.
  destruct (dict_get "parameters" d) as [v|] eqn:Hget; [|done].
  injection Hview as ->. by rewrite dict_set_same.
Qed.

(** A round that succeeds found a list of parameters, and touches nothing
    but that list. *)
Lemma set_parameter_step_Ok (t t1 : value) (item : string * value) :
  set_parameter_step t item = Ok t1 →
  ∃ d entries v,
    t = VDict d ∧ dict_get "parameters" d = Some (VList entries)
    ∧ t1 = VDict (dict_set "parameters" v d).
Proof.
  destruct item as [name x]. unfold set_parameter_step.
  destruct t as [a|l|d]; [done|done|]. cbn [getitem].
  destruct (dict_get "parameters" d) as [p|] eqn:Hget; [|done].
  cbn [mbind result_bind].
  destruct p as [[| | |s]|entries|pd]; try done.
  - destruct s as [|c s]; cbn; [done|done].
  - cbn [iterate mbind result_bind append].
    destruct (overwrite_first name (VStr (str_or_empty x)) entries)
      as [[entries'|]|e]; [| |done]; cbn; intros [= <-];
      eexists d, entries, _; done.
  - destruct pd as [|[k v] pd]; cbn; [done|done].
Qed.

Lemma set_parameters_loop_Ok (mapping : list (string * value)) :
  ∀ d t', for_each set_parameter_step mapping (VDict d) = Ok t' →
    ∃ d', t' = VDict d'
      ∧ dict_get "metadata" d' = dict_get "metadata" d
      ∧ (dict_has "parameters" d = true → dict_has "parameters" d' = true)
      ∧ (mapping ≠ [] →
         ∃ entries, dict_get "parameters" d = Some (VList entries)).
Proof.
  induction mapping as [|item mapping IH]; intros d t'.
  - intros [= <-]. by exists d.
  - cbn [for_each].
    destruct (set_parameter_step (VDict d) item) as [t1|e] eqn:Hstep; [|done].
    cbn [mbind result_bind]. intros Hloop.
    apply set_parameter_step_Ok in Hstep
      as (d0 & entries & v & [= <-] & Hget & ->).
    destruct (IH _ _ Hloop) as (d' & -> & Hmeta & Hhas & _).
    exists d'. split; [done|]. split; [|split].
    + rewrite Hmeta. by apply dict_get_set_ne.
    + intros _. apply Hhas. unfold dict_has. by rewrite dict_get_set_eq.
    + intros _. by exists entries.
Qed.

(** X11: [set_template_parameters] is idempotent: applied a second time
    with the same mapping to the template it produced, it changes
    nothing. *)
Lemma set_template_parameters_idempotent (template template' : value)
    (mapping : list (string * value)) :
  NoDup mapping.*1 →
  set_template_parameters template mapping = Ok template' →
  set_template_parameters template' mapping = Ok template'.
Proof.
  intros Hnd Hrun. unfold set_template_parameters in Hrun.
  destruct template as [a|l|d]; [done|done|]. cbn [getitem contains] in Hrun.
  destruct (dict_get "metadata" d) as [metadata|] eqn:Hmeta; [|done].
  cbn [mbind result_bind] in Hrun.
  destruct (getitem metadata "name") as [n|e] eqn:Hname; [|done].
  cbn [mbind result_bind] in Hrun.
  assert (∀ d0, dict_get "metadata" d0 = Some metadata →
            dict_has "parameters" d0 = true →
            for_each set_parameter_step mapping (VDict d0) = Ok template' →
            set_template_parameters template' mapping = Ok template') as Hgo.
  { intros d0 Hmeta0 Hhas0 Hloop. unfold set_template_parameters.
    destruct (set_parameters_loop_Ok _ _ _ Hloop)
      as (d' & -> & Hmeta' & Hhas' & Hlist).
    cbn [getitem contains]. rewrite Hmeta', Hmeta0. cbn [mbind result_bind].
    rewrite Hname. cbn [mbind result_bind]. rewrite (Hhas' Hhas0).
    cbn [mbind result_bind].
    destruct mapping as [|item mapping]; [done|].
    destruct Hlist as [entries Hentries]; [done|].
    eapply (loop_idempotent _ (λ t, getitem t "parameters")
              (λ x, VStr (str_or_empty x))
              set_parameter_step_view set_parameter_step_settled);
      [done| |done].
    cbn [getitem]. by rewrite Hentries. }
  destruct (dict_has "parameters" d) eqn:Hhas;
    cbn [mbind result_bind setitem] in Hrun.
  - by eapply Hgo.
  - eapply Hgo; [| |done].
    + rewrite dict_get_set_ne; done.
    + unfold dict_has. by rewrite dict_get_set_eq.
Qed.

(** X12: a round of [set_template_parameters] overwrites the first entry
    of the name with the string of the value, the empty string for [None],
    and appends such an entry when no entry has the name. *)
Lemma set_parameter_step_contract (t : value) (entries : list value)
    (name : string) (x : value) :
  getitem t "parameters" = Ok (VList entries) →
  (∀ pre e e' post,
     entries = pre ++ e :: post → Forall named pre → name ∉ names pre →
     entry_name e = Some name →
     setitem e "value" (VStr (str_or_empty x)) = Ok e' →
     ∃ t', set_parameter_step t (name, x) = Ok t'
           ∧ getitem t' "parameters" = Ok (VList (pre ++ e' :: post)))
  ∧ (Forall named entries → name ∉ names entries →
     ∃ t', set_parameter_step t (name, x) = Ok t'
           ∧ getitem t' "parameters"
             = Ok (VList (entries ++
                            [new_entry name (VStr (str_or_empty x))])))
  ∧ str_or_empty VNone = "".
Proof.
  intros Hview.
  pose proof (set_parameter_step_view t entries name x Hview) as Hstep.
  split; [|split; [|done]].
  - intros pre e e' post -> Hnamed Hnot Hname He'.
    assert (overwrite_first name (VStr (str_or_empty x)) (pre ++ e :: post)
            = Ok (Some (pre ++ e' :: post))) as Hrun.
    { clear Hstep Hview. induction Hnamed as [|e0 pre [n Hn] Hpre IH]; cbn [app].
      - apply entry_name_Some in Hname.
        apply (overwrite_first_match _ _ (VStr name)); [done| |done].
        by apply eq_str_true.
      - rewrite names_cons in Hnot.
        rewrite (overwrite_first_skip _ _ n); [|done|].
        + rewrite IH; [done|]. destruct (entry_name e0); [|done].
          by apply not_elem_of_cons in Hnot as [_ ?].
        + destruct (eq_str n name) eqn:Heq; [|done].
          apply eq_str_true in Heq as ->.
          apply entry_name_Some in Hn. rewrite Hn in Hnot.
          destruct Hnot. left. }
    by rewrite Hrun in Hstep.
  - intros Hnamed Hnot.
    destruct (overwrite_first_cases name (VStr (str_or_empty x)) entries Hnamed)
      as [[Hin _]|[_ Hrun]]; [done|].
    by rewrite Hrun in Hstep.
Qed.
End twice.

(** C3, on [_set_env_var]: a second application of the same mapping
    changes the entry the first one appended.  The first application
    appends the value as a string, the second overwrites it with the value
    as it was passed. *)
Theorem set_env_var_twice `{Printers} :
  (_set_env_var (graph_sync []) [("THOTH_FORCE_SYNC", VInt 1)] ≫= get_env)
  = Ok (VList [new_entry "THOTH_FORCE_SYNC" (VStr "1")])
  ∧ (_set_env_var (graph_sync []) [("THOTH_FORCE_SYNC", VInt 1)]
     ≫= (λ t : value,
           _set_env_var t [("THOTH_FORCE_SYNC", VInt 1)] ≫= get_env))
    = Ok (VList [new_entry "THOTH_FORCE_SYNC" (VInt 1)])
  ∧ VList [new_entry "THOTH_FORCE_SYNC" (VStr "1")]
    ≠ VList [new_entry "THOTH_FORCE_SYNC" (VInt 1)].
Proof. split; [reflexivity|]. split; [reflexivity|discriminate]. Qed.

(** C4, on [_set_env_var]: the value of a matching entry is overwritten
    with the new value as it was passed, not with its string, and [None]
    is appended as the string ["None"], not as the empty string. *)
Theorem set_env_var_not_coerced `{Printers} :
  (_set_env_var (graph_sync [new_entry "THOTH_FORCE_SYNC" (VStr "0")])
     [("THOTH_FORCE_SYNC", VInt 1)] ≫= get_env)
  = Ok (VList [new_entry "THOTH_FORCE_SYNC" (VInt 1)])
  ∧ (_set_env_var (graph_sync []) [("THOTH_FORCE_SYNC", VNone)] ≫= get_env)
    = Ok (VList [new_entry "THOTH_FORCE_SYNC" (VStr "None")]).
Proof. split; reflexivity. Qed.

(** ** Execution *)

Lemma run_bind {A B : Type} (w : world) (m : prog A) (f : A → prog B) :
  ∀ tr, run w tr (m ≫= f)
        = match run w tr m with
          | (tr', Ok a) => run w tr' (f a)
          | (tr', Err e) => (tr', Err e)
          end.
Proof.
  induction m as [a|e|X c k IH]; intros tr; [done|done|].
  cbn [mbind prog_mbind prog_bind run]. apply IH.
Qed.

Lemma run_perform {X : Type} (w : world) (c : call (result X)) (tr : trace) :
  run w tr (perform c) = (tr ++ [existT _ c], w tr _ c).
Proof. unfold perform. cbn [run]. by destruct (w tr _ c). Qed.

(** ** The namespace guards *)

Section guards.
Context `{Printers}.
Variable self : OpenShift.

(** Every operation but [run_solver] raises [ConfigurationError] at once,
    before any call, when a namespace it needs is not set. *)
Lemma frontend_guard :
  truthy (frontend_namespace self) = false →
  ∀ force_sync, ∃ msg, run_sync self force_sync = Raise (ConfigurationError msg).
Proof. intros Hns ?. unfold run_sync. rewrite Hns. by eexists. Qed.

Lemma pod_log_guard :
  truthy (middletier_namespace self) = false →
  ∀ pod_id namespace, truthy namespace = false →
    ∃ msg, get_pod_log self pod_id namespace = Raise (ConfigurationError msg).
Proof.
  intros Hns ? ? Hno. unfold get_pod_log. rewrite Hno, Hns. by eexists.
Qed.

Lemma amun_guard :
  truthy (infra_namespace self) = false
  ∨ truthy (amun_inspection_namespace self) = false →
  (∀ inspection_id, ∃ msg,
     create_inspection_imagestream self inspection_id
     = Raise (ConfigurationError msg))
  ∧ (∀ parameters use_hw_template, ∃ msg,
       create_inspection_buildconfig self parameters use_hw_template
       = Raise (ConfigurationError msg))
  ∧ (∀ parameters use_hw_template, ∃ msg,
       run_inspection_job self parameters use_hw_template
       = Raise (ConfigurationError msg)).
Proof.
  intros Hns.
  unfold create_inspection_imagestream, create_inspection_buildconfig,
    run_inspection_job.
  destruct (truthy (infra_namespace self)),
    (truthy (amun_inspection_namespace self)), Hns as [|];
    try done; repeat split; intros; by eexists.
Qed.

Lemma middletier_guard :
  truthy (middletier_namespace self) = false
  ∨ truthy (infra_namespace self) = false →
  (∀ image output user password verify_tls debug, ∃ msg,
     run_package_extract self image output user password verify_tls debug
     = Raise (ConfigurationError msg))
  ∧ (∀ requirements context stack_output report_output seed dry_run decision
       count debug job_id, ∃ msg,
       run_dependency_monkey self requirements context stack_output
         report_output seed dry_run decision count debug job_id
       = Raise (ConfigurationError msg)).
Proof.
  intros Hns. unfold run_package_extract, run_dependency_monkey.
  destruct (truthy (middletier_namespace self)),
    (truthy (infra_namespace self)), Hns as [|];
    try done; repeat split; intros; by eexists.
Qed.

Lemma backend_guard :
  truthy (backend_namespace self) = false
  ∨ truthy (infra_namespace self) = false →
  (∀ application_stack output recommendation_type count limit
       runtime_environment debug job_id, ∃ msg,
     run_adviser self application_stack output recommendation_type count
       limit runtime_environment debug job_id
     = Raise (ConfigurationError msg))
  ∧ (∀ application_stack output whitelisted_sources debug job_id, ∃ msg,
       run_provenance_checker self application_stack output
         whitelisted_sources debug job_id
       = Raise (ConfigurationError msg)).
Proof.
  intros Hns. unfold run_adviser, run_provenance_checker.
  destruct (truthy (backend_namespace self)),
    (truthy (infra_namespace self)), Hns as [|];
    try done; repeat split; intros; by eexists.
Qed.

Lemma schedule_guard :
  (truthy (amun_inspection_namespace self) = false →
   ∀ inspection_id parameters use_hw_template, ∃ msg,
     schedule_inspection_job self inspection_id parameters use_hw_template
     = Raise (ConfigurationError msg))
  ∧ (truthy (middletier_namespace self) = false →
     ∀ requirements context stack_output report_output seed dry_run decision
       count debug job_id, ∃ msg,
       schedule_dependency_monkey self requirements context stack_output
         report_output seed dry_run decision count debug job_id
       = Raise (ConfigurationError msg))
  ∧ (truthy (backend_namespace self) = false →
     (∀ application_stack output recommendation_type count limit
        runtime_environment debug job_id, ∃ msg,
        schedule_adviser self application_stack output recommendation_type
          count limit runtime_environment debug job_id
        = Raise (ConfigurationError msg))
     ∧ (∀ application_stack output whitelisted_sources debug job_id, ∃ msg,
          schedule_provenance_checker self application_stack output
            whitelisted_sources debug job_id
          = Raise (ConfigurationError msg))).
Proof.
  unfold schedule_inspection_job, schedule_dependency_monkey,
    schedule_adviser, schedule_provenance_checker.
  split; [|split]; intros Hns; [| |split]; intros; rewrite Hns; by eexists.
Qed.

(** [run_solver] has the guard of the infra namespace only. *)
Lemma solver_infra_guard :
  truthy (infra_namespace self) = false →
  ∀ packages output indexes debug api transitive solver, ∃ msg,
    run_solver self packages output indexes debug api transitive solver
    = Raise (ConfigurationError msg).
Proof. intros Hns; intros. unfold run_solver. rewrite Hns. by eexists. Qed.

(** Without a middletier namespace, and with an infra namespace,
    [run_solver] starts by looking the template up in the cluster. *)
Lemma solver_middletier_unguarded :
  truthy (middletier_namespace self) = false →
  truthy (infra_namespace self) = true →
  ∀ packages output indexes debug api transitive solver, ∃ k,
    run_solver self packages output indexes debug api transitive solver
    = Vis (ResourceGet "v1" "Template" (infra_namespace self) None
             (Some "template=solver")) k.
Proof.
  intros _ Hns; intros. unfold run_solver. rewrite Hns. by eexists.
Qed.
End guards.

(** C1, on [run_solver]: the client has no middletier namespace, and
    [run_solver] raises no [ConfigurationError]: against a cluster that
    answers, it looks the template up, has it processed in the namespace
    ["None"], creates the pod and returns.  The exception is built and not
    raised. *)
Theorem run_solver_without_middletier `{Printers} :
  truthy (middletier_namespace no_middletier) = false
  ∧ (∃ k, run_solver no_middletier "tensorflow" "http://result-api" None
            false None true None
          = Vis (ResourceGet "v1" "Template" (Some "thoth-infra") None
                   (Some "template=solver")) k)
  ∧ (run cluster [] (run_solver no_middletier "tensorflow"
                       "http://result-api" None false None true None)).2
    = Ok [("solver-f27", VStr "solver-f27-1")]
  ∧ length (network_calls
              (run cluster [] (run_solver no_middletier "tensorflow"
                                 "http://result-api" None false None true
                                 None)).1) = 3%nat.
Proof.
  split; [done|]. split; [by eexists|]. split; [reflexivity|].
  vm_compute. reflexivity.
Qed.

(** ** The log of a pod *)

(** C9, the claim as stated fails: a response that is neither a success
    nor a client or server error, such as 304, raises nothing; its text is
    returned as the log. *)
Lemma get_pod_log_not_modified :
  (run (serving {| status_code := 304; text := "cached";
                   json := Err TypeError |})
     [] (get_pod_log deployed "solver-1" None)).2
  = Ok (Some "cached").
Proof. reflexivity. Qed.

(** C9, amended: once the namespace is settled and the token is at hand,
    the answer to the log request decides the outcome: 404 raises
    [NotFoundException], 400 returns [None], any other status from 400 to
    599 raises the request failure of [raise_for_status], and every other
    status, the informational and redirection ones included, returns the
    text of the response. *)
Theorem get_pod_log_status (w : world) (self : OpenShift) (pod_id : string)
    (namespace : option string) (bearer : string) (tr : trace)
    (response : http_response) :
  truthy namespace = true ∨ truthy (middletier_namespace self) = true →
  run w [] (token self) = (tr, Ok bearer) →
  w tr _ (RequestsGet
            (kubernetes_api_url self +:+ "/api/v1/namespaces/" +:+
             fmt (if truthy namespace then namespace
                  else middletier_namespace self) +:+
             "/pods/" +:+ pod_id +:+ "/log")
            bearer (kubernetes_verify_tls self)) = Ok response →
  (run w [] (get_pod_log self pod_id namespace)).2
  = if bool_decide (status_code response = 404) then Err NotFoundException
    else if bool_decide (status_code response = 400) then Ok None
    else if bool_decide (400 ≤ status_code response < 600)
         then Err (HTTPError (status_code response))
         else Ok (Some (text response)).
Proof.
  intros Hns Htoken Hw. unfold get_pod_log.
  assert ((if negb (truthy namespace)
           then if negb (truthy (middletier_namespace self))
                then Raise (ConfigurationError
                       "Middletier namespace is required to check log of pods run in this namespace")
                else Ret (middletier_namespace self)
           else Ret namespace)
          = Ret (if truthy namespace then namespace
                 else middletier_namespace self)) as ->.
  { destruct (truthy namespace); [done|].
    destruct Hns as [?|Hm]; [done|]. by rewrite Hm. }
  cbn [mbind prog_mbind prog_bind].
  change (prog_bind ?f ?m) with (m ≫= f).
  rewrite run_bind, Htoken. rewrite run_bind, run_perform, Hw.
  unfold raise_for_status.
  repeat case_bool_decide; try done; lia.
Qed.

Lemma get_pod_log_status_witness :
  (run (serving {| status_code := 503; text := "unavailable";
                   json := Err TypeError |})
     [] (get_pod_log deployed "solver-1" None)).2
  = if bool_decide (503 = 404) then Err NotFoundException
    else if bool_decide (503 = 400) then Ok None
    else if bool_decide (400 ≤ 503 < 600) then Err (HTTPError 503)
         else Ok (Some "unavailable").
Proof.
  apply (get_pod_log_status
           (serving {| status_code := 503; text := "unavailable";
                       json := Err TypeError |})
           deployed "solver-1" None "secret" []
           {| status_code := 503; text := "unavailable";
              json := Err TypeError |}).
  - right. reflexivity.
  - reflexivity.
  - reflexivity.
Defined.

(** * Further properties *)

(** ** Requests to the HTTP API *)

Lemma run_lift {A : Type} (w : world) (tr : trace) (r : result A) :
  run w tr (lift r) = (tr, r).
Proof. by destruct r. Qed.

Lemma run_raise_for_status (w : world) (tr : trace) (response : http_response) :
  run w tr (raise_for_status response)
  = (tr, if bool_decide (400 ≤ status_code response < 600)
         then Err (HTTPError (status_code response)) else Ok tt).
Proof. unfold raise_for_status. by case_bool_decide. Qed.

(** X1: [get_build], [get_buildconfig] and [get_build_log] turn the answer
    to their request into their outcome in the same way: 404 raises
    [NotFoundException], any other status from 400 to 599, 400 included,
    raises the request failure, and every other status returns the
    document (for the log, the text) of the response. *)
Theorem build_requests_status (w : world) (self : OpenShift)
    (id namespace bearer : string) (tr : trace) :
  run w [] (token self) = (tr, Ok bearer) →
  (∀ response,
     w tr _ (RequestsGet
               (openshift_api_url self +:+
                "/apis/build.openshift.io/v1/namespaces/" +:+ namespace +:+
                "/builds/" +:+ id)
               bearer (kubernetes_verify_tls self)) = Ok response →
     (run w [] (get_build self id namespace)).2
     = if bool_decide (status_code response = 404) then Err NotFoundException
       else if bool_decide (400 ≤ status_code response < 600)
            then Err (HTTPError (status_code response))
            else json response)
  ∧ (∀ response,
       w tr _ (RequestsGet
                 (openshift_api_url self +:+
                  "/apis/build.openshift.io/v1/namespaces/" +:+ namespace +:+
                  "/buildconfigs/" +:+ id)
                 bearer (kubernetes_verify_tls self)) = Ok response →
       (run w [] (get_buildconfig self id namespace)).2
       = if bool_decide (status_code response = 404) then Err NotFoundException
         else if bool_decide (400 ≤ status_code response < 600)
              then Err (HTTPError (status_code response))
              else json response)
  ∧ (∀ response,
       w tr _ (RequestsGet
                 (openshift_api_url self +:+
                  "/apis/build.openshift.io/v1/namespaces/" +:+ namespace +:+
                  "/builds/" +:+ id +:+ "/log")
                 bearer (kubernetes_verify_tls self)) = Ok response →
       (run w [] (get_build_log self id namespace)).2
       = if bool_decide (status_code response = 404) then Err NotFoundException
         else if bool_decide (400 ≤ status_code response < 600)
              then Err (HTTPError (status_code response))
              else Ok (text response)).
Proof.
  intros Htoken. repeat split; intros response Hw;
    unfold get_build, get_buildconfig, get_build_log;
    rewrite run_bind, Htoken, run_bind, run_perform, Hw;
    (case_bool_decide; [done|]);
    rewrite run_bind, run_raise_for_status;
    (case_bool_decide; [done|]); rewrite ?run_lift; done.
Qed.

Lemma build_requests_status_witness :
  (run (serving {| status_code := 400; text := "bad request";
                   json := Err TypeError |}) []
     (get_build deployed "inspect-1" "thoth-amun")).2
  = Err (HTTPError 400)
  ∧ (run (serving {| status_code := 400; text := "bad request";
                     json := Err TypeError |}) []
       (get_buildconfig deployed "inspect-1" "thoth-amun")).2
    = Err (HTTPError 400)
  ∧ (run (serving {| status_code := 400; text := "bad request";
                     json := Err TypeError |}) []
       (get_build_log deployed "inspect-1" "thoth-amun")).2
    = Err (HTTPError 400).
Proof.
  destruct (build_requests_status
              (serving {| status_code := 400; text := "bad request";
                          json := Err TypeError |})
              deployed "inspect-1" "thoth-amun" "secret" [] eq_refl)
    as (Hbuild & Hconfig & Hlog).
  split; [|split].
  - apply (Hbuild _ eq_refl).
  - apply (Hconfig _ eq_refl).
  - apply (Hlog _ eq_refl).
Defined.

(** X2: [oc_process] raises the request failure when the cluster answers
    the processing request with a status from 400 to 599, 404 included,
    and returns the document of the response for every other status. *)
Theorem oc_process_status (w : world) (self : OpenShift)
    (namespace : option string) (template : value) (bearer : string)
    (tr0 tr : trace) (response : http_response) :
  run w tr0 (token self) = (tr, Ok bearer) →
  w tr _ (RequestsPost
            (openshift_api_url self +:+
             "/apis/template.openshift.io/v1/namespaces/" +:+
             fmt namespace +:+ "/processedtemplates")
            template bearer (kubernetes_verify_tls self)) = Ok response →
  (run w tr0 (oc_process self namespace template)).2
  = if bool_decide (400 ≤ status_code response < 600)
    then Err (HTTPError (status_code response))
    else json response.
Proof.
  intros Htoken Hw. unfold oc_process.
  rewrite run_bind, Htoken, run_bind, run_perform, Hw.
  rewrite run_bind, run_raise_for_status.
  case_bool_decide; [done|]. by rewrite run_lift.
Qed.

Lemma oc_process_status_witness :
  (run (job_cluster [] VNone {| status_code := 404; text := "";
                                json := Ok VNone |}) []
     (oc_process deployed (Some "thoth-backend") (solver_template []))).2
  = Err (HTTPError 404).
Proof.
  apply (oc_process_status
           (job_cluster [] VNone {| status_code := 404; text := "";
                                    json := Ok VNone |})
           deployed (Some "thoth-backend") (solver_template []) "secret" [] []
           {| status_code := 404; text := ""; json := Ok VNone |});
    reflexivity.
Defined.

(** ** Jobs *)



Lemma run_pod_id_found (w : world) (self : OpenShift) (job_id : string)
    (namespace : option string) (response pod : value) (pod_id : string) :
  w [] _ (ResourceGet "v1" "Pod"
            (if truthy namespace then namespace else infra_namespace self)
            None (Some ("job-name=" +:+ job_id))) = Ok response →
  getitem response "items" = Ok (VList [pod]) →
  metadata_name pod = Ok (VStr pod_id) →
  run w [] (_get_pod_id_from_job self job_id namespace)
  = ([existT _ (ResourceGet "v1" "Pod"
                  (if truthy namespace then namespace
                   else infra_namespace self)
                  None (Some ("job-name=" +:+ job_id)))],
     Ok pod_id).
Proof.
  intros Hw Hitems Hname. unfold _get_pod_id_from_job, or_opt.
  rewrite run_bind, run_perform, Hw. rewrite run_bind, run_lift, Hitems.
  cbn [mbind result_bind len iterate fmap result_fmap length].
  rewrite bool_decide_false by (intros ?; done).
  rewrite run_lift. cbn [mbind result_bind first_item]. by rewrite Hname.
Qed.

(** X4: without a namespace argument and without a middletier namespace,
    [get_job_log] raises [ConfigurationError] only after it has looked the
    pod of the job up in the infra namespace: the check comes after a call
    to the cluster. *)
Theorem get_job_log_checks_late (w : world) (self : OpenShift)
    (job_id : string) (namespace : option string) (response pod : value)
    (pod_id : string) :
  truthy namespace = false →
  truthy (middletier_namespace self) = false →
  w [] _ (ResourceGet "v1" "Pod" (infra_namespace self) None
            (Some ("job-name=" +:+ job_id))) = Ok response →
  getitem response "items" = Ok (VList [pod]) →
  metadata_name pod = Ok (VStr pod_id) →
  ∃ msg,
    run w [] (get_job_log self job_id namespace)
    = ([existT _ (ResourceGet "v1" "Pod" (infra_namespace self) None
                    (Some ("job-name=" +:+ job_id)))],
       Err (ConfigurationError msg)).
Proof.
  intros Hns Hmiddle Hw Hitems Hname. unfold get_job_log.
  rewrite run_bind.
  rewrite (run_pod_id_found w self job_id namespace response pod pod_id)
    by (rewrite ?Hns; done).
  rewrite Hns. unfold get_pod_log. rewrite Hns, Hmiddle. by eexists.
Qed.

Lemma get_job_log_checks_late_witness :
  ∃ msg,
    run (job_cluster [pod_named "solver-1-x7k2p"] VNone
           {| status_code := 200; text := "log"; json := Ok VNone |}) []
      (get_job_log no_middletier "solver-1" None)
    = ([existT _ (ResourceGet "v1" "Pod" (infra_namespace no_middletier) None
                    (Some ("job-name=" +:+ "solver-1")))],
       Err (ConfigurationError msg)).
Proof.
  apply (get_job_log_checks_late
           (job_cluster [pod_named "solver-1-x7k2p"] VNone
              {| status_code := 200; text := "log"; json := Ok VNone |})
           no_middletier "solver-1" None
           (VDict [("items", VList [pod_named "solver-1-x7k2p"])])
           (pod_named "solver-1-x7k2p") "solver-1-x7k2p");
    reflexivity.
Defined.

(** X5: without a namespace argument, [get_job_log] looks the pod of the
    job up in the infra namespace and then asks for the log of that pod in
    the middletier namespace; the answer is turned into the outcome as
    [get_pod_log] does. *)
Theorem get_job_log_two_namespaces (w : world) (self : OpenShift)
    (job_id : string) (namespace : option string) (response pod : value)
    (pod_id bearer : string) (log : http_response) :
  truthy namespace = false →
  truthy (middletier_namespace self) = true →
  _token self = Some bearer →
  w [] _ (ResourceGet "v1" "Pod" (infra_namespace self) None
            (Some ("job-name=" +:+ job_id))) = Ok response →
  getitem response "items" = Ok (VList [pod]) →
  metadata_name pod = Ok (VStr pod_id) →
  w [existT _ (ResourceGet "v1" "Pod" (infra_namespace self) None
                 (Some ("job-name=" +:+ job_id)))] _
    (RequestsGet
       (kubernetes_api_url self +:+ "/api/v1/namespaces/" +:+
        fmt (middletier_namespace self) +:+ "/pods/" +:+ pod_id +:+ "/log")
       bearer (kubernetes_verify_tls self)) = Ok log →
  run w [] (get_job_log self job_id namespace)
  = ([existT _ (ResourceGet "v1" "Pod" (infra_namespace self) None
                  (Some ("job-name=" +:+ job_id)));
      existT _ (RequestsGet
                  (kubernetes_api_url self +:+ "/api/v1/namespaces/" +:+
                   fmt (middletier_namespace self) +:+ "/pods/" +:+
                   pod_id +:+ "/log")
                  bearer (kubernetes_verify_tls self))],
     if bool_decide (status_code log = 404) then Err NotFoundException
     else if bool_decide (status_code log = 400) then Ok None
     else if bool_decide (400 ≤ status_code log < 600)
          then Err (HTTPError (status_code log))
          else Ok (Some (text log))).
Proof.
  intros Hns Hmiddle Htoken Hw Hitems Hname Hlog. unfold get_job_log.
  rewrite run_bind.
  rewrite (run_pod_id_found w self job_id namespace response pod pod_id)
    by (rewrite ?Hns; done).
  rewrite Hns. unfold get_pod_log, token. rewrite Hns, Hmiddle, Htoken.
  cbn [negb mbind prog_mbind prog_bind run].
  change (prog_bind ?f ?m) with (m ≫= f).
  rewrite run_bind, run_perform, Hlog. cbn [app].
  case_bool_decide; [done|]. case_bool_decide; [done|].
  rewrite run_bind, run_raise_for_status.
  case_bool_decide; [done|]. done.
Qed.

Lemma get_job_log_two_namespaces_witness :
  run (job_cluster [pod_named "solver-1-x7k2p"] VNone
         {| status_code := 200; text := "resolved"; json := Ok VNone |}) []
    (get_job_log deployed "solver-1" None)
  = ([existT _ (ResourceGet "v1" "Pod" (Some "thoth-infra") None
                  (Some "job-name=solver-1"));
      existT _ (RequestsGet
                  "https://kubernetes.default.svc.cluster.local/api/v1/namespaces/thoth-middletier/pods/solver-1-x7k2p/log"
                  "secret" true)],
     Ok (Some "resolved")).
Proof.
  apply (get_job_log_two_namespaces
           (job_cluster [pod_named "solver-1-x7k2p"] VNone
              {| status_code := 200; text := "resolved"; json := Ok VNone |})
           deployed "solver-1" None
           (VDict [("items", VList [pod_named "solver-1-x7k2p"])])
           (pod_named "solver-1-x7k2p") "solver-1-x7k2p" "secret"
           {| status_code := 200; text := "resolved"; json := Ok VNone |});
    reflexivity.
Defined.

(** X6: the report of a job is the report of its pod: when the lookup by
    label finds exactly one pod, [get_job_status_report] looks that pod up
    by name, in the namespace as it was given, and normalises its
    document. *)
Theorem get_job_status_report_of_pod (w : world) (self : OpenShift)
    (job_id : string) (namespace : option string) (response pod doc : value)
    (pod_id : string) :
  w [] _ (ResourceGet "v1" "Pod"
            (if truthy namespace then namespace else infra_namespace self)
            None (Some ("job-name=" +:+ job_id))) = Ok response →
  getitem response "items" = Ok (VList [pod]) →
  metadata_name pod = Ok (VStr pod_id) →
  w [existT _ (ResourceGet "v1" "Pod"
                 (if truthy namespace then namespace
                  else infra_namespace self)
                 None (Some ("job-name=" +:+ job_id)))] _
    (ResourceGet "v1" "Pod" namespace (Some pod_id) None) = Ok doc →
  (run w [] (get_job_status_report self job_id namespace)).2 = normalize doc.
Proof.
  intros Hw Hitems Hname Hdoc. unfold get_job_status_report.
  rewrite run_bind.
  rewrite (run_pod_id_found w self job_id namespace response pod pod_id)
    by done.
  unfold get_pod_status_report, get_pod_status, normalize.
  cbn [mbind prog_mbind prog_bind run]. rewrite Hdoc.
  destruct (pod_state doc) as [st|e]; cbn; [|done].
  by destruct (_status_report st).
Qed.

Lemma get_job_status_report_of_pod_witness :
  (run (job_cluster [pod_named "solver-1-x7k2p"]
          (pod_in_state (VDict [("running",
                                 VDict [("startedAt", VStr "2018-11-02")])]))
          {| status_code := 200; text := ""; json := Ok VNone |}) []
     (get_job_status_report deployed "solver-1" (Some "thoth-middletier"))).2
  = normalize
      (pod_in_state (VDict [("running",
                             VDict [("startedAt", VStr "2018-11-02")])])).
Proof.
  apply (get_job_status_report_of_pod
           (job_cluster [pod_named "solver-1-x7k2p"]
              (pod_in_state (VDict [("running",
                                     VDict [("startedAt", VStr "2018-11-02")])]))
              {| status_code := 200; text := ""; json := Ok VNone |})
           deployed "solver-1" (Some "thoth-middletier")
           (VDict [("items", VList [pod_named "solver-1-x7k2p"])])
           (pod_named "solver-1-x7k2p") _ "solver-1-x7k2p");
    reflexivity.
Defined.

(** ** More on the report of a pod *)

(** X7: a pod whose status has no container statuses yet is reported as
    being scheduled, all other fields of the report [None]. *)
Theorem unscheduled_pod_report (w : world) (self : OpenShift)
    (pod_id : string) (namespace : option string) (response status : value) :
  w [] _ (ResourceGet "v1" "Pod" namespace (Some pod_id) None) = Ok response →
  getitem response "status" = Ok status →
  contains status "containerStatuses" = Ok false →
  (run w [] (get_pod_status_report self pod_id namespace)).2
  = Ok scheduling_report.
Proof.
  intros Hw Hstatus Hno.
  rewrite (run_get_pod_status_report _ _ _ _ _ Hw).
  unfold normalize, pod_state. rewrite Hstatus. cbn [mbind result_bind].
  rewrite Hno. reflexivity.
Qed.

Lemma unscheduled_pod_report_witness :
  (run (answering (VDict [("metadata", VDict [("name", VStr "solver-1")]);
                          ("status", VDict [("phase", VStr "Pending")])]))
     [] (get_pod_status_report deployed "solver-1" (Some "thoth-middletier"))).2
  = Ok scheduling_report.
Proof.
  apply (unscheduled_pod_report _ deployed "solver-1" (Some "thoth-middletier")
           (VDict [("metadata", VDict [("name", VStr "solver-1")]);
                   ("status", VDict [("phase", VStr "Pending")])])
           (VDict [("phase", VStr "Pending")]));
    reflexivity.
Defined.

(** X8: a container that terminated with exit code 137 and carries no
    reason makes the report fail with [KeyError] for ["reason"]: the
    renaming of the kill reads the reason without checking that it is
    there. *)
Theorem killed_without_reason (w : world) (self : OpenShift)
    (pod_id : string) (namespace : option string) (response : value)
    (state fields : odict) :
  w [] _ (ResourceGet "v1" "Pod" namespace (Some pod_id) None) = Ok response →
  container_state response = Ok (VDict state) →
  dict_get "terminated" state = Some (VDict fields) →
  dict_get "exitCode" fields = Some (VInt 137) →
  dict_get "reason" fields = None →
  (run w [] (get_pod_status_report self pod_id namespace)).2
  = Err (KeyError "reason").
Proof.
  intros Hw Hstate Hterm Hexit Hreason.
  rewrite (run_get_pod_status_report _ _ _ _ _ Hw). unfold normalize.
  rewrite (pod_state_container _ _ Hstate).
  unfold rename_timeout_kill, get, getitem. rewrite Hterm.
  cbn [mbind result_bind]. rewrite Hexit.
  change (eq_int (VInt 137) 137) with true. cbv iota. by rewrite Hreason.
Qed.

Lemma killed_without_reason_witness :
  (run (answering (pod_in_state
          (VDict [("terminated", VDict [("exitCode", VInt 137);
                                        ("finishedAt", VStr "2018-11-02")])])))
     [] (get_pod_status_report deployed "solver-1" (Some "thoth-middletier"))).2
  = Err (KeyError "reason").
Proof.
  apply (killed_without_reason _ deployed "solver-1" (Some "thoth-middletier")
           (pod_in_state
              (VDict [("terminated", VDict [("exitCode", VInt 137);
                                            ("finishedAt", VStr "2018-11-02")])]))
           [("terminated", VDict [("exitCode", VInt 137);
                                  ("finishedAt", VStr "2018-11-02")])]
           [("exitCode", VInt 137); ("finishedAt", VStr "2018-11-02")]);
    reflexivity.
Defined.

Lemma plain_source (k K : string) :
  K ∈ ["exit_code"; "finished_at"; "started_at"] →
  table_get k _TRANSLATION_TABLE = Some K →
  K = "exit_code" ∧ k = "exitCode" ∨ K = "finished_at" ∧ k = "finishedAt"
  ∨ K = "started_at" ∧ k = "startedAt".
Proof.
  rewrite !elem_of_cons, elem_of_nil.
  unfold table_get, _TRANSLATION_TABLE.
  intros [->|[->|[->|[]]]];
    repeat (case_decide; [subst; intros Heq; first [discriminate Heq|auto]|]);
    done.
Qed.

Lemma state_not_target (k : string) :
  table_get k _TRANSLATION_TABLE ≠ Some "state".
Proof.
  unfold table_get, _TRANSLATION_TABLE.
  repeat (case_decide; [done|]). done.
Qed.

(** The field [(k, v)] of a state reaches the report under [K] when no
    other field name translates to [K]. *)
Lemma status_report_field (state : string) (fields out : odict)
    (k K : string) (v : value) :
  NoDup (keys fields) →
  Forall (λ item, known item.1) fields → Forall typed fields →
  for_each report_field fields (blank_report state) = Ok out →
  table_get k _TRANSLATION_TABLE = Some K →
  (∀ k', table_get k' _TRANSLATION_TABLE = Some K → k' = k) →
  dict_get k fields = Some v →
  dict_get K out = Some (written k v).
Proof.
  intros Hnd Hknown Ht Hout HK Honly Hget.
  apply dict_get_Some_elem, list_elem_of_split in Hget as (pre & post & ->).
  apply NoDup_keys_split in Hnd as [_ Hpost].
  destruct (for_each_report_last K k v pre post (blank_report state)
              Hknown Ht (complete_blank state) HK)
    as (out' & Hout' & _ & Hget).
  { intros k' Hin Hk'. apply Honly in Hk'. by subst k'. }
  assert (out' = out) as -> by congruence. done.
Qed.

(** X9: the report of a single-key status names that key as its state,
    and carries the exit code and the two timestamps of the state,
    unchanged, under [exit_code], [finished_at] and [started_at]. *)
Theorem status_report_copies (state : string) (fields : odict) :
  NoDup (keys fields) →
  Forall (λ item, known item.1) fields → Forall typed fields →
  ∃ out, _status_report (VDict [(state, VDict fields)]) = Ok (VDict out)
    ∧ dict_get "state" out = Some (VStr state)
    ∧ (∀ v, dict_get "exitCode" fields = Some v →
            dict_get "exit_code" out = Some v)
    ∧ (∀ v, dict_get "finishedAt" fields = Some v →
            dict_get "finished_at" out = Some v)
    ∧ (∀ v, dict_get "startedAt" fields = Some v →
            dict_get "started_at" out = Some v).
Proof.
  intros Hnd Hknown Ht.
  destruct (for_each_report_total fields (blank_report state) Hknown Ht
              (complete_blank state)) as (out & Hout & _).
  exists out. rewrite status_report_single. simpl. rewrite Hout.
  split; [done|]. split.
  { rewrite (for_each_report_preserves "state" _ _ _ Hout); [done|].
    intros k _. apply state_not_target. }
  assert (∀ k K v,
            table_get k _TRANSLATION_TABLE = Some K →
            K ∈ ["exit_code"; "finished_at"; "started_at"] →
            dict_get k fields = Some v → dict_get K out = Some v) as Hcopy.
  { intros k K v HK Hplain Hget.
    rewrite (status_report_field state fields out k K v Hnd Hknown Ht Hout HK);
      [| |done].
    - unfold written. rewrite decide_False; [done|]. intros ->.
      vm_compute in HK. injection HK as <-.
      revert Hplain. rewrite !elem_of_cons, elem_of_nil.
      intros [?|[?|[?|[]]]]; done.
    - intros k' Hk'.
      destruct (plain_source _ _ Hplain Hk') as [[-> ->]|[[-> ->]|[-> ->]]];
        destruct (plain_source _ _ Hplain HK) as [[? ->]|[[? ->]|[? ->]]];
        done. }
  repeat split; intros v Hget.
  - apply (Hcopy "exitCode" _ v eq_refl); [repeat constructor|done].
  - apply (Hcopy "finishedAt" _ v eq_refl); [repeat constructor|done].
  - apply (Hcopy "startedAt" _ v eq_refl); [repeat constructor|done].
Qed.

Lemma status_report_copies_witness :
  ∃ out, _status_report
           (VDict [("terminated",
                    VDict [("exitCode", VInt 0);
                           ("finishedAt", VStr "2018-11-02T10:00:00Z");
                           ("reason", VStr "Completed")])])
         = Ok (VDict out)
    ∧ dict_get "state" out = Some (VStr "terminated")
    ∧ (∀ v, dict_get "exitCode" [("exitCode", VInt 0);
                                 ("finishedAt", VStr "2018-11-02T10:00:00Z");
                                 ("reason", VStr "Completed")] = Some v →
            dict_get "exit_code" out = Some v)
    ∧ (∀ v, dict_get "finishedAt" [("exitCode", VInt 0);
                                   ("finishedAt", VStr "2018-11-02T10:00:00Z");
                                   ("reason", VStr "Completed")] = Some v →
            dict_get "finished_at" out = Some v)
    ∧ (∀ v, dict_get "startedAt" [("exitCode", VInt 0);
                                  ("finishedAt", VStr "2018-11-02T10:00:00Z");
                                  ("reason", VStr "Completed")] = Some v →
            dict_get "started_at" out = Some v).
Proof.
  apply (status_report_copies "terminated"
           [("exitCode", VInt 0);
            ("finishedAt", VStr "2018-11-02T10:00:00Z");
            ("reason", VStr "Completed")]).
  - apply (bool_decide_unpack _). vm_compute. exact I.
  - repeat constructor; eexists; reflexivity.
  - repeat constructor; intros [=].
Defined.

(** X10: a field of the report that no field of the state translates to
    stays [None]. *)
Theorem status_report_absent (state : string) (fields : odict) (K : string) :
  Forall (λ item, known item.1) fields → Forall typed fields →
  K ∈ ["exit_code"; "finished_at"; "reason"; "started_at"; "container"] →
  (∀ k, k ∈ keys fields → table_get k _TRANSLATION_TABLE ≠ Some K) →
  ∃ out, _status_report (VDict [(state, VDict fields)]) = Ok (VDict out)
         ∧ dict_get K out = Some VNone.
Proof.
  intros Hknown Ht HK Hnone.
  destruct (for_each_report_total fields (blank_report state) Hknown Ht
              (complete_blank state)) as (out & Hout & _).
  exists out. rewrite status_report_single. simpl. rewrite Hout.
  split; [done|].
  rewrite (for_each_report_preserves K _ _ _ Hout Hnone).
  revert HK. rewrite !elem_of_cons, elem_of_nil.
  intros [->|[->|[->|[->|[->|[]]]]]]; reflexivity.
Qed.

Lemma status_report_absent_witness :
  ∃ out, _status_report
           (VDict [("running", VDict [("startedAt", VStr "2018-11-02")])])
         = Ok (VDict out)
         ∧ dict_get "exit_code" out = Some VNone.
Proof.
  apply (status_report_absent "running" [("startedAt", VStr "2018-11-02")]).
  - repeat constructor; eexists; reflexivity.
  - repeat constructor; intros [=].
  - repeat constructor.
  - intros k [->|[]%elem_of_nil]%elem_of_cons. discriminate.
Defined.

(** ** More on the upserts *)

Lemma set_template_parameters_twice_witness :
  @set_template_parameters terse
    (VDict [("metadata", VDict [("name", VStr "solver")]);
            ("parameters",
             VList [new_entry "THOTH_LOG_SOLVER" (VStr "DEBUG");
                    new_entry "THOTH_SOLVER_NO_TRANSITIVE" (VStr "1")])])
    [("THOTH_SOLVER_NO_TRANSITIVE", VInt 1); ("THOTH_LOG_SOLVER", VStr "DEBUG")]
  = Ok (VDict [("metadata", VDict [("name", VStr "solver")]);
               ("parameters",
                VList [new_entry "THOTH_LOG_SOLVER" (VStr "DEBUG");
                       new_entry "THOTH_SOLVER_NO_TRANSITIVE" (VStr "1")])]).
Proof.
  apply (@set_template_parameters_idempotent terse
           (solver_template [new_entry "THOTH_LOG_SOLVER" (VStr "INFO")])
           _
           [("THOTH_SOLVER_NO_TRANSITIVE", VInt 1);
            ("THOTH_LOG_SOLVER", VStr "DEBUG")]).
  - apply (bool_decide_unpack _). vm_compute. exact I.
  - reflexivity.
Defined.

Lemma set_parameter_step_contract_witness :
  (∃ t', @set_parameter_step terse
           (solver_template [new_entry "THOTH_LOG_SOLVER" (VStr "INFO");
                             new_entry "THOTH_SOLVER_OUTPUT" (VStr "-");
                             new_entry "THOTH_SOLVER_OUTPUT" (VStr "-")])
           ("THOTH_SOLVER_OUTPUT", VNone) = Ok t'
         ∧ getitem t' "parameters"
           = Ok (VList ([new_entry "THOTH_LOG_SOLVER" (VStr "INFO")] ++
                        new_entry "THOTH_SOLVER_OUTPUT" (VStr "")
                        :: [new_entry "THOTH_SOLVER_OUTPUT" (VStr "-")])))
  ∧ (∃ t', @set_parameter_step terse
             (solver_template [new_entry "THOTH_LOG_SOLVER" (VStr "INFO")])
             ("THOTH_SOLVER_INDEXES", VInt 3) = Ok t'
           ∧ getitem t' "parameters"
             = Ok (VList ([new_entry "THOTH_LOG_SOLVER" (VStr "INFO")] ++
                          [new_entry "THOTH_SOLVER_INDEXES" (VStr "3")]))).
Proof.
  split.
  - destruct (@set_parameter_step_contract terse
                (solver_template [new_entry "THOTH_LOG_SOLVER" (VStr "INFO");
                                  new_entry "THOTH_SOLVER_OUTPUT" (VStr "-");
                                  new_entry "THOTH_SOLVER_OUTPUT" (VStr "-")])
                [new_entry "THOTH_LOG_SOLVER" (VStr "INFO");
                 new_entry "THOTH_SOLVER_OUTPUT" (VStr "-");
                 new_entry "THOTH_SOLVER_OUTPUT" (VStr "-")]
                "THOTH_SOLVER_OUTPUT" VNone eq_refl) as (Hfirst & _ & _).
    apply (Hfirst [new_entry "THOTH_LOG_SOLVER" (VStr "INFO")]
             (new_entry "THOTH_SOLVER_OUTPUT" (VStr "-"))
             (new_entry "THOTH_SOLVER_OUTPUT" (VStr ""))
             [new_entry "THOTH_SOLVER_OUTPUT" (VStr "-")]).
    + reflexivity.
    + repeat constructor; eexists; reflexivity.
    + apply (bool_decide_unpack _). vm_compute. exact I.
    + reflexivity.
    + reflexivity.
  - destruct (@set_parameter_step_contract terse
                (solver_template [new_entry "THOTH_LOG_SOLVER" (VStr "INFO")])
                [new_entry "THOTH_LOG_SOLVER" (VStr "INFO")]
                "THOTH_SOLVER_INDEXES" (VInt 3) eq_refl) as (_ & Hnew & _).
    apply Hnew.
    + repeat constructor; eexists; reflexivity.
    + apply (bool_decide_unpack _). vm_compute. exact I.
Defined.

(** In settled entries the first entry of the name holds the value. *)
Lemma settled_first (name : string) (x : value) (entries : list value) :
  settled name x entries →
  ∃ pre e post,
    entries = pre ++ e :: post ∧ (name ∉ names pre)
    ∧ entry_name e = Some name ∧ getitem e "value" = Ok x.
Proof.
  unfold settled. induction entries as [|e0 l IH]; [done|].
  intros (n & Hn & [[Heq (e' & He' & [= He'l])]|[Heq (r & Hr & Hrl)]])
    %overwrite_first_inv.
  - subst e'. exists [], e0, l. split; [done|].
    split; [apply not_elem_of_nil|]. apply eq_str_true in Heq as ->.
    split; [by apply entry_name_Some|].
    destruct e0 as [a|l0|d]; [done|done|]. injection He' as Hd.
    cbn. rewrite <- Hd. by rewrite dict_get_set_eq.
  - destruct r as [l'|]; [|done]. injection Hrl as ->.
    destruct (IH Hr) as (pre & e & post & -> & Hpre & He & Hv).
    exists (e0 :: pre), e, post. split; [done|]. split; [|done].
    rewrite names_cons. destruct (entry_name e0) as [n0|] eqn:Hn0; [|done].
    apply not_elem_of_cons. split; [|done]. intros ->.
    apply entry_name_Some in Hn0. rewrite Hn0 in Hn. injection Hn as <-.
    simpl in Heq. by rewrite bool_decide_true in Heq.
Qed.

Section lookup.
Context `{Printers}.

(** X13: after [set_template_parameters] every name of the mapping can be
    read back: the first parameter of that name holds the string of the
    value the mapping gives it, the empty string for [None]. *)
Theorem set_template_parameters_lookup (template template' : value)
    (mapping : list (string * value)) (name : string) (x : value) :
  NoDup mapping.*1 →
  set_template_parameters template mapping = Ok template' →
  (name, x) ∈ mapping →
  ∃ pre e post,
    getitem template' "parameters" = Ok (VList (pre ++ e :: post))
    ∧ (name ∉ names pre) ∧ entry_name e = Some name
    ∧ getitem e "value" = Ok (VStr (str_or_empty x)).
Proof.
  intros Hnd Hrun Hin. unfold set_template_parameters in Hrun.
  destruct template as [a|l|d]; [done|done|]. cbn [getitem contains] in Hrun.
  destruct (dict_get "metadata" d) as [metadata|]; [|done].
  cbn [mbind result_bind] in Hrun.
  destruct (getitem metadata "name") as [n|e]; [|done].
  cbn [mbind result_bind] in Hrun.
  assert (∃ d0, for_each set_parameter_step mapping (VDict d0) = Ok template')
    as [d0 Hloop].
  { destruct (dict_has "parameters" d); cbn [mbind result_bind setitem] in Hrun;
      eauto. }
  destruct (set_parameters_loop_Ok _ _ _ Hloop) as (d' & -> & _ & _ & Hlist).
  destruct Hlist as [entries Hentries].
  { intros ->. by apply elem_of_nil in Hin. }
  destruct (loop_settles _ (λ t, getitem t "parameters")
              (λ x, VStr (str_or_empty x))
              set_parameter_step_view mapping Hnd (VDict d0) (VDict d') entries)
    as (entries' & Hview' & Hall); [by cbn; rewrite Hentries|done|].
  destruct (settled_first _ _ _ (Hall _ _ Hin))
    as (pre & e1 & post & -> & Hpre & He1 & Hv).
  by exists pre, e1, post.
Qed.
End lookup.

Lemma set_template_parameters_lookup_witness :
  ∃ pre e post,
    getitem (VDict [("metadata", VDict [("name", VStr "solver")]);
                    ("parameters",
                     VList [new_entry "THOTH_LOG_SOLVER" (VStr "DEBUG");
                            new_entry "THOTH_SOLVER_INDEXES" (VStr "")])])
      "parameters" = Ok (VList (pre ++ e :: post))
    ∧ ("THOTH_SOLVER_INDEXES" ∉ names pre)
    ∧ entry_name e = Some "THOTH_SOLVER_INDEXES"
    ∧ getitem e "value" = Ok (VStr (@str_or_empty terse VNone)).
Proof.
  apply (@set_template_parameters_lookup terse
           (solver_template [new_entry "THOTH_LOG_SOLVER" (VStr "INFO")])
           _
           [("THOTH_LOG_SOLVER", VStr "DEBUG"); ("THOTH_SOLVER_INDEXES", VNone)]
           "THOTH_SOLVER_INDEXES" VNone).
  - apply (bool_decide_unpack _). vm_compute. exact I.
  - reflexivity.
  - right. left.
Defined.

Section strings.
Context `{Printers}.

(** Writing back the environment that is there changes nothing. *)
Lemma put_env_same (t env : value) :
  get_env t = Ok env → put_env t env = Ok t.
Proof.
  unfold get_env, put_env.
  destruct t as [a|l|d]; [done|done|]. cbn [getitem].
  destruct (dict_get "spec" d) as [spec|] eqn:Hspec; [|done].
  cbn [mbind result_bind].
  destruct spec as [a|l|sd]; [done|done|]. cbn [getitem].
  destruct (dict_get "containers" sd) as [cs|] eqn:Hcs; [|done].
  cbn [mbind result_bind].
  destruct cs as [[| | |[|ch s]]|[|c l]|cd]; try done.
  cbn [first_item mbind result_bind].
  destruct c as [a|l'|cd]; [done|done|]. cbn [getitem setitem].
  destruct (dict_get "env" cd) as [env0|] eqn:Henv; [|done].
  intros [= ->]. cbn [mbind result_bind set_first_item setitem].
  by rewrite (dict_set_same _ _ _ Henv), (dict_set_same _ _ _ Hcs),
    (dict_set_same _ _ _ Hspec).
Qed.

(** A round of [_set_env_var] that succeeds found a list as environment. *)
Lemma set_env_var_step_Ok (t t1 : value) (item : string * value) :
  set_env_var_step t item = Ok t1 → ∃ entries, get_env t = Ok (VList entries).
Proof.
  destruct item as [name x]. unfold set_env_var_step.
  destruct (get_env t) as [env|e]; [|done]. cbn [mbind result_bind].
  destruct env as [[| | |s]|entries|d]; try done.
  - destruct s as [|c s]; cbn; [done|done].
  - by exists entries.
  - destruct d as [|[k v] d]; cbn; [done|done].
Qed.

(** X14: for values that are strings [_set_env_var] is idempotent:
    applied again, with the same mapping, to the template it produced, it
    changes nothing. *)
Theorem set_env_var_idempotent_strings (template template' : value)
    (mapping : list (string * value)) :
  NoDup mapping.*1 →
  Forall (λ item, ∃ s, item.2 = VStr s) mapping →
  _set_env_var template mapping = Ok template' →
  _set_env_var template' mapping = Ok template'.
Proof.
  intros Hnd Hstr. unfold _set_env_var.
  assert (∀ t, for_each set_env_var_step mapping t
               = for_each (λ t item,
                             set_env_var_step t (item.1, VStr (str item.2)))
                   mapping t) as Hsame.
  { clear Hnd. induction Hstr as [|[n x] mapping [s Hs] _ IH]; intros t; [done|].
    simpl in Hs. subst x. cbn [for_each fst snd].
    change (str (VStr s)) with s.
    destruct (set_env_var_step t (n, VStr s)); [apply IH|done]. }
  rewrite !Hsame. clear Hsame. intros Hrun.
  destruct mapping as [|[n x] mapping]; [done|].
  assert (∃ entries, get_env template = Ok (VList entries)) as [entries Hview].
  { cbn [for_each] in Hrun.
    destruct (set_env_var_step template ((n, x).1, VStr (str (n, x).2)))
      as [t1|e] eqn:Hstep; [|done].
    by eapply set_env_var_step_Ok. }
  eapply (loop_idempotent _ get_env (λ x, VStr (str x))); [| |done|done|done].
  - intros t l name y Hl.
    apply (set_env_var_step_view t l name (VStr (str y)) Hl).
  - intros t l name y Hl Hs. unfold set_env_var_step. rewrite Hl.
    cbn [mbind result_bind iterate]. rewrite Hs. cbn [mbind result_bind].
    by apply put_env_same.
Qed.
End strings.

Lemma set_env_var_idempotent_strings_witness :
  @_set_env_var terse
    (VDict [("metadata", VDict [("name", VStr "graph-sync")]);
            ("spec",
             VDict [("containers",
                     VList [VDict [("name", VStr "graph-sync");
                                   ("image", VStr "graph-sync-job");
                                   ("env",
                                    VList [new_entry "THOTH_LOG" (VStr "DEBUG");
                                           new_entry "THOTH_FORCE_SYNC"
                                             (VStr "1")])]])])])
    [("THOTH_FORCE_SYNC", VStr "1"); ("THOTH_LOG", VStr "DEBUG")]
  = Ok (VDict [("metadata", VDict [("name", VStr "graph-sync")]);
               ("spec",
                VDict [("containers",
                        VList [VDict [("name", VStr "graph-sync");
                                      ("image", VStr "graph-sync-job");
                                      ("env",
                                       VList [new_entry "THOTH_LOG" (VStr "DEBUG");
                                              new_entry "THOTH_FORCE_SYNC"
                                                (VStr "1")])]])])]).
Proof.
  apply (@set_env_var_idempotent_strings terse
           (graph_sync [new_entry "THOTH_LOG" (VStr "INFO")]) _
           [("THOTH_FORCE_SYNC", VStr "1"); ("THOTH_LOG", VStr "DEBUG")]).
  - apply (bool_decide_unpack _). vm_compute. exact I.
  - repeat constructor; eexists; reflexivity.
  - reflexivity.
Defined.

(** ** Operations that stop early *)

Section early.
Context `{Printers}.
Variables (self : OpenShift) (w : world).

(** X15: the operations that start or create something in the cluster, and
    [get_pod_log] without a namespace argument, raise [ConfigurationError]
    without having called anything when a namespace they need is not set;
    for [run_solver] this holds for the infra namespace. *)
Theorem run_guards :
  (truthy (frontend_namespace self) = false →
   ∀ force_sync, ∃ msg,
     run w [] (run_sync self force_sync) = ([], Err (ConfigurationError msg)))
  ∧ (truthy (middletier_namespace self) = false →
     ∀ pod_id namespace, truthy namespace = false → ∃ msg,
       run w [] (get_pod_log self pod_id namespace)
       = ([], Err (ConfigurationError msg)))
  ∧ (truthy (infra_namespace self) = false
     ∨ truthy (amun_inspection_namespace self) = false →
     (∀ inspection_id, ∃ msg,
        run w [] (create_inspection_imagestream self inspection_id)
        = ([], Err (ConfigurationError msg)))
     ∧ (∀ parameters use_hw_template, ∃ msg,
          run w [] (create_inspection_buildconfig self parameters
                      use_hw_template)
          = ([], Err (ConfigurationError msg)))
     ∧ (∀ parameters use_hw_template, ∃ msg,
          run w [] (run_inspection_job self parameters use_hw_template)
          = ([], Err (ConfigurationError msg))))
  ∧ (truthy (middletier_namespace self) = false
     ∨ truthy (infra_namespace self) = false →
     (∀ image output user password verify_tls debug, ∃ msg,
        run w [] (run_package_extract self image output user password
                    verify_tls debug)
        = ([], Err (ConfigurationError msg)))
     ∧ (∀ requirements context stack_output report_output seed dry_run
          decision count debug job_id, ∃ msg,
          run w [] (run_dependency_monkey self requirements context
                      stack_output report_output seed dry_run decision count
                      debug job_id)
          = ([], Err (ConfigurationError msg))))
  ∧ (truthy (backend_namespace self) = false
     ∨ truthy (infra_namespace self) = false →
     (∀ application_stack output recommendation_type count limit
        runtime_environment debug job_id, ∃ msg,
        run w [] (run_adviser self application_stack output
                    recommendation_type count limit runtime_environment debug
                    job_id)
        = ([], Err (ConfigurationError msg)))
     ∧ (∀ application_stack output whitelisted_sources debug job_id, ∃ msg,
          run w [] (run_provenance_checker self application_stack output
                      whitelisted_sources debug job_id)
          = ([], Err (ConfigurationError msg))))
  ∧ (truthy (infra_namespace self) = false →
     (∀ packages output indexes debug api transitive solver, ∃ msg,
        run w [] (run_solver self packages output indexes debug api
                    transitive solver)
        = ([], Err (ConfigurationError msg)))
     ∧ ∃ msg, run w [] (get_solver_names self)
              = ([], Err (ConfigurationError msg))).
Proof.
  split; [|split; [|split; [|split; [|split]]]].
  - intros Hns ?. destruct (frontend_guard self Hns force_sync) as [msg ->].
    by exists msg.
  - intros Hns ? ? Hno.
    destruct (pod_log_guard self Hns pod_id namespace Hno) as [msg ->].
    by exists msg.
  - intros Hns. destruct (amun_guard self Hns) as (H1 & H2 & H3).
    split; [|split]; intros.
    + destruct (H1 inspection_id) as [msg ->]. by exists msg.
    + destruct (H2 parameters use_hw_template) as [msg ->]. by exists msg.
    + destruct (H3 parameters use_hw_template) as [msg ->]. by exists msg.
  - intros Hns. destruct (middletier_guard self Hns) as (H1 & H2).
    split; intros.
    + destruct (H1 image output user password verify_tls debug) as [msg ->].
      by exists msg.
    + destruct (H2 requirements context stack_output report_output seed
                  dry_run decision count debug job_id) as [msg ->].
      by exists msg.
  - intros Hns. destruct (backend_guard self Hns) as (H1 & H2).
    split; intros.
    + destruct (H1 application_stack output recommendation_type count limit
                  runtime_environment debug job_id) as [msg ->].
      by exists msg.
    + destruct (H2 application_stack output whitelisted_sources debug job_id)
        as [msg ->].
      by exists msg.
  - intros Hns. split; intros.
    + destruct (solver_infra_guard self Hns packages output indexes debug api
                  transitive solver) as [msg ->].
      by exists msg.
    + unfold get_solver_names. rewrite Hns. by eexists.
Qed.

(** X16: the four scheduling operations raise [ConfigurationError] without
    having called anything, not even the random generator, when the
    namespace they schedule in is not set. *)
Theorem schedule_guards :
  (truthy (amun_inspection_namespace self) = false →
   ∀ inspection_id parameters use_hw_template, ∃ msg,
     run w [] (schedule_inspection_job self inspection_id parameters
                 use_hw_template)
     = ([], Err (ConfigurationError msg)))
  ∧ (truthy (middletier_namespace self) = false →
     ∀ requirements context stack_output report_output seed dry_run decision
       count debug job_id, ∃ msg,
       run w [] (schedule_dependency_monkey self requirements context
                   stack_output report_output seed dry_run decision count
                   debug job_id)
       = ([], Err (ConfigurationError msg)))
  ∧ (truthy (backend_namespace self) = false →
     (∀ application_stack output recommendation_type count limit
        runtime_environment debug job_id, ∃ msg,
        run w [] (schedule_adviser self application_stack output
                    recommendation_type count limit runtime_environment debug
                    job_id)
        = ([], Err (ConfigurationError msg)))
     ∧ (∀ application_stack output whitelisted_sources debug job_id, ∃ msg,
          run w [] (schedule_provenance_checker self application_stack output
                      whitelisted_sources debug job_id)
          = ([], Err (ConfigurationError msg)))).
Proof.
  destruct (schedule_guard self) as (H1 & H2 & H3).
  split; [|split]; intros Hns; [| |split]; intros.
  - destruct (H1 Hns inspection_id parameters use_hw_template) as [msg ->].
    by exists msg.
  - destruct (H2 Hns requirements context stack_output report_output seed
                dry_run decision count debug job_id) as [msg ->].
    by exists msg.
  - destruct (H3 Hns) as [Hadviser _].
    destruct (Hadviser application_stack output recommendation_type count limit
                runtime_environment debug job_id) as [msg ->].
    by exists msg.
  - destruct (H3 Hns) as [_ Hchecker].
    destruct (Hchecker application_stack output whitelisted_sources debug
                job_id) as [msg ->].
    by exists msg.
Qed.

(** X17: when the lookup of the template does not find exactly one
    template, every operation that works from a template raises
    [RuntimeError] after that one lookup: nothing is processed and nothing
    is created. *)
Theorem one_template_or_nothing (response : value) (found : list value) :
  truthy (infra_namespace self) = true →
  truthy (amun_inspection_namespace self) = true →
  truthy (middletier_namespace self) = true →
  truthy (backend_namespace self) = true →
  (∀ selector,
     w [] _ (ResourceGet "v1" "Template" (infra_namespace self) None
               (Some selector)) = Ok response) →
  getitem response "items" = Ok (VList found) →
  length found ≠ 1%nat →
  (∀ inspection_id,
     run w [] (create_inspection_imagestream self inspection_id)
     = ([existT _ (ResourceGet "v1" "Template" (infra_namespace self) None
                     (Some "template=amun-inspect-imagestream"))],
        Err RuntimeError))
  ∧ (∀ parameters use_hw_template,
       run w [] (create_inspection_buildconfig self parameters
                   use_hw_template)
       = ([existT _ (ResourceGet "v1" "Template" (infra_namespace self) None
                       (Some (if use_hw_template
                              then "template=amun-inspect-buildconfig-with-cpu"
                              else "template=amun-inspect-buildconfig")))],
          Err RuntimeError))
  ∧ (∀ parameters use_hw_template,
       run w [] (run_inspection_job self parameters use_hw_template)
       = ([existT _ (ResourceGet "v1" "Template" (infra_namespace self) None
                       (Some (if use_hw_template
                              then "template=amun-inspect-job-with-cpu"
                              else "template=amun-inspect-job")))],
          Err RuntimeError))
  ∧ (∀ packages output indexes debug api transitive solver,
       run w [] (run_solver self packages output indexes debug api
                   transitive solver)
       = ([existT _ (ResourceGet "v1" "Template" (infra_namespace self) None
                       (Some "template=solver"))],
          Err RuntimeError))
  ∧ (∀ image output user password verify_tls debug,
       run w [] (run_package_extract self image output user password
                   verify_tls debug)
       = ([existT _ (ResourceGet "v1" "Template" (infra_namespace self) None
                       (Some "template=package-extract"))],
          Err RuntimeError))
  ∧ (∀ requirements context stack_output report_output seed dry_run decision
       count debug job_id,
       run w [] (run_dependency_monkey self requirements context
                   stack_output report_output seed dry_run decision count
                   debug job_id)
       = ([existT _ (ResourceGet "v1" "Template" (infra_namespace self) None
                       (Some "template=dependency-monkey"))],
          Err RuntimeError))
  ∧ (∀ application_stack output recommendation_type count limit
       runtime_environment debug job_id,
       run w [] (run_adviser self application_stack output
                   recommendation_type count limit runtime_environment debug
                   job_id)
       = ([existT _ (ResourceGet "v1" "Template" (infra_namespace self) None
                       (Some "template=adviser"))],
          Err RuntimeError))
  ∧ (∀ application_stack output whitelisted_sources debug job_id,
       run w [] (run_provenance_checker self application_stack output
                   whitelisted_sources debug job_id)
       = ([existT _ (ResourceGet "v1" "Template" (infra_namespace self) None
                       (Some "template=provenance-checker"))],
          Err RuntimeError))
  ∧ run w [] (get_solver_names self)
    = ([existT _ (ResourceGet "v1" "Template" (infra_namespace self) None
                    (Some "template=solver"))],
       Err RuntimeError).
Proof.
  intros Hinfra Hamun Hmiddle Hbackend Hw Hitems Hlen.
  assert (_raise_on_invalid_response_size response = Err RuntimeError) as Hsize.
  { unfold _raise_on_invalid_response_size. rewrite Hitems.
    cbn [mbind result_bind iterate]. by rewrite bool_decide_true. }
  assert (∀ (A : Type) selector (rest : value → prog A),
            run w [] (response ← get_templates self selector;
                      _ ← lift (_raise_on_invalid_response_size response);
                      rest response)
            = ([existT _ (ResourceGet "v1" "Template" (infra_namespace self)
                            None (Some selector))],
               Err RuntimeError)) as Hstop.
  { intros A selector rest. unfold get_templates.
    rewrite run_bind, run_perform, Hw. rewrite run_bind, run_lift, Hsize.
    done. }
  unfold create_inspection_imagestream, create_inspection_buildconfig,
    run_inspection_job, run_solver, run_package_extract,
    run_dependency_monkey, run_adviser, run_provenance_checker,
    get_solver_names.
  rewrite Hinfra, Hamun, Hmiddle, Hbackend. cbn [negb].
  repeat split; intros; by rewrite Hstop.
Qed.
End early.

Lemma one_template_or_nothing_witness :
  run (answering (VDict [("items", VList [])])) []
    (@run_solver terse deployed "tensorflow" "http://result-api" None false
       None true None)
  = ([existT _ (ResourceGet "v1" "Template" (Some "thoth-infra") None
                  (Some "template=solver"))],
     Err RuntimeError)
  ∧ run (answering (VDict [("items", VList [])])) []
      (@run_adviser terse deployed (VDict []) "http://result-api" "stable"
         None None VNone false None)
    = ([existT _ (ResourceGet "v1" "Template" (Some "thoth-infra") None
                    (Some "template=adviser"))],
       Err RuntimeError).
Proof.
  destruct (@one_template_or_nothing terse deployed
              (answering (VDict [("items", VList [])]))
              (VDict [("items", VList [])]) [])
    as (_ & _ & _ & Hsolver & _ & _ & Hadviser & _); try reflexivity.
  - simpl. lia.
  - split; [apply Hsolver|apply Hadviser].
Defined.

(** ** Scheduling *)

Section scheduling.
Context `{Printers}.
Variables (self : OpenShift) (w : world).

Lemma run_schedule_job (method : string) (parameters : value)
    (job_id : string) (namespace : option string) :
  ∃ body,
    run w [] (_schedule_job self method parameters job_id namespace)
    = ([existT _ (ResourceCreate (VStr "v1") (VStr "ConfigMap") body None)],
       (λ _, job_id)
         <$> w [] _ (ResourceCreate (VStr "v1") (VStr "ConfigMap") body None))
    ∧ schedules body job_id namespace method.
Proof.
  exists (VDict [("apiVersion", VStr "v1"); ("kind", VStr "ConfigMap");
                 ("data", VDict [("method", VStr method);
                                 ("parameters",
                                  VStr (json_dumps parameters))]);
                 ("metadata",
                  VDict [("labels", VDict [("app", VStr "thoth");
                                           ("operator", VStr "workload")]);
                         ("name", VStr job_id);
                         ("namespace", of_str namespace)])]).
  split.
  - unfold _schedule_job, create_config_map, perform.
    cbn [mbind prog_mbind prog_bind run app].
    by destruct (w [] _ _).
  - by repeat split.
Qed.

(** X18: given a job id, a scheduling operation draws no random number
    and makes one call: it creates a ConfigMap named by the job id, in the
    namespace the operation schedules in, labelled for the workload
    operator and naming the [run_] operation to be run.  It returns the
    job id when the cluster accepted the ConfigMap, and the error of the
    cluster otherwise. *)
Theorem schedule_with_job_id (job_id : string) :
  truthy (Some job_id) = true →
  (truthy (amun_inspection_namespace self) = true →
   ∀ parameters use_hw_template, ∃ body,
     run w [] (schedule_inspection_job self job_id parameters use_hw_template)
     = ([existT _ (ResourceCreate (VStr "v1") (VStr "ConfigMap") body None)],
        (λ _, job_id)
          <$> w [] _ (ResourceCreate (VStr "v1") (VStr "ConfigMap") body None))
     ∧ schedules body job_id (amun_inspection_namespace self)
         "run_inspection_job")
  ∧ (truthy (middletier_namespace self) = true →
     ∀ requirements context stack_output report_output seed dry_run decision
       count debug, ∃ body,
       run w [] (schedule_dependency_monkey self requirements context
                   stack_output report_output seed dry_run decision count
                   debug (Some job_id))
       = ([existT _ (ResourceCreate (VStr "v1") (VStr "ConfigMap") body None)],
          (λ _, job_id)
            <$> w [] _ (ResourceCreate (VStr "v1") (VStr "ConfigMap") body
                          None))
       ∧ schedules body job_id (middletier_namespace self)
           "run_dependency_monkey")
  ∧ (truthy (backend_namespace self) = true →
     (∀ application_stack output recommendation_type count limit
        runtime_environment debug, ∃ body,
        run w [] (schedule_adviser self application_stack output
                    recommendation_type count limit runtime_environment debug
                    (Some job_id))
        = ([existT _ (ResourceCreate (VStr "v1") (VStr "ConfigMap") body None)],
           (λ _, job_id)
             <$> w [] _ (ResourceCreate (VStr "v1") (VStr "ConfigMap") body
                           None))
        ∧ schedules body job_id (backend_namespace self) "run_adviser")
     ∧ (∀ application_stack output whitelisted_sources debug, ∃ body,
          run w [] (schedule_provenance_checker self application_stack output
                      whitelisted_sources debug (Some job_id))
          = ([existT _ (ResourceCreate (VStr "v1") (VStr "ConfigMap") body
                          None)],
             (λ _, job_id)
               <$> w [] _ (ResourceCreate (VStr "v1") (VStr "ConfigMap") body
                             None))
          ∧ schedules body job_id (backend_namespace self)
              "run_provenance_checker")).
Proof.
  intros Hjob.
  unfold schedule_inspection_job, schedule_dependency_monkey,
    schedule_adviser, schedule_provenance_checker, job_id_or.
  rewrite Hjob. cbn [fmt default mbind prog_mbind prog_bind negb].
  split; [|split]; intros Hns; rewrite Hns; cbn [negb]; [| |split]; intros;
    apply run_schedule_job.
Qed.
End scheduling.

Lemma schedule_with_job_id_witness :
  ∃ body,
    run cluster []
      (@schedule_adviser terse deployed (VDict []) "http://result-api"
         "stable" None None VNone false (Some "adviser-42"))
    = ([existT _ (ResourceCreate (VStr "v1") (VStr "ConfigMap") body None)],
       (λ _, "adviser-42")
         <$> cluster [] _ (ResourceCreate (VStr "v1") (VStr "ConfigMap") body
                             None))
    ∧ schedules body "adviser-42" (backend_namespace deployed) "run_adviser".
Proof.
  destruct (@schedule_with_job_id terse deployed cluster "adviser-42" eq_refl)
    as (_ & _ & Hbackend).
  destruct (Hbackend eq_refl) as [Hadviser _].
  apply Hadviser.
Defined.

(** ** Generated identifiers *)

Lemma append_cons (ch : ascii) (a b : string) :
  String ch a +:+ b = String ch (a +:+ b).
Proof. reflexivity. Qed.

Lemma append_assoc (a b c : string) : (a +:+ b) +:+ c = a +:+ (b +:+ c).
Proof.
  induction a as [|ch a IH]; [reflexivity|]. by rewrite !append_cons, IH.
Qed.

Lemma length_append (a b : string) :
  String.length (a +:+ b) = (String.length a + String.length b)%nat.
Proof.
  induction a as [|ch a IH]; [reflexivity|].
  rewrite append_cons. simpl. by rewrite IH.
Qed.

Lemma append_inj_length (a b c d : string) :
  String.length a = String.length b → a +:+ c = b +:+ d → a = b ∧ c = d.
Proof.
  revert b. induction a as [|ch a IH]; intros [|ch' b]; try discriminate.
  - intros _ Heq. split; [reflexivity|exact Heq].
  - rewrite !append_cons. intros [= Hlen] [= -> Heq].
    destruct (IH _ Hlen Heq) as [-> ->]. done.
Qed.

Lemma hex_digit_inj (a b : Z) :
  0 ≤ a < 16 → 0 ≤ b < 16 → hex_digit a = hex_digit b → a = b.
Proof.
  intros Ha Hb. unfold hex_digit.
  assert (Z.to_nat a < 16)%nat as Hna by lia.
  assert (Z.to_nat b < 16)%nat as Hnb by lia.
  intros Heq. apply Z2Nat.inj; [lia|lia|].
  revert Hna Hnb Heq. generalize (Z.to_nat a) (Z.to_nat b). clear.
  intros na nb Hna Hnb.
  do 16 (destruct na as [|na];
         [do 16 (destruct nb as [|nb];
                 [cbn; intros; first [reflexivity|discriminate]|]); lia|]).
  lia.
Qed.

Lemma hex_pad_append (width : nat) (n : Z) (acc : string) :
  hex_pad width n acc = hex_pad width n "" +:+ acc.
Proof.
  revert n acc. induction width as [|width IH]; intros n acc; [done|].
  cbn [hex_pad]. rewrite (IH _ (String _ acc)), (IH _ (String _ "")).
  by rewrite append_assoc.
Qed.

Lemma hex_pad_length (width : nat) (n : Z) :
  String.length (hex_pad width n "") = width.
Proof.
  revert n. induction width as [|width IH]; intros n; [done|].
  cbn [hex_pad]. rewrite hex_pad_append, length_append, IH. simpl. lia.
Qed.

(** Numbers below [16 ^ width] are told apart by their digits. *)
Lemma hex_pad_inj (width : nat) (n m : Z) :
  0 ≤ n < 16 ^ Z.of_nat width → 0 ≤ m < 16 ^ Z.of_nat width →
  hex_pad width n "" = hex_pad width m "" → n = m.
Proof.
  revert n m. induction width as [|width IH]; intros n m Hn Hm.
  - simpl in *. lia.
  - rewrite Nat2Z.inj_succ, Z.pow_succ_r in Hn, Hm by lia.
    cbn [hex_pad]. rewrite (hex_pad_append _ (n / 16)), (hex_pad_append _ (m / 16)).
    intros [Hhigh [= Hlow]]%append_inj_length;
      [|by rewrite !hex_pad_length].
    apply IH in Hhigh;
      [|split; [apply Z.div_pos; lia|apply Z.div_lt_upper_bound; lia]..].
    apply hex_digit_inj in Hlow; [|apply Z.mod_pos_bound; lia..].
    rewrite (Z.div_mod n 16), (Z.div_mod m 16) by lia. lia.
Qed.

(** X19: an identifier is the prefix, a dash and sixteen hexadecimal
    digits, and two identifiers made from different 64-bit random numbers
    differ. *)
Theorem generate_id_distinct (w1 w2 : world) (prefix : string) :
  0 ≤ w1 [] _ (GetRandBits 64) < 2 ^ 64 →
  0 ≤ w2 [] _ (GetRandBits 64) < 2 ^ 64 →
  ∃ id1 id2,
    (run w1 [] (_generate_id prefix)).2 = Ok id1
    ∧ (run w2 [] (_generate_id prefix)).2 = Ok id2
    ∧ String.length id1 = (String.length prefix + 17)%nat
    ∧ String.length id2 = (String.length prefix + 17)%nat
    ∧ (id1 = id2 → w1 [] _ (GetRandBits 64) = w2 [] _ (GetRandBits 64)).
Proof.
  intros H1 H2. unfold _generate_id, ask.
  cbn [mbind prog_mbind prog_bind run snd].
  eexists _, _. split; [done|]. split; [done|].
  rewrite !length_append, !hex_pad_length. simpl. split; [lia|]. split; [lia|].
  intros Heq. apply (inj (String.append prefix)) in Heq.
  apply (inj (String.append "-")) in Heq.
  apply (hex_pad_inj 16); [| |done]; change (16 ^ Z.of_nat 16) with (2 ^ 64);
    done.
Qed.

Lemma generate_id_distinct_witness :
  ∃ id1 id2,
    (run cluster [] (_generate_id "adviser")).2 = Ok id1
    ∧ (run (λ _ X c, match c in call X return X with
                     | GetRandBits _ => 48879
                     | c => cluster [] _ c
                     end) [] (_generate_id "adviser")).2 = Ok id2
    ∧ String.length id1 = (String.length "adviser" + 17)%nat
    ∧ String.length id2 = (String.length "adviser" + 17)%nat
    ∧ (id1 = id2 → (0 : Z) = 48879).
Proof.
  apply (generate_id_distinct cluster
           (λ _ X c, match c in call X return X with
                     | GetRandBits _ => 48879
                     | c => cluster [] _ c
                     end) "adviser").
  - vm_compute. by split.
  - vm_compute. by split.
Defined.

(** ** The solvers of an installation *)

Lemma map_result_Forall2 {A B : Type} (f : A → result B) (xs : list A)
    (ys : list B) :
  Forall2 (λ x y, f x = Ok y) xs ys → map_result f xs = Ok ys.
Proof.
  induction 1 as [|x y xs ys Hx _ IH]; [done|].
  cbn [map_result]. rewrite Hx. cbn. rewrite IH. done.
Qed.

(** X20: with an infra namespace and exactly one solver template,
    [get_solver_names] makes the one template lookup, does not have the
    template processed, and returns the component labels of the template's
    objects in the order of the objects. *)
Theorem solver_names_in_order (self : OpenShift) (w : world)
    (response template : value) (objects names : list value) :
  truthy (infra_namespace self) = true →
  w [] _ (ResourceGet "v1" "Template" (infra_namespace self) None
            (Some "template=solver")) = Ok response →
  getitem response "items" = Ok (VList [template]) →
  getitem template "objects" = Ok (VList objects) →
  Forall2 (λ obj name,
             path obj ["metadata"; "labels"; "component"] = Ok name)
    objects names →
  run w [] (get_solver_names self)
  = ([existT _ (ResourceGet "v1" "Template" (infra_namespace self) None
                  (Some "template=solver"))], Ok names).
Proof.
  intros Hinfra Hw Hitems Hobjects Hnames. unfold get_solver_names.
  rewrite Hinfra. cbn [negb]. unfold get_templates.
  rewrite run_bind, run_perform, Hw. cbn [app].
  unfold _raise_on_invalid_response_size, first_template.
  rewrite Hitems. cbn -[path]. rewrite Hobjects. cbn -[path].
  rewrite (map_result_Forall2 _ _ _ Hnames). done.
Qed.

Lemma solver_names_in_order_witness :
  run (answering
         (VDict [("items",
                  VList [VDict [("objects",
                                 VList [solver_object "solver-f27";
                                        solver_object "solver-rhel8"])]])]))
    [] (get_solver_names deployed)
  = ([existT _ (ResourceGet "v1" "Template" (infra_namespace deployed) None
                  (Some "template=solver"))],
     Ok [VStr "solver-f27"; VStr "solver-rhel8"]).
Proof.
  apply (solver_names_in_order deployed _
           (VDict [("items",
                    VList [VDict [("objects",
                                   VList [solver_object "solver-f27";
                                          solver_object "solver-rhel8"])]])])
           (VDict [("objects", VList [solver_object "solver-f27";
                                      solver_object "solver-rhel8"])])
           [solver_object "solver-f27"; solver_object "solver-rhel8"]).
  - reflexivity.
  - reflexivity.
  - reflexivity.
  - reflexivity.
  - repeat constructor.
Defined.

(** ** What the operations never do *)

Section always.
Variable Q : ∀ X : Type, call X → Prop.

Lemma always_bind {A B : Type} (R : A → Prop) (P : B → Prop) (m : prog A)
    (f : A → prog B) :
  always Q R m → (∀ a, R a → always Q P (f a)) → always Q P (m ≫= f).
Proof.
  intros Hm Hf. induction m as [a|e|X c k IH]; cbn in *; [auto|done|].
  destruct Hm as [Hc Hk]. split; [done|]. intros x. apply IH, Hk.
Qed.

Lemma always_lift {A : Type} (P : A → Prop) (r : result A) :
  (∀ a, r = Ok a → P a) → always Q P (lift r).
Proof. destruct r; cbn; auto. Qed.


Lemma always_for_each_prog {A B : Type} (I : A → Prop)
    (body : A → B → prog A) (xs : list B) :
  (∀ a x, I a → always Q I (body a x)) →
  ∀ a, I a → always Q I (for_each_prog body xs a).
Proof.
  intros Hbody. induction xs as [|x xs IH]; intros a Ha; [done|].
  cbn [for_each_prog]. eapply always_bind; [by apply Hbody|]. apply IH.
Qed.

(** What [always] promises holds of every run. *)
Lemma always_run {A : Type} (P : A → Prop) (w : world) (p : prog A) :
  always Q P p → ∀ tr, all_calls Q tr →
  all_calls Q (run w tr p).1 ∧ ∀ a, (run w tr p).2 = Ok a → P a.
Proof.
  induction p as [a|e|X c k IH]; cbn [always run]; intros Hp tr Htr.
  - split; [done|]. by intros ? [= <-].
  - split; [done|]. by intros ? [=].
  - destruct Hp as [Hc Hk]. apply IH; [apply Hk|].
    apply Forall_app. split; [done|]. by constructor.
Qed.
End always.













(** ** Namespaces *)

Ltac always_auto :=
  repeat lazymatch goal with
  | |- always _ _ (_ ≫= _) =>
      apply always_bind with (R := λ _, True); [|intros ? _]
  | |- always _ _ (lift _) => apply always_lift; intros; exact I
  | |- always _ _ (Ret _) => exact I
  | |- always _ _ (Raise _) => exact I
  | |- always _ _ (Vis _ _) =>
      split; [first [exact I|reflexivity]|intros ?]
  | |- always _ _ (if ?b then _ else _) => destruct b
  | |- always _ _ (match ?x with _ => _ end) => destruct x
  | |- always _ _ (for_each_prog _ _ _) =>
      apply always_for_each_prog; [intros ? ? _|exact I]
  | |- always _ _ _ =>
      first [progress cbv zeta
            |progress unfold job_id_or, _generate_id, ask, oc_process,
               create_object, get_templates, token, raise_for_status, perform,
               start_solver, _schedule_job, create_config_map]
  end.

Section namespaces.
Context `{Printers}.
Variable self : OpenShift.


Lemma create_inspection_imagestream_namespaces inspection_id :
  always (in_namespaces (infra_namespace self)
            (amun_inspection_namespace self))
    (λ _, True) (create_inspection_imagestream self inspection_id).
Proof. unfold create_inspection_imagestream. always_auto. Qed.

Lemma create_inspection_buildconfig_namespaces parameters use_hw_template :
  always (in_namespaces (infra_namespace self)
            (amun_inspection_namespace self))
    (λ _, True)
    (create_inspection_buildconfig self parameters use_hw_template).
Proof. unfold create_inspection_buildconfig. always_auto. Qed.

Lemma run_inspection_job_namespaces parameters use_hw_template :
  always (in_namespaces (infra_namespace self)
            (amun_inspection_namespace self))
    (λ _, True) (run_inspection_job self parameters use_hw_template).
Proof. unfold run_inspection_job. always_auto. Qed.






Lemma always_trace {A : Type} (Q : ∀ X : Type, call X → Prop) (w : world)
    (p : prog A) :
  always Q (λ _, True) p → all_calls Q (run w [] p).1.
Proof.
  intros Hp. refine (proj1 (always_run Q (λ _, True) w p Hp [] _)).
  constructor.
Qed.

End namespaces.

(** ** The constructor *)

(** What a client that was constructed is made of. *)
Lemma init_inv (os : platform)
    (frontend_namespace_arg middletier_namespace_arg backend_namespace_arg
     infra_namespace_arg kubernetes_api_url_arg : option string)
    (kubernetes_verify_tls_arg : bool)
    (openshift_api_url_arg token_arg : option string) (self : OpenShift) :
  __init__ os frontend_namespace_arg middletier_namespace_arg
    backend_namespace_arg infra_namespace_arg kubernetes_api_url_arg
    kubernetes_verify_tls_arg openshift_api_url_arg token_arg = Ok self →
  ∃ verify,
    match getenv os "KUBERNETES_VERIFY_TLS" with
    | Some s => int_of_text os s
    | None => Ok 1
    end = Ok verify
    ∧ kubernetes_verify_tls self
      = negb (bool_decide (verify = 0)) && kubernetes_verify_tls_arg
    ∧ in_cluster self
      = match in_cluster_config os with Ok _ => true | Err _ => false end
    ∧ _token self = token_arg
    ∧ amun_inspection_namespace self
      = or_opt frontend_namespace_arg
          (getenv os "THOTH_AMUN_INSPECTION_NAMESAPCE")
    ∧ frontend_namespace self
      = or_opt frontend_namespace_arg (getenv os "THOTH_FRONTEND_NAMESPACE")
    ∧ infra_namespace self
      = or_opt infra_namespace_arg (getenv os "THOTH_INFRA_NAMESPACE").
Proof.
  unfold __init__. intros Hinit.
  destruct (match getenv os "KUBERNETES_VERIFY_TLS" with
            | Some s => int_of_text os s
            | None => Ok 1
            end) as [verify|e]; [|done].
  exists verify. split; [done|]. cbn in Hinit.
  destruct (in_cluster_config os) as [host|e]; cbn in Hinit.
  - by injection Hinit as <-.
  - destruct (local_config os) as [host|e']; cbn in Hinit; [|done].
    by injection Hinit as <-.
Qed.

(** X24: a client constructed with a non-empty frontend namespace argument
    uses that namespace as its Amun inspection namespace too, whatever the
    environment says: the inspection operations create their objects
    there. *)
Theorem init_frontend_argument `{Printers} (os : platform) (frontend : string)
    (middletier_namespace_arg backend_namespace_arg infra_namespace_arg
     kubernetes_api_url_arg : option string) (kubernetes_verify_tls_arg : bool)
    (openshift_api_url_arg token_arg : option string) (self : OpenShift)
    (w : world) :
  frontend ≠ "" →
  __init__ os (Some frontend) middletier_namespace_arg backend_namespace_arg
    infra_namespace_arg kubernetes_api_url_arg kubernetes_verify_tls_arg
    openshift_api_url_arg token_arg = Ok self →
  frontend_namespace self = Some frontend
  ∧ amun_inspection_namespace self = Some frontend
  ∧ (∀ inspection_id,
       all_calls (in_namespaces (infra_namespace self) (Some frontend))
         (run w [] (create_inspection_imagestream self inspection_id)).1)
  ∧ (∀ parameters use_hw_template,
       all_calls (in_namespaces (infra_namespace self) (Some frontend))
         (run w [] (create_inspection_buildconfig self parameters
                      use_hw_template)).1)
  ∧ (∀ parameters use_hw_template,
       all_calls (in_namespaces (infra_namespace self) (Some frontend))
         (run w [] (run_inspection_job self parameters use_hw_template)).1).
Proof.
  intros Hfrontend (verify & _ & _ & _ & _ & Hamun & Hfe & _)%init_inv.
  assert (truthy (Some frontend) = true) as Htruthy by by destruct frontend.
  unfold or_opt in Hamun, Hfe. rewrite Htruthy in Hamun, Hfe.
  split; [done|]. split; [done|]. rewrite <- Hamun.
  repeat split; intros; apply always_trace.
  - apply create_inspection_imagestream_namespaces.
  - apply create_inspection_buildconfig_namespaces.
  - apply run_inspection_job_namespaces.
Qed.

Lemma init_frontend_argument_witness :
  frontend_namespace workstation_client = Some "thoth-test"
  ∧ amun_inspection_namespace workstation_client = Some "thoth-test"
  ∧ (∀ inspection_id,
       all_calls (in_namespaces (infra_namespace workstation_client)
                    (Some "thoth-test"))
         (run cluster [] (@create_inspection_imagestream terse
                            workstation_client inspection_id)).1)
  ∧ (∀ parameters use_hw_template,
       all_calls (in_namespaces (infra_namespace workstation_client)
                    (Some "thoth-test"))
         (run cluster [] (@create_inspection_buildconfig terse
                            workstation_client parameters use_hw_template)).1)
  ∧ (∀ parameters use_hw_template,
       all_calls (in_namespaces (infra_namespace workstation_client)
                    (Some "thoth-test"))
         (run cluster [] (@run_inspection_job terse workstation_client
                            parameters use_hw_template)).1).
Proof.
  apply (@init_frontend_argument terse workstation "thoth-test" None None
           (Some "thoth-infra") None true None None workstation_client
           cluster).
  - discriminate.
  - reflexivity.
Defined.

(** X25: a client constructed without a token reads it on demand, from the
    service account when the in-cluster configuration could be loaded and
    from the local configuration when construction fell back to it. *)
Theorem init_token_source (os : platform)
    (frontend_namespace_arg middletier_namespace_arg backend_namespace_arg
     infra_namespace_arg kubernetes_api_url_arg : option string)
    (kubernetes_verify_tls_arg : bool) (openshift_api_url_arg : option string)
    (self : OpenShift) (w : world) :
  __init__ os frontend_namespace_arg middletier_namespace_arg
    backend_namespace_arg infra_namespace_arg kubernetes_api_url_arg
    kubernetes_verify_tls_arg openshift_api_url_arg None = Ok self →
  run w [] (token self)
  = match in_cluster_config os with
    | Ok _ => ([existT _ ServiceAccountToken], w [] _ ServiceAccountToken)
    | Err _ =>
        ([existT _ ConfiguredBearerToken], w [] _ ConfiguredBearerToken)
    end.
Proof.
  intros (verify & _ & _ & Hin & Htoken & _)%init_inv.
  unfold token. rewrite Htoken, Hin.
  destruct (in_cluster_config os); apply (run_perform w _ []).
Qed.

Lemma init_token_source_witness :
  run cluster [] (token workstation_client)
  = ([existT _ ConfiguredBearerToken], cluster [] _ ConfiguredBearerToken).
Proof.
  apply (init_token_source workstation (Some "thoth-test") None None
           (Some "thoth-infra") None true None workstation_client cluster).
  reflexivity.
Defined.

(** X26: the requests of a constructed client check the server's
    certificate only if the constructor was asked to and the environment
    variable KUBERNETES_VERIFY_TLS is absent or reads as a number other
    than zero. *)
Theorem init_verify_tls (os : platform)
    (frontend_namespace_arg middletier_namespace_arg backend_namespace_arg
     infra_namespace_arg kubernetes_api_url_arg : option string)
    (kubernetes_verify_tls_arg : bool)
    (openshift_api_url_arg token_arg : option string) (self : OpenShift)
    (w : world) :
  __init__ os frontend_namespace_arg middletier_namespace_arg
    backend_namespace_arg infra_namespace_arg kubernetes_api_url_arg
    kubernetes_verify_tls_arg openshift_api_url_arg token_arg = Ok self →
  ∃ verify,
    match getenv os "KUBERNETES_VERIFY_TLS" with
    | Some s => int_of_text os s
    | None => Ok 1
    end = Ok verify
    ∧ ∀ v, v = negb (bool_decide (verify = 0)) && kubernetes_verify_tls_arg →
      (∀ pod_id namespace,
         all_calls (verifies_as v)
           (run w [] (get_pod_log self pod_id namespace)).1)
      ∧ (∀ build_id namespace,
           all_calls (verifies_as v)
             (run w [] (get_build self build_id namespace)).1)
      ∧ (∀ buildconfig_id namespace,
           all_calls (verifies_as v)
             (run w [] (get_buildconfig self buildconfig_id namespace)).1)
      ∧ (∀ build_id namespace,
           all_calls (verifies_as v)
             (run w [] (get_build_log self build_id namespace)).1)
      ∧ (∀ namespace template,
           all_calls (verifies_as v)
             (run w [] (oc_process self namespace template)).1).
Proof.
  intros (verify & Hverify & Htls & _)%init_inv.
  exists verify. split; [done|]. intros v ->. rewrite <- Htls.
  repeat split; intros; apply always_trace.
  - unfold get_pod_log. always_auto.
  - unfold get_build. always_auto.
  - unfold get_buildconfig. always_auto.
  - unfold get_build_log. always_auto.
  - always_auto.
Qed.

Lemma init_verify_tls_witness :
  ∃ verify,
    match getenv workstation "KUBERNETES_VERIFY_TLS" with
    | Some s => int_of_text workstation s
    | None => Ok 1
    end = Ok verify
    ∧ ∀ v, v = negb (bool_decide (verify = 0)) && true →
      (∀ pod_id namespace,
         all_calls (verifies_as v)
           (run cluster [] (get_pod_log workstation_client pod_id
                              namespace)).1)
      ∧ (∀ build_id namespace,
           all_calls (verifies_as v)
             (run cluster [] (get_build workstation_client build_id
                                namespace)).1)
      ∧ (∀ buildconfig_id namespace,
           all_calls (verifies_as v)
             (run cluster [] (get_buildconfig workstation_client
                                buildconfig_id namespace)).1)
      ∧ (∀ build_id namespace,
           all_calls (verifies_as v)
             (run cluster [] (get_build_log workstation_client build_id
                                namespace)).1)
      ∧ (∀ namespace template,
           all_calls (verifies_as v)
             (run cluster [] (oc_process workstation_client namespace
                                template)).1).
Proof.
  apply (init_verify_tls workstation (Some "thoth-test") None None
           (Some "thoth-infra") None true None None workstation_client
           cluster).
  reflexivity.
Defined.

(** ** Lookups that find nothing *)

(** X27: when the cluster answers a lookup with its not-found error, the
    lookups of a pod by name and of jobs by label raise
    [NotFoundException], while the lookup of the pod of a job, and with it
    the status report and the log of a job, let the cluster's own error
    through. *)
Theorem lookups_not_found (self : OpenShift) (w : world) :
  (∀ tr api_version kind namespace name label_selector,
     w tr _ (ResourceGet api_version kind namespace name label_selector)
     = Err NotFoundError) →
  (∀ pod_id namespace,
     (run w [] (get_pod_status self pod_id namespace)).2
     = Err NotFoundException)
  ∧ (∀ pod_id namespace,
       (run w [] (get_pod_status_report self pod_id namespace)).2
       = Err NotFoundException)
  ∧ (∀ label_selector namespace,
       (run w [] (get_jobs self label_selector namespace)).2
       = Err NotFoundException)
  ∧ (∀ job_id namespace,
       (run w [] (get_job_status_report self job_id namespace)).2
       = Err NotFoundError)
  ∧ (∀ job_id namespace,
       (run w [] (get_job_log self job_id namespace)).2 = Err NotFoundError).
Proof.
  intros Hw.
  assert (∀ job_id namespace,
            run w [] (_get_pod_id_from_job self job_id namespace)
            = ([existT _ (ResourceGet "v1" "Pod"
                            (or_opt namespace (infra_namespace self)) None
                            (Some ("job-name=" +:+ job_id)))],
               Err NotFoundError)) as Hpod.
  { intros. unfold _get_pod_id_from_job.
    rewrite run_bind, run_perform, Hw. done. }
  repeat split; intros.
  - unfold get_pod_status. cbn [run]. by rewrite Hw.
  - unfold get_pod_status_report, get_pod_status.
    cbn [mbind prog_mbind prog_bind run]. by rewrite Hw.
  - unfold get_jobs. cbn [run]. by rewrite Hw.
  - unfold get_job_status_report. by rewrite run_bind, Hpod.
  - unfold get_job_log. by rewrite run_bind, Hpod.
Qed.

Lemma lookups_not_found_witness :
  (∀ pod_id namespace,
     (run (serving {| status_code := 200; text := ""; json := Ok VNone |}) []
        (get_pod_status deployed pod_id namespace)).2
     = Err NotFoundException)
  ∧ (∀ pod_id namespace,
       (run (serving {| status_code := 200; text := ""; json := Ok VNone |})
          [] (get_pod_status_report deployed pod_id namespace)).2
       = Err NotFoundException)
  ∧ (∀ label_selector namespace,
       (run (serving {| status_code := 200; text := ""; json := Ok VNone |})
          [] (get_jobs deployed label_selector namespace)).2
       = Err NotFoundException)
  ∧ (∀ job_id namespace,
       (run (serving {| status_code := 200; text := ""; json := Ok VNone |})
          [] (get_job_status_report deployed job_id namespace)).2
       = Err NotFoundError)
  ∧ (∀ job_id namespace,
       (run (serving {| status_code := 200; text := ""; json := Ok VNone |})
          [] (get_job_log deployed job_id namespace)).2 = Err NotFoundError).
Proof.
  apply (lookups_not_found deployed
           (serving {| status_code := 200; text := ""; json := Ok VNone |})).
  reflexivity.
Defined.

(** ** The guards at work *)

Lemma run_guards_witness :
  (∃ msg, run cluster [] (@run_sync terse unconfigured false)
          = ([], Err (ConfigurationError msg)))
  ∧ (∃ msg, run cluster [] (get_pod_log unconfigured "solver-1" None)
            = ([], Err (ConfigurationError msg)))
  ∧ (∃ msg, run cluster [] (@run_inspection_job terse unconfigured [] false)
            = ([], Err (ConfigurationError msg)))
  ∧ (∃ msg, run cluster []
              (@run_package_extract terse unconfigured "fedora:29"
                 "http://result-api" None None true false)
            = ([], Err (ConfigurationError msg)))
  ∧ (∃ msg, run cluster []
              (@run_adviser terse unconfigured (VDict []) "http://result-api"
                 "stable" None None VNone false None)
            = ([], Err (ConfigurationError msg)))
  ∧ (∃ msg, run cluster []
              (@run_solver terse unconfigured "tensorflow"
                 "http://result-api" None false None true None)
            = ([], Err (ConfigurationError msg))).
Proof.
  destruct (@run_guards terse unconfigured cluster)
    as (Hfrontend & Hlog & Hamun & Hmiddletier & Hbackend & Hinfra).
  split; [apply (Hfrontend eq_refl)|].
  split; [apply (Hlog eq_refl "solver-1" None eq_refl)|].
  split; [apply (Hamun (or_introl eq_refl))|].
  split; [apply (Hmiddletier (or_introl eq_refl))|].
  split; [apply (Hbackend (or_introl eq_refl))|].
  apply (Hinfra eq_refl).
Defined.

Lemma schedule_guards_witness :
  (∃ msg, run cluster []
            (@schedule_inspection_job terse unconfigured "inspect-1" [] false)
          = ([], Err (ConfigurationError msg)))
  ∧ (∃ msg, run cluster []
              (@schedule_dependency_monkey terse unconfigured (VDict [])
                 (VDict []) None None None false None None false None)
            = ([], Err (ConfigurationError msg)))
  ∧ (∃ msg, run cluster []
              (@schedule_adviser terse unconfigured (VDict [])
                 "http://result-api" "stable" None None VNone false None)
            = ([], Err (ConfigurationError msg))).
Proof.
  destruct (@schedule_guards terse unconfigured cluster)
    as (Hamun & Hmiddletier & Hbackend).
  split; [apply (Hamun eq_refl)|].
  split; [apply (Hmiddletier eq_refl)|].
  apply (Hbackend eq_refl).
Defined.
